(** * omero-iviewer controls: dimension slider and channel settings

    A shallow embedding of [src/controls/dimension-slider.js] and
    [src/controls/channel-settings.js].

    Both classes are Aurelia view-models: methods mutate [this], the shared
    image configuration, the jQuery-UI slider control and the event bus.
    Every method is embedded as a function in a state-and-exception monad
    over a record that holds the instance fields together with the parts of
    the environment the method can reach. *)

From Stdlib Require Import ZArith QArith Qround Ascii String List Bool Lia Lqa.
From stdpp Require Import gmap strings pretty.

Close Scope Q_scope.
Open Scope Z_scope.
Open Scope string_scope.
Open Scope list_scope.

(** ** JavaScript numbers and completions *)

(** Numbers coming from the slider control are fractional (the control is
    created with [step: 0.01]); they are embedded as exact rationals.
    Model indices ([dimensions], [projection_opts]) are integers.  A value
    of type [option _] in a numeric position stands for a number ([Some])
    or for a value that is no number ([None]: [undefined], [null], [NaN]). *)

(** [Math.round]: nearest integer, ties towards plus infinity. *)
Definition Math_round (x : Q) : Z := Qfloor (x + (1 # 2))%Q.

(** [Math.ceil] and [Math.floor]. *)
Definition Math_ceil (x : Q) : Z := Qceiling x.
Definition Math_floor (x : Q) : Z := Qfloor x.

(** [Math.round(parseFloat(v))] for [v] a number or a non-number:
    [parseFloat] of a number is that number, of [undefined] is [NaN],
    and [Math.round(NaN)] is [NaN]. *)
Definition round_parseFloat (v : option Q) : option Z :=
  match v with
  | Some x => Some (Math_round x)
  | None => None
  end.

(** [String.prototype.toUpperCase] on ASCII letters. *)
Definition upper_ascii (c : ascii) : ascii :=
  let n := nat_of_ascii c in
  if (Nat.leb 97 n && Nat.leb n 122)%bool then ascii_of_nat (n - 32) else c.

Fixpoint toUpperCase (s : string) : string :=
  match s with
  | EmptyString => EmptyString
  | String c s' => String (upper_ascii c) (toUpperCase s')
  end.

(** Strict equality [===] of two rationals read as JavaScript numbers. *)
Definition num_eqb (x y : Q) : bool := Qeq_bool x y.

(** [x < y], [x <= y] on numbers. *)
Definition num_ltb (x y : Q) : bool := negb (Qle_bool y x).
Definition num_leb (x y : Q) : bool := Qle_bool x y.

(** How the evaluation of a method body ends. *)
Inductive Completion (A : Type) : Type :=
| Normal (a : A)
| Throw (error : string).
Arguments Normal {A} a.
Arguments Throw {A} error.

(** A method over instance-and-environment state [S].  A thrown error keeps
    the mutations made before it. *)
Definition Js (S A : Type) : Type := S -> Completion A * S.

Section Monad.
Context {S : Type}.

Definition ret {A} (a : A) : Js S A := fun s => (Normal a, s).

Definition and_then {A B} (m : Js S A) (k : A -> Js S B) : Js S B :=
  fun s =>
    match m s with
    | (Normal a, s') => k a s'
    | (Throw e, s') => (Throw e, s')
    end.

Definition throw {A} (e : string) : Js S A := fun s => (Throw e, s).

Definition get : Js S S := fun s => (Normal s, s).

Definition modify (f : S -> S) : Js S unit := fun s => (Normal tt, f s).

(** [try { m } catch (ignored) {}] *)
Definition try_catch_ignored (m : Js S unit) : Js S unit :=
  fun s =>
    match m s with
    | (Normal a, s') => (Normal a, s')
    | (Throw _, s') => (Normal tt, s')
    end.

(** [l.map(f)] used for its effects only, and [for] loops over a list. *)
Fixpoint for_each {A} (f : A -> Js S unit) (l : list A) : Js S unit :=
  match l with
  | [] => ret tt
  | x :: l' => and_then (f x) (fun _ => for_each f l')
  end.
End Monad.

Notation "'let*' x ':=' m 'in' k" := (and_then m (fun x => k))
  (at level 10, x name, m at level 100, k at level 200).
Notation "m ;; k" := (and_then m (fun _ => k))
  (at level 100, k at level 200, right associativity).

(** The final state and the completion of a run. *)
Definition exec {S A} (m : Js S A) (s : S) : S := snd (m s).
Definition completion {S A} (m : Js S A) (s : S) : Completion A := fst (m s).

Definition returns {S A} (m : Js S A) (s : S) : Prop :=
  exists a, completion m s = Normal a.

(** ** The shared image model *)

(** [PROJECTION] of [utils/constants]. *)
Inductive Projection : Type := NORMAL | INTMAX.

Definition Projection_eqb (p q : Projection) : bool :=
  match p, q with
  | NORMAL, NORMAL | INTMAX, INTMAX => true
  | _, _ => false
  end.

Module ProjectionOpts.
Record t : Type := { start : option Z; end_ : option Z }.
End ProjectionOpts.

Module Window.
Record t : Type := { start : Q; end_ : Q; min : Q; max : Q }.
End Window.

Record Channel : Type := {
  active : bool;
  color : string;
  window : Window.t
}.

Record ImageInfo : Type := {
  ready : bool;
  dimensions : gmap string Z;
  projection : Projection;
  projection_opts : ProjectionOpts.t;
  image_delta_t : list string;
  channels : list Channel
}.

(** A value stored in a history record. *)
Inductive HistoryValue : Type :=
| HNumber (n : option Z)
| HProjection (p : Projection)
| HOpts (o : ProjectionOpts.t).

Record HistoryEntry : Type := {
  prop : list string;
  old_val : HistoryValue;
  new_val : HistoryValue;
  type : string
}.

(** The image configuration: identifier, image info and undo stack.  One
    element of [history] is what one [addHistory] call recorded. *)
Record ImageConfig : Type := {
  conf_id : Z;
  image_info : ImageInfo;
  history : list (list HistoryEntry)
}.

(** Modelled from the spec: [ImageConfig.addHistory] is not among the
    sources; "History records appended to a configuration-owned undo stack",
    "appended, never mutated in place".  A single record passed instead of
    an array counts as an array of one. *)
Definition ImageConfig_addHistory (entries : list HistoryEntry)
    (conf : ImageConfig) : ImageConfig :=
  {| conf_id := conf_id conf;
     image_info := image_info conf;
     history := history conf ++ [entries] |}.

Definition ImageConfig_set_image_info (i : ImageInfo) (conf : ImageConfig)
    : ImageConfig :=
  {| conf_id := conf_id conf; image_info := i; history := history conf |}.

Definition set_dimensions (d : gmap string Z) (i : ImageInfo) : ImageInfo :=
  {| ready := ready i; dimensions := d; projection := projection i;
     projection_opts := projection_opts i;
     image_delta_t := image_delta_t i; channels := channels i |}.

Definition set_projection (p : Projection) (i : ImageInfo) : ImageInfo :=
  {| ready := ready i; dimensions := dimensions i; projection := p;
     projection_opts := projection_opts i;
     image_delta_t := image_delta_t i; channels := channels i |}.

Definition set_projection_opts (o : ProjectionOpts.t) (i : ImageInfo)
    : ImageInfo :=
  {| ready := ready i; dimensions := dimensions i;
     projection := projection i; projection_opts := o;
     image_delta_t := image_delta_t i; channels := channels i |}.

(** Events published on the application context. *)
Inductive Event : Type :=
| IMAGE_DIMENSION_PLAY (config_id : Z) (dim : string) (forwards stop : bool)
| IMAGE_DIMENSION_CHANGE (config_id : Z) (dim : string) (value : list Z)
| IMAGE_SETTINGS_CHANGE (config_id : Z) (projection : Projection).

(** ** DimensionSlider *)

Module DimensionSlider.

(** [player_info]: [{dim, forwards, handle}], each [null] or set. *)
Module PlayerInfo.
Record t : Type := {
  dim : option string;
  forwards : option bool;
  handle : option Z
}.
End PlayerInfo.

(** [this.image_config] is [null] or refers to the configuration object
    held by the application context. *)
Inductive Reference : Type := null | config_object.

(** The jQuery-UI slider control on [elSelector], as far as the class
    drives it: the options it was created with and the values written to
    it afterwards.  The [slide] and [stop] callbacks are the same for
    every control and are the functions [slide] and [stop] below; the
    [change] option records which of the two callbacks was installed. *)
Inductive Orientation : Type := vertical | horizontal.
Inductive ChangeCallback : Type := change_projection | change_dimension.

Module Options.
Record t : Type := {
  orientation : Orientation;
  min : Z;
  max : option Z;
  step : Q;
  value : option Q;
  values : option (option Q * option Q);
  change : ChangeCallback
}.
End Options.

(** The [.slider-value] span: its text, its CSS offset in percent
    ([bottom] or [left]) and whether it is shown. *)
Inductive Offset : Type := bottom (percent : option Q) | left (percent : option Q).

Module ValueSpan.
Record t : Type := {
  text : string;
  css : option Offset;
  shown : bool
}.
End ValueSpan.

(** What a binding-engine subscription observes. *)
Inductive Observed : Type :=
| dimensions_prop (d : string)
| projection_prop
| projection_opts_prop
| ready_prop.

Definition Observed_eqb (a b : Observed) : bool :=
  match a, b with
  | dimensions_prop d, dimensions_prop d' => String.eqb d d'
  | projection_prop, projection_prop => true
  | projection_opts_prop, projection_opts_prop => true
  | ready_prop, ready_prop => true
  | _, _ => false
  end.

(** Instance fields, then the environment: the configuration object, the
    live subscriptions of the binding engine (handle, observed property),
    the events published on the context, the slider control on
    [elSelector] ([None]: no control on the element), the visibility of
    [this.element] and the value span. *)
Record State : Type := {
  image_config : Reference;
  dim : string;
  player_info : PlayerInfo.t;
  observers : list nat;
  image_info_ready_observer : option nat;
  last_player_start : option Z;
  add_projection_history : bool;
  context_config : ImageConfig;
  subscriptions : list (nat * Observed);
  next_subscription : nat;
  published : list Event;
  control : option Options.t;
  element_shown : bool;
  slider_value_span : ValueSpan.t
}.

Definition set_image_config v (s : State) : State :=
  {| image_config := v; dim := dim s; player_info := player_info s;
     observers := observers s;
     image_info_ready_observer := image_info_ready_observer s;
     last_player_start := last_player_start s;
     add_projection_history := add_projection_history s;
     context_config := context_config s;
     subscriptions := subscriptions s;
     next_subscription := next_subscription s;
     published := published s; control := control s;
     element_shown := element_shown s;
     slider_value_span := slider_value_span s |}.

Definition set_observers v (s : State) : State :=
  {| image_config := image_config s; dim := dim s;
     player_info := player_info s; observers := v;
     image_info_ready_observer := image_info_ready_observer s;
     last_player_start := last_player_start s;
     add_projection_history := add_projection_history s;
     context_config := context_config s;
     subscriptions := subscriptions s;
     next_subscription := next_subscription s;
     published := published s; control := control s;
     element_shown := element_shown s;
     slider_value_span := slider_value_span s |}.

Definition set_image_info_ready_observer v (s : State) : State :=
  {| image_config := image_config s; dim := dim s;
     player_info := player_info s; observers := observers s;
     image_info_ready_observer := v;
     last_player_start := last_player_start s;
     add_projection_history := add_projection_history s;
     context_config := context_config s;
     subscriptions := subscriptions s;
     next_subscription := next_subscription s;
     published := published s; control := control s;
     element_shown := element_shown s;
     slider_value_span := slider_value_span s |}.

Definition set_last_player_start v (s : State) : State :=
  {| image_config := image_config s; dim := dim s;
     player_info := player_info s; observers := observers s;
     image_info_ready_observer := image_info_ready_observer s;
     last_player_start := v;
     add_projection_history := add_projection_history s;
     context_config := context_config s;
     subscriptions := subscriptions s;
     next_subscription := next_subscription s;
     published := published s; control := control s;
     element_shown := element_shown s;
     slider_value_span := slider_value_span s |}.

Definition set_add_projection_history v (s : State) : State :=
  {| image_config := image_config s; dim := dim s;
     player_info := player_info s; observers := observers s;
     image_info_ready_observer := image_info_ready_observer s;
     last_player_start := last_player_start s;
     add_projection_history := v;
     context_config := context_config s;
     subscriptions := subscriptions s;
     next_subscription := next_subscription s;
     published := published s; control := control s;
     element_shown := element_shown s;
     slider_value_span := slider_value_span s |}.

Definition set_context_config v (s : State) : State :=
  {| image_config := image_config s; dim := dim s;
     player_info := player_info s; observers := observers s;
     image_info_ready_observer := image_info_ready_observer s;
     last_player_start := last_player_start s;
     add_projection_history := add_projection_history s;
     context_config := v;
     subscriptions := subscriptions s;
     next_subscription := next_subscription s;
     published := published s; control := control s;
     element_shown := element_shown s;
     slider_value_span := slider_value_span s |}.

Definition set_subscriptions v n (s : State) : State :=
  {| image_config := image_config s; dim := dim s;
     player_info := player_info s; observers := observers s;
     image_info_ready_observer := image_info_ready_observer s;
     last_player_start := last_player_start s;
     add_projection_history := add_projection_history s;
     context_config := context_config s;
     subscriptions := v;
     next_subscription := n;
     published := published s; control := control s;
     element_shown := element_shown s;
     slider_value_span := slider_value_span s |}.

Definition set_published v (s : State) : State :=
  {| image_config := image_config s; dim := dim s;
     player_info := player_info s; observers := observers s;
     image_info_ready_observer := image_info_ready_observer s;
     last_player_start := last_player_start s;
     add_projection_history := add_projection_history s;
     context_config := context_config s;
     subscriptions := subscriptions s;
     next_subscription := next_subscription s;
     published := v; control := control s;
     element_shown := element_shown s;
     slider_value_span := slider_value_span s |}.

Definition set_control v (s : State) : State :=
  {| image_config := image_config s; dim := dim s;
     player_info := player_info s; observers := observers s;
     image_info_ready_observer := image_info_ready_observer s;
     last_player_start := last_player_start s;
     add_projection_history := add_projection_history s;
     context_config := context_config s;
     subscriptions := subscriptions s;
     next_subscription := next_subscription s;
     published := published s; control := v;
     element_shown := element_shown s;
     slider_value_span := slider_value_span s |}.

Definition set_element_shown v (s : State) : State :=
  {| image_config := image_config s; dim := dim s;
     player_info := player_info s; observers := observers s;
     image_info_ready_observer := image_info_ready_observer s;
     last_player_start := last_player_start s;
     add_projection_history := add_projection_history s;
     context_config := context_config s;
     subscriptions := subscriptions s;
     next_subscription := next_subscription s;
     published := published s; control := control s;
     element_shown := v;
     slider_value_span := slider_value_span s |}.

Definition set_player_info v (s : State) : State :=
  {| image_config := image_config s; dim := dim s;
     player_info := v; observers := observers s;
     image_info_ready_observer := image_info_ready_observer s;
     last_player_start := last_player_start s;
     add_projection_history := add_projection_history s;
     context_config := context_config s;
     subscriptions := subscriptions s;
     next_subscription := next_subscription s;
     published := published s; control := control s;
     element_shown := element_shown s;
     slider_value_span := slider_value_span s |}.

Definition set_slider_value_span v (s : State) : State :=
  {| image_config := image_config s; dim := dim s;
     player_info := player_info s; observers := observers s;
     image_info_ready_observer := image_info_ready_observer s;
     last_player_start := last_player_start s;
     add_projection_history := add_projection_history s;
     context_config := context_config s;
     subscriptions := subscriptions s;
     next_subscription := next_subscription s;
     published := published s; control := control s;
     element_shown := element_shown s;
     slider_value_span := v |}.

(** *** The environment *)

(** Reading through [this.image_config]: a [null] reference throws. *)
Definition the_image_config : Js State ImageConfig :=
  fun s =>
    match image_config s with
    | config_object => (Normal (context_config s), s)
    | null => (Throw "TypeError: image_config is null", s)
    end.

(** A write through a reference to the configuration object. *)
Definition update_config (f : ImageConfig -> ImageConfig) : Js State unit :=
  modify (fun s => set_context_config (f (context_config s)) s).

Definition update_image_info (f : ImageInfo -> ImageInfo) : Js State unit :=
  update_config (fun c => ImageConfig_set_image_info (f (image_info c)) c).

(** [this.image_config.addHistory(entries)] *)
Definition addHistory (entries : list HistoryEntry) : Js State unit :=
  the_image_config ;;
  update_config (ImageConfig_addHistory entries).

(** [this.context.publish(event, params)] *)
Definition publish (e : Event) : Js State unit :=
  modify (fun s => set_published (published s ++ [e]) s).

(** [bindingEngine.propertyObserver(obj, prop).subscribe(callback)]:
    a new live subscription; its handle is returned. *)
Definition subscribe (o : Observed) : Js State nat :=
  fun s =>
    let h := next_subscription s in
    (Normal h, set_subscriptions (subscriptions s ++ [(h, o)]) (S h) s).

(** [o.dispose()]: the subscription is no longer live. *)
Definition dispose (h : nat) : Js State unit :=
  modify (fun s =>
    set_subscriptions
      (List.filter (fun sub => negb (Nat.eqb (fst sub) h)) (subscriptions s))
      (next_subscription s) s).

(** Modelled from the spec: the binding engine is an external
    collaborator; "a model mutation synchronously triggers its observer(s)
    before control returns to the caller".  Every live subscription on
    the property runs [callback], in subscription order. *)
Definition notify (o : Observed) (callback : Js State unit)
    : Js State unit :=
  let* this := get in
  for_each
    (fun sub : nat * Observed =>
       if Observed_eqb (snd sub) o then callback else ret tt)
    (subscriptions this).

(** *** The slider control *)

(** The argument [ui] of the slider callbacks and what they read of
    [event]: [keyCode] ([None] unless it is a number) and whether
    [originalEvent] is set. *)
Module Ui.
Record t : Type := { value : Q; values : option (Q * Q) }.
End Ui.

Module SliderEvent.
Record t : Type := { keyCode : option Z; originalEvent : bool }.
End SliderEvent.

(** What a [slide] callback hands back: [return false] cancels the
    slide, anything else lets the control move the handle. *)
Inductive SlideResult : Type := return_false | return_undefined.

(** The handles of a control: index 0 and index 1. *)
Inductive Handle : Type := lower | upper.

(** Modelled from jQuery UI's slider widget, an external collaborator
    that is not among the sources, as far as the class drives it.

    The control keeps what it reports on the grid of [step] between
    [min] and [max]: [_trimAlignValue] answers [min] for a value at or
    below it and [max] for a value at or above it (no upper bound when
    [max] is no number), and moves a value in between to the nearest
    multiple of [step] above [min], the upper one on a tie.  The control
    then rounds to five decimals; on exact rationals this last step is
    left out: it is the identity on the multiples of 0.01 that every
    control of this class is created with. *)
Definition valueMin (o : Options.t) : Q := inject_Z (Options.min o).

Definition alignValue (o : Options.t) (val : Q) : Q :=
  let step := if num_ltb 0 (Options.step o) then Options.step o else 1%Q in
  let valModStep :=
    (val - valueMin o
     - inject_Z (Qfloor ((val - valueMin o) / step)) * step)%Q in
  let alignValue := (val - valModStep)%Q in
  Qred (if num_leb step (2 * valModStep) then alignValue + step
        else alignValue).

Definition trimAlignValue (o : Options.t) (val : Q) : Q :=
  if num_leb val (valueMin o) then valueMin o
  else
    match Options.max o with
    | Some max =>
        if num_leb (inject_Z max) val then inject_Z max
        else alignValue o val
    | None => alignValue o val
    end.

(** [.slider("value")]: the [value] option, 0 when the control was
    created without one, trimmed and aligned. *)
Definition current_value (o : Options.t) : Q :=
  trimAlignValue o
    (match Options.value o with Some v => v | None => 0%Q end).

(** The [ui] of a [change] event for the handle [index]: the control's
    value on a control without [values]; the value of the handle and the
    pair on a control with [values].  There is none in this embedding
    when a handle value is no number. *)
Definition uiHash (o : Options.t) (index : Handle) : option Ui.t :=
  match Options.values o with
  | None => Some {| Ui.value := current_value o; Ui.values := None |}
  | Some (Some v0, Some v1) =>
      let v0 := trimAlignValue o v0 in
      let v1 := trimAlignValue o v1 in
      Some {| Ui.value := match index with lower => v0 | upper => v1 end;
              Ui.values := Some (v0, v1) |}
  | Some _ => None
  end.

(** A [change] event that the control fires on its own carries no
    original event. *)
Definition null_event : SliderEvent.t :=
  {| SliderEvent.keyCode := None; SliderEvent.originalEvent := false |}.

(** [$(this.elSelector).slider(options)] creates the control. *)
Definition slider_create (o : Options.t) : Js State unit :=
  modify (set_control (Some o)).

(** A method call [$(this.elSelector).slider(name, ...)]: jQuery UI throws
    when the element carries no slider. *)
Definition slider_method (f : Options.t -> option Options.t)
    : Js State unit :=
  fun s =>
    match control s with
    | Some o => (Normal tt, set_control (f o) s)
    | None =>
        (Throw "cannot call methods on slider prior to initialization", s)
    end.

Definition with_value (v : option Q) (o : Options.t) : Options.t :=
  {| Options.orientation := Options.orientation o;
     Options.min := Options.min o; Options.max := Options.max o;
     Options.step := Options.step o; Options.value := v;
     Options.values := Options.values o;
     Options.change := Options.change o |}.

Definition with_values (v : option (option Q * option Q)) (o : Options.t)
    : Options.t :=
  {| Options.orientation := Options.orientation o;
     Options.min := Options.min o; Options.max := Options.max o;
     Options.step := Options.step o; Options.value := Options.value o;
     Options.values := v;
     Options.change := Options.change o |}.

(** [.slider("destroy")] *)
Definition slider_destroy : Js State unit :=
  slider_method (fun _ => None).

(** The [change] option of the control, as the control calls it.  The
    control calls it from inside its setters, and the callbacks of this
    class reach these setters again ([onChange] writes the model, the
    observer of the model writes the control): the methods below take
    the option as a parameter, which is closed after them. *)
Class ChangeOption : Type :=
  change_option : ChangeCallback -> SliderEvent.t -> Ui.t -> Js State unit.

(** *** Methods *)

Section Methods.
Context {callback : ChangeOption}.

(** [this._change(null, index)] of the control, outside a key or mouse
    slide: the [change] event for the handle [index].  A handle value
    that is no number cannot be handed to the embedded callbacks: the
    callback of the two-handle control does not look at it when there is
    no original event, for the other callback the embedding ends with an
    error. *)
Definition trigger_change (index : Handle) : Js State unit :=
  let* this := get in
  match control this with
  | Some o =>
      match uiHash o index with
      | Some ui => callback (Options.change o) null_event ui
      | None =>
          match Options.change o with
          | change_projection => ret tt
          | change_dimension => throw "onChange: the value is no number"
          end
      end
  | None => ret tt
  end.

(** [.slider("value", v)]: the trimmed and aligned value is stored and,
    unless the call is made during a key or mouse slide ([sliding]: from
    inside a [slide] callback), the [change] event is fired. *)
Definition slider_value (sliding : bool) (v : Q) : Js State unit :=
  slider_method (fun o => Some (with_value (Some (trimAlignValue o v)) o)) ;;
  if sliding then ret tt else trigger_change lower.

(** [.slider("option", "value", v)]: the value is stored as given and
    the [change] event is fired.  The observers that make this call run
    on a write to the model, not during a slide. *)
Definition slider_option_value (v : Z) : Js State unit :=
  slider_method (fun o => Some (with_value (Some (inject_Z v)) o)) ;;
  trigger_change lower.

(** [.slider("option", "values", vs)]: the pair is stored as given and
    the [change] event is fired for every handle that the control had
    before the call, the last handle first. *)
Definition slider_option_values (vs : option Z * option Z) : Js State unit :=
  let* this := get in
  let handles := Options.values <$> control this in
  slider_method (fun o =>
    Some (with_values
            (Some (inject_Z <$> fst vs, inject_Z <$> snd vs)) o)) ;;
  match handles with
  | Some (Some _) => trigger_change upper ;; trigger_change lower
  | _ => ret tt
  end.

Definition playDimension (forwards : bool) : Js State unit :=
  let* this := get in
  let* z_projection :=
    (if String.eqb (dim this) "z" then
       let* conf := the_image_config in
       ret (Projection_eqb (projection (image_info conf)) INTMAX)
     else ret false) in
  if z_projection then ret tt else
  let stop :=
    match PlayerInfo.dim (player_info this) with
    | None => false
    | Some d =>
        String.eqb d (dim this) &&
        match PlayerInfo.forwards (player_info this) with
        | Some f => Bool.eqb f forwards
        | None => false
        end
    end in
  (* make history entry for stop *)
  (if stop then
     let* conf := the_image_config in
     addHistory
       [{| prop := ["image_info"; "dimensions"; dim this];
           old_val := HNumber (last_player_start this);
           new_val := HNumber (dimensions (image_info conf) !! dim this);
           type := "number" |}]
   else
     let* conf := the_image_config in
     modify (set_last_player_start
               (dimensions (image_info conf) !! dim this))) ;;
  (* send out a dimension change notification *)
  let* conf := the_image_config in
  publish (IMAGE_DIMENSION_PLAY (conf_id conf) (dim this) forwards stop).

Definition detached : Js State unit :=
  try_catch_ignored slider_destroy ;;
  modify (set_element_shown false).

Definition unregisterObservers : Js State unit :=
  let* this := get in
  for_each dispose (observers this) ;;
  modify (set_observers []) ;;
  let* this := get in
  match image_info_ready_observer this with
  | Some o => dispose o ;; modify (set_image_info_ready_observer None)
  | None => ret tt
  end.

(** The callback subscribed to [dimensions[dim]]. *)
Definition dimension_observer (newValue : Z) : Js State unit :=
  slider_option_value newValue ;;
  let* this := get in
  let* conf := the_image_config in
  publish (IMAGE_DIMENSION_CHANGE (conf_id conf) (dim this) [newValue]).

(** [imgInf.dimensions[this.dim] = value]: the write, and then the
    observers, which run when the stored value changes. *)
Definition write_dimension (value : Z) : Js State unit :=
  let* this := get in
  update_image_info
    (fun i => set_dimensions (<[dim this := value]> (dimensions i)) i).

Definition assign_dimension (value : Z) : Js State unit :=
  let* this := get in
  let old := dimensions (image_info (context_config this)) !! dim this in
  write_dimension value ;;
  match old with
  | Some o =>
      if Z.eqb o value then ret tt
      else notify (dimensions_prop (dim this)) (dimension_observer value)
  | None => notify (dimensions_prop (dim this)) (dimension_observer value)
  end.

Definition onChange (value : Q) (slider_interaction : bool)
    : Js State unit :=
  let value := Math_round value in
  let* this := get in
  let* conf := the_image_config in
  let oldValue := dimensions (image_info conf) !! dim this in
  (* no need to change for a the same value *)
  if match oldValue with Some o => Z.eqb value o | None => false end
  then ret tt else
  (* make history entry only for slider interaction *)
  (if slider_interaction then
     addHistory
       [{| prop := ["image_info"; "dimensions"; dim this];
           old_val := HNumber oldValue;
           new_val := HNumber (Some value);
           type := "number" |}]
   else ret tt) ;;
  (* this will trigger the observer who does the rest *)
  assign_dimension value.

(** [imgInf.image_delta_t[i]] inside a string concatenation. *)
Definition delta_t_text (l : list string) (i : Z) : string :=
  match (if Z.leb 0 i then l !! Z.to_nat i else None) with
  | Some d => d
  | None => "undefined"
  end.

(** [(ui.value / (imgInf.dimensions['max_' + this.dim] - 1)) * 100];
    [None] when the result is no finite number. *)
Definition percent_of (v : Q) (max : option Z) : option Q :=
  match max with
  | Some m =>
      if Z.eqb (m - 1) 0 then None
      else Some (v / inject_Z (m - 1) * inject_Z 100)%Q
  | None => None
  end.

(** The [slide] option of [initSlider].  [imgInf] is the image info
    captured when the control was created.  The control calls it during
    a key or mouse slide. *)
Definition slide (event : SliderEvent.t) (ui : Ui.t)
    : Js State SlideResult :=
  let* this := get in
  match PlayerInfo.handle (player_info this) with
  | Some _ => ret return_false
  | None =>
  (* we don't allow min going past max and vice versa with 2 handles *)
  if match Ui.values ui with
     | Some (v0, v1) =>
         let idx : Z :=
           if num_eqb v0 (Ui.value ui) then 0
           else if num_eqb v1 (Ui.value ui) then 1 else -1 in
         (Z.eqb idx 0 && num_leb v1 (Ui.value ui)) ||
         (Z.eqb idx 1 && num_leb (Ui.value ui) v0)
     | None => false
     end
  then ret return_false else
  match SliderEvent.keyCode event with
  | Some keyCode =>
      let upKey := Z.eqb keyCode 38 || Z.eqb keyCode 39 in
      let downKey := Z.eqb keyCode 37 || Z.eqb keyCode 40 in
      let newVal :=
        if upKey then inject_Z (Math_ceil (Ui.value ui))
        else if downKey then inject_Z (Math_floor (Ui.value ui))
        else Ui.value ui in
      slider_value true newVal ;;
      ret return_false
  | None =>
      let imgInf := image_info (context_config this) in
      let newDimVal := Math_round (Ui.value ui) in
      let sliderTip :=
        toUpperCase (dim this) +:+ ":" +:+ pretty (newDimVal + 1) in
      let sliderTip :=
        if String.eqb (dim this) "t" &&
           Nat.ltb 0 (length (image_delta_t imgInf)) &&
           Z.ltb newDimVal (Z.of_nat (length (image_delta_t imgInf)))
        then sliderTip +:+ " [" +:+
             delta_t_text (image_delta_t imgInf) newDimVal +:+ "]"
        else sliderTip in
      let percent :=
        percent_of (Ui.value ui)
          (dimensions imgInf !! String.append "max_" (dim this)) in
      modify (set_slider_value_span
        {| ValueSpan.text := sliderTip;
           ValueSpan.css :=
             Some (if String.eqb (dim this) "z" then bottom percent
                   else left percent);
           ValueSpan.shown := true |}) ;;
      ret return_undefined
  end
  end.

(** The [stop] option of [initSlider]. *)
Definition stop : Js State unit :=
  modify (fun s =>
    set_slider_value_span
      {| ValueSpan.text := "";
         ValueSpan.css := ValueSpan.css (slider_value_span s);
         ValueSpan.shown := false |} s).

Definition with_start_end (a b : option Z) (i : ImageInfo) : ImageInfo :=
  set_projection_opts
    {| ProjectionOpts.start := a; ProjectionOpts.end_ := b |} i.

Definition changeProjection (values : option (option Q * option Q))
    (toggle : bool) : Js State unit :=
  (match values with
   | Some (v0, v1) =>
       let v0 := round_parseFloat v0 in
       let v1 := round_parseFloat v1 in
       let* conf := the_image_config in
       let oldOpts := projection_opts (image_info conf) in
       update_image_info (with_start_end v0 v1) ;;
       slider_option_values (v0, v1) ;;
       let* this := get in
       if add_projection_history this then
         addHistory
           [if toggle then
              {| prop := ["image_info"; "projection"];
                 old_val := HProjection NORMAL;
                 new_val := HProjection INTMAX;
                 type := "string" |}
            else
              {| prop := ["image_info"; "projection_opts"];
                 old_val := HOpts oldOpts;
                 new_val :=
                   HOpts (projection_opts
                            (image_info (context_config this)));
                 type := "object" |}] ;;
         modify (set_add_projection_history false)
       else ret tt
   | None =>
       let* this := get in
       if toggle && add_projection_history this then
         addHistory
           [{| prop := ["image_info"; "projection"];
               old_val := HProjection INTMAX;
               new_val := HProjection NORMAL;
               type := "string" |}] ;;
         modify (set_add_projection_history false)
       else ret tt
   end) ;;
  let* conf := the_image_config in
  publish (IMAGE_SETTINGS_CHANGE (conf_id conf)
             (projection (image_info conf))).

(** [imgInf.dimensions['max_' + this.dim] <= 1]: false when the entry is
    missing. *)
Definition extent_le_1 (i : ImageInfo) (d : string) : bool :=
  match dimensions i !! String.append "max_" d with
  | Some m => Z.leb m 1
  | None => false
  end.

Definition initSlider (toggle : bool) : Js State unit :=
  let* this := get in
  let* conf := the_image_config in
  let imgInf := image_info conf in
  (* no slider for a 0 length dimension *)
  if extent_le_1 imgInf (dim this) then ret tt else
  let z_projection :=
    String.eqb (dim this) "z" &&
    Projection_eqb (projection imgInf) INTMAX in
  let options :=
    {| Options.orientation :=
         if String.eqb (dim this) "z" then vertical else horizontal;
       Options.min := 0;
       Options.max :=
         (fun m => m - 1) <$>
         dimensions imgInf !! String.append "max_" (dim this);
       Options.step := (1 # 100)%Q;
       Options.value :=
         if z_projection then None
         else inject_Z <$> dimensions imgInf !! dim this;
       Options.values :=
         if z_projection then
           Some (inject_Z <$>
                   ProjectionOpts.start (projection_opts imgInf),
                 inject_Z <$>
                   ProjectionOpts.end_ (projection_opts imgInf))
         else None;
       Options.change :=
         if z_projection then change_projection else change_dimension |} in
  slider_create options ;;
  modify (set_element_shown true) ;;
  changeProjection (Options.values options) toggle.

(** The [change] option of [initSlider]: which callback runs is fixed
    when the control is created. *)
Definition change (cb : ChangeCallback) (event : SliderEvent.t) (ui : Ui.t)
    : Js State unit :=
  match cb with
  | change_projection =>
      if SliderEvent.originalEvent event then
        modify (set_add_projection_history true) ;;
        changeProjection
          ((fun vs : Q * Q => (Some (fst vs), Some (snd vs))) <$>
           Ui.values ui)
          false
      else ret tt
  | change_dimension =>
      onChange (Ui.value ui) (SliderEvent.originalEvent event)
  end.

(** The callbacks subscribed to [projection] and [projection_opts]. *)
Definition projection_observer : Js State unit :=
  detached ;;
  initSlider true.

Definition projection_opts_observer (newValue : ProjectionOpts.t)
    : Js State unit :=
  changeProjection
    (Some (inject_Z <$> ProjectionOpts.start newValue,
           inject_Z <$> ProjectionOpts.end_ newValue))
    false.

Definition registerObservers : Js State unit :=
  let* this := get in
  the_image_config ;;
  let* o := subscribe (dimensions_prop (dim this)) in
  modify (fun s => set_observers (observers s ++ [o]) s) ;;
  the_image_config ;;
  let* o := subscribe projection_prop in
  modify (fun s => set_observers (observers s ++ [o]) s) ;;
  the_image_config ;;
  let* o := subscribe projection_opts_prop in
  modify (fun s => set_observers (observers s ++ [o]) s).

Definition unbind : Js State unit :=
  unregisterObservers ;;
  modify (set_image_config null).

(** [imgInf.projection = p]; the observer runs when the value changes. *)
Definition assign_projection (p : Projection) : Js State unit :=
  let* this := get in
  let old := projection (image_info (context_config this)) in
  update_image_info (set_projection p) ;;
  if Projection_eqb old p then ret tt
  else notify projection_prop projection_observer.

Definition toggleProjection : Js State unit :=
  let* this := get in
  match PlayerInfo.handle (player_info this) with
  | Some _ => ret tt
  | None =>
      let* conf := the_image_config in
      let imgInf := image_info conf in
      update_image_info
        (with_start_end
           (dimensions imgInf !! dim this)
           ((fun m => m - 1) <$>
            dimensions imgInf !! String.append "max_" (dim this))) ;;
      modify (set_add_projection_history true) ;;
      assign_projection
        (match projection imgInf with
         | NORMAL => INTMAX
         | INTMAX => NORMAL
         end)
  end.

(** *** The collaborators' side of two interactions *)

(** The control's side of a drag on a two-handle slider, after the
    contract of jQuery UI's [slide] event (a slide is cancelled when the
    callback returns false): the handle [index] of a control whose
    handles stand at [handles] is dragged to [newVal]; the callback is
    handed the proposed value and the proposed pair, and the handle moves
    unless the callback returns false.  The result is the pair of handle
    values after the interaction. *)
Definition slide_handle (event : SliderEvent.t) (index : Handle)
    (newVal : Q) (handles : Q * Q) : Js State (Q * Q) :=
  let proposed :=
    match index with
    | lower => (newVal, snd handles)
    | upper => (fst handles, newVal)
    end in
  let* allowed :=
    slide event {| Ui.value := newVal; Ui.values := Some proposed |} in
  match allowed with
  | return_false => ret handles
  | return_undefined => ret proposed
  end.

(** Modelled from the spec: the player is outside the sources;
    [playDimension] "publishes a play/stop event for an external driver
    to execute stepping and repeatedly call onChange".  A playback of this
    slider's dimension: the start call, the driver recording the playback
    in [player_info], one [onChange] per frame (each in its own timer
    turn, not as a slider interaction), and the stop call. *)
Definition playing (forwards : bool) (handle : Z) (s : State) : State :=
  set_player_info
    {| PlayerInfo.dim := Some (dim s);
       PlayerInfo.forwards := Some forwards;
       PlayerInfo.handle := Some handle |} s.



End Methods.

(** The [change] option closed over itself.  Every nested call of the
    option goes one level down; the nesting is followed to the depth
    [call_stack], and a deeper one ends as a stack overflow does, with a
    [RangeError]. *)
Fixpoint nested_change (depth : nat) : ChangeOption :=
  match depth with
  | O => fun _ _ _ => throw "RangeError: Maximum call stack size exceeded"
  | S depth' => @change (nested_change depth')
  end.

Definition call_stack : nat := 1000.

#[global] Instance control_change : ChangeOption := nested_change call_stack.

(** *** Vocabulary of the properties *)

(** The image info behind the configuration object. *)
Definition model (s : State) : ImageInfo := image_info (context_config s).

(** What a frame of a playback keeps: the instance fields that
    [playDimension] reads, the history, the projection mode and the
    configuration id. *)
Definition kept (s s' : State) : Prop :=
  image_config s' = image_config s /\
  dim s' = dim s /\
  player_info s' = player_info s /\
  last_player_start s' = last_player_start s /\
  history (context_config s') = history (context_config s) /\
  projection (model s') = projection (model s) /\
  conf_id (context_config s') = conf_id (context_config s).

(** The options of a control apart from where its handles stand. *)
Definition bare (o : Options.t) : Options.t :=
  with_values None (with_value None o).

(** What a [change] event without original event can do, at most: write
    to [dimensions], move the handles of the control, publish.  The
    instance fields, the subscriptions, the history, the rest of the image
    info and the other options of the control are as they were. *)
Definition echoed (s s' : State) : Prop :=
  image_config s' = image_config s /\
  dim s' = dim s /\
  player_info s' = player_info s /\
  observers s' = observers s /\
  image_info_ready_observer s' = image_info_ready_observer s /\
  last_player_start s' = last_player_start s /\
  add_projection_history s' = add_projection_history s /\
  subscriptions s' = subscriptions s /\
  next_subscription s' = next_subscription s /\
  element_shown s' = element_shown s /\
  slider_value_span s' = slider_value_span s /\
  conf_id (context_config s') = conf_id (context_config s) /\
  history (context_config s') = history (context_config s) /\
  set_dimensions (dimensions (model s)) (model s') = model s /\
  bare <$> control s' = bare <$> control s.

(** A control with one handle, as [initSlider] builds it outside the
    projection: from 0 in steps of 0.01, no [values], the [change]
    callback of the dimension. *)
Definition one_handle (o : Options.t) : Prop :=
  Options.min o = 0 /\
  Options.step o = (1 # 100)%Q /\
  Options.values o = None /\
  Options.change o = change_dimension.

(** A value within the bounds of the control. *)
Definition in_range (o : Options.t) (x : Q) : Prop :=
  (valueMin o <= x)%Q /\
  match Options.max o with
  | Some max => (x <= inject_Z max)%Q
  | None => True
  end.

(** A control on which [option values] reaches no callback that writes:
    its [change] callback is the one of the projection, which ignores an
    event without original event, or it had no [values] so far, and fires
    nothing. *)
Definition quiet (o : Options.t) : Prop :=
  Options.change o = change_projection \/ Options.values o = None.

(** A control that takes the section [v] as it is: the [change] event it
    fires when it is set to [v] reports [v] again (or goes to the callback
    of the projection, which ignores it). *)
Definition accepts (o : Options.t) (v : Z) : Prop :=
  Options.change o = change_projection \/
  (Options.values o = None /\
   Math_round (trimAlignValue o (inject_Z v)) = v).

(** The entry that a toggle records: [initSlider] hands [changeProjection]
    a pair of values on the z slider in projection and nothing otherwise. *)
Definition toggle_entry (d : string) (p : Projection) : HistoryEntry :=
  if String.eqb d "z" && Projection_eqb p INTMAX then
    {| prop := ["image_info"; "projection"];
       old_val := HProjection NORMAL; new_val := HProjection INTMAX;
       type := "string" |}
  else
    {| prop := ["image_info"; "projection"];
       old_val := HProjection INTMAX; new_val := HProjection NORMAL;
       type := "string" |}.

(** What the projection observer keeps, and what it does to the flag and
    the history. *)
Definition observed (s s' : State) : Prop :=
  image_config s' = image_config s /\
  dim s' = dim s /\
  player_info s' = player_info s /\
  subscriptions s' = subscriptions s /\
  model s' = model s /\
  conf_id (context_config s') = conf_id (context_config s) /\
  add_projection_history s' = false /\
  history (context_config s')
  = history (context_config s) ++
    if add_projection_history s
    then [[toggle_entry (dim s) (projection (model s))]] else [].

(** A live subscription on [projection]. *)
Definition on_projection (sub : nat * Observed) : bool :=
  Observed_eqb (snd sub) projection_prop.

End DimensionSlider.

(** ** ChannelSettings *)

Module ChannelSettings.

(** [CHANNEL_SETTINGS_MODE] *)
Definition MIN_MAX : Z := 0.
Definition FULL_RANGE : Z := 1.
Definition IMPORTED : Z := 2.

(** An argument of unknown type, as far as [onModeChange] inspects it. *)
Inductive JsValue : Type :=
| js_number (x : Q)
| js_NaN
| js_string (s : string)
| js_boolean (b : bool)
| js_null
| js_undefined.

(** One element of [observedProperties], and what a subscription of
    [registerObservers] observes: a property of channel [index] or of
    its [window]. *)
Definition observedProperties : list (option string * string) :=
  [(None, "active"); (None, "color");
   (Some "window", "start"); (Some "window", "end")].

Definition Observed : Type := (nat * (option string * string))%type.

(** A callback waiting in the timer queue. *)
Inductive Task : Type := assign_mode_task (mode : Z).

(** Instance fields, then the environment: whether the instance is
    subscribed on the event bus, the live subscriptions of the binding
    engine, the number of click handlers on the [.channel-mode] buttons,
    the timer queue, and the values of [mode] that a reactive observer of
    [mode] has been handed. *)
Record State : Type := {
  config_id : option Z;
  image_info : option ImageInfo;
  mode : option Z;
  observers : list nat;
  subscribed : bool;
  subscriptions : list (nat * Observed);
  next_subscription : nat;
  click_handlers : nat;
  timers : list Task;
  mode_changes : list (option Z)
}.

Definition set_mode v cs (s : State) : State :=
  {| config_id := config_id s; image_info := image_info s; mode := v;
     observers := observers s; subscribed := subscribed s;
     subscriptions := subscriptions s;
     next_subscription := next_subscription s;
     click_handlers := click_handlers s; timers := timers s;
     mode_changes := cs |}.

Definition set_observers v (s : State) : State :=
  {| config_id := config_id s; image_info := image_info s;
     mode := mode s; observers := v; subscribed := subscribed s;
     subscriptions := subscriptions s;
     next_subscription := next_subscription s;
     click_handlers := click_handlers s; timers := timers s;
     mode_changes := mode_changes s |}.

Definition set_subscribed v (s : State) : State :=
  {| config_id := config_id s; image_info := image_info s;
     mode := mode s; observers := observers s; subscribed := v;
     subscriptions := subscriptions s;
     next_subscription := next_subscription s;
     click_handlers := click_handlers s; timers := timers s;
     mode_changes := mode_changes s |}.

Definition set_subscriptions v n (s : State) : State :=
  {| config_id := config_id s; image_info := image_info s;
     mode := mode s; observers := observers s;
     subscribed := subscribed s; subscriptions := v;
     next_subscription := n;
     click_handlers := click_handlers s; timers := timers s;
     mode_changes := mode_changes s |}.

Definition set_click_handlers v (s : State) : State :=
  {| config_id := config_id s; image_info := image_info s;
     mode := mode s; observers := observers s;
     subscribed := subscribed s; subscriptions := subscriptions s;
     next_subscription := next_subscription s;
     click_handlers := v; timers := timers s;
     mode_changes := mode_changes s |}.

Definition set_timers v (s : State) : State :=
  {| config_id := config_id s; image_info := image_info s;
     mode := mode s; observers := observers s;
     subscribed := subscribed s; subscriptions := subscriptions s;
     next_subscription := next_subscription s;
     click_handlers := click_handlers s; timers := v;
     mode_changes := mode_changes s |}.

(** Modelled from the spec: the observer of [mode] lives in the view, not
    in the sources; it is "a reactive observer" that ignores "setting to
    the same value".  [this.mode = v] stores [v] and hands it to the
    observer when it differs from the stored value. *)
Definition assign_mode (v : option Z) : Js State unit :=
  modify (fun s =>
    if decide (mode s = v) then s
    else set_mode v (mode_changes s ++ [v]) s).

(** Modelled from the spec: [EventSubscriber.subscribe] is not among the
    sources; [bind] "subscribes to an external configuration changed
    notification". *)
Definition subscribe : Js State unit := modify (set_subscribed true).

Definition propertyObserver_subscribe (o : Observed) : Js State nat :=
  fun s =>
    let h := next_subscription s in
    (Normal h, set_subscriptions (subscriptions s ++ [(h, o)]) (S h) s).

Definition dispose (h : nat) : Js State unit :=
  modify (fun s =>
    set_subscriptions
      (List.filter (fun sub => negb (Nat.eqb (fst sub) h)) (subscriptions s))
      (next_subscription s) s).

Definition unregisterObservers : Js State unit :=
  let* this := get in
  for_each dispose (observers this) ;;
  modify (set_observers []).

Definition registerObservers : Js State unit :=
  let* this := get in
  match image_info this with
  | None => ret tt
  | Some imgInf =>
      unregisterObservers ;;
      for_each
        (fun i : nat =>
           for_each
             (fun obsProp : option string * string =>
                let* o := propertyObserver_subscribe (i, obsProp) in
                modify (fun s => set_observers (observers s ++ [o]) s))
             observedProperties)
        (seq 0 (length (channels imgInf)))
  end.

(** The test of [bind] on one channel. *)
Definition outside_min_max (c : Channel) : bool :=
  num_ltb (Window.start (window c)) (Window.min (window c)) ||
  num_ltb (Window.max (window c)) (Window.end_ (window c)).

Definition bind : Js State unit :=
  subscribe ;;
  registerObservers ;;
  (* the mode click handler *)
  modify (set_click_handlers 0) ;;
  modify (set_click_handlers 1) ;;
  let* this := get in
  match image_info this with
  | None => ret tt
  | Some imgInf =>
      (* we select the mode based on the channel range values *)
      let needsFullRangeMode :=
        fold_left
          (fun needs c => if outside_min_max c then true else needs)
          (channels imgInf) false in
      if needsFullRangeMode then assign_mode (Some FULL_RANGE)
      else assign_mode (Some MIN_MAX)
  end.

(** [setTimeout(f, 0)] and one turn of the timer queue. *)
Definition setTimeout (t : Task) : Js State unit :=
  modify (fun s => set_timers (timers s ++ [t]) s).

Definition run_task (t : Task) : Js State unit :=
  match t with
  | assign_mode_task m => assign_mode (Some m)
  end.

Definition tick : Js State unit :=
  let* this := get in
  match timers this with
  | [] => ret tt
  | t :: rest => modify (set_timers rest) ;; run_task t
  end.

Definition onModeChange (mode_arg : JsValue) : Js State unit :=
  let* this := get in
  match mode_arg with
  | js_number x =>
      (* observer will take care of this *)
      if num_ltb x (inject_Z 0) || num_ltb (inject_Z 2) x then ret tt else
      match mode this with
      | Some m =>
          if num_eqb (inject_Z m) x then
            (* affect change *)
            assign_mode None ;;
            setTimeout (assign_mode_task m)
          else ret tt
      | None => ret tt
      end
  | _ => ret tt
  end.

(** *** Vocabulary of the properties *)

(** What [registerObservers] keeps. *)
Definition same_settings (s s' : State) : Prop :=
  image_info s' = image_info s /\
  mode s' = mode s /\
  mode_changes s' = mode_changes s /\
  timers s' = timers s.

End ChannelSettings.

(** ** Sample states *)

Module Samples.

(** An image of ten z-sections and five time points, shown at z = 3,
    with two 8-bit channels. *)
Definition channel_5_250 : Channel :=
  {| active := true; color := "FF0000";
     window := {| Window.start := inject_Z 5; Window.end_ := inject_Z 250;
                  Window.min := inject_Z 0; Window.max := inject_Z 255 |} |}.

Definition channel_m10_300 : Channel :=
  {| active := true; color := "00FF00";
     window := {| Window.start := inject_Z (-10);
                  Window.end_ := inject_Z 300;
                  Window.min := inject_Z 0; Window.max := inject_Z 255 |} |}.

Definition info : ImageInfo :=
  {| ready := true;
     dimensions := {[ "z" := 3; "max_z" := 10; "t" := 0; "max_t" := 5 ]};
     projection := NORMAL;
     projection_opts :=
       {| ProjectionOpts.start := Some 0; ProjectionOpts.end_ := Some 0 |};
     image_delta_t := [];
     channels := [channel_5_250; channel_5_250] |}.

Definition config : ImageConfig :=
  {| conf_id := 1; image_info := info; history := [] |}.

(** A z slider as the framework creates and binds it, before
    [attached]. *)
Definition bound (d : string) : DimensionSlider.State :=
  {| DimensionSlider.image_config := DimensionSlider.config_object;
     DimensionSlider.dim := d;
     DimensionSlider.player_info :=
       {| DimensionSlider.PlayerInfo.dim := None;
          DimensionSlider.PlayerInfo.forwards := None;
          DimensionSlider.PlayerInfo.handle := None |};
     DimensionSlider.observers := [];
     DimensionSlider.image_info_ready_observer := None;
     DimensionSlider.last_player_start := None;
     DimensionSlider.add_projection_history := false;
     DimensionSlider.context_config := config;
     DimensionSlider.subscriptions := [];
     DimensionSlider.next_subscription := 0%nat;
     DimensionSlider.published := [];
     DimensionSlider.control := None;
     DimensionSlider.element_shown := false;
     DimensionSlider.slider_value_span :=
       {| DimensionSlider.ValueSpan.text := "";
          DimensionSlider.ValueSpan.css := None;
          DimensionSlider.ValueSpan.shown := false |} |}.

(** The same slider once the image data is ready: observers registered,
    control created. *)
Definition attached (d : string) : DimensionSlider.State :=
  exec (DimensionSlider.registerObservers ;;
        DimensionSlider.initSlider false) (bound d).

(** The z slider in maximum intensity projection. *)
Definition projected : DimensionSlider.State :=
  exec DimensionSlider.toggleProjection (attached "z").

(** The channel settings of the same image, before [bind]. *)
Definition settings (cs : list Channel) : ChannelSettings.State :=
  {| ChannelSettings.config_id := Some 1;
     ChannelSettings.image_info :=
       Some {| ready := true; dimensions := dimensions info;
               projection := NORMAL;
               projection_opts := projection_opts info;
               image_delta_t := []; channels := cs |};
     ChannelSettings.mode := None;
     ChannelSettings.observers := [];
     ChannelSettings.subscribed := false;
     ChannelSettings.subscriptions := [];
     ChannelSettings.next_subscription := 0%nat;
     ChannelSettings.click_handlers := 0%nat;
     ChannelSettings.timers := [];
     ChannelSettings.mode_changes := [] |}.

End Samples.

(** The subscriptions that survive the disposal of the handles [hs]. *)
Definition survives {O : Type} (hs : list nat) (sub : nat * O) : bool :=
  negb (existsb (Nat.eqb (fst sub)) hs).

(** ** DimensionSlider: the remaining methods *)

Module DimensionSliderRest.
Import DimensionSlider.

(** The closure [imageDataReady] of [attached]. *)
Definition imageDataReady : Js State unit :=
  registerObservers ;;
  initSlider false.

Definition attached : Js State unit :=
  let* conf := the_image_config in
  (* if the data is ready we initalize the viewer now,
     otherwise we listen via the observer *)
  if ready (image_info conf) then imageDataReady
  else
    the_image_config ;;
    let* o := subscribe ready_prop in
    modify (set_image_info_ready_observer (Some o)).

Definition set_ready (r : bool) (i : ImageInfo) : ImageInfo :=
  {| ready := r; dimensions := dimensions i; projection := projection i;
     projection_opts := projection_opts i;
     image_delta_t := image_delta_t i; channels := channels i |}.

(** The loader of the image data is outside the sources: it sets
    [image_info.ready]; the subscription made by [attached] runs
    [imageDataReady] when the value changes. *)
Definition assign_ready (r : bool) : Js State unit :=
  let* this := get in
  let old := ready (image_info (context_config this)) in
  update_image_info (set_ready r) ;;
  if Bool.eqb old r then ret tt
  else notify ready_prop imageDataReady.

(** [$(this.elSelector).slider('value')] is answered by jQuery UI; what
    it answers for a control is a parameter here.  As for the other
    methods, the call throws when the element carries no slider. *)
Section ArrowClick.
Variable slider_value_of : Options.t -> Q.

Definition slider_get_value : Js State Q :=
  fun s =>
    match control s with
    | Some o => (Normal (slider_value_of o), s)
    | None =>
        (Throw "cannot call methods on slider prior to initialization", s)
    end.

Definition onArrowClick (step : Q) : Js State unit :=
  let* this := get in
  match PlayerInfo.handle (player_info this) with
  | Some _ => ret tt
  | None =>
      let* oldVal := slider_get_value in
      slider_value false (oldVal + step)%Q
  end.
End ArrowClick.

(** *** Vocabulary of the properties *)

(** The options object that [initSlider] builds for an image info and a
    dimension, with the values as [changeProjection] writes them back. *)
Definition z_projection (imgInf : ImageInfo) (d : string) : bool :=
  String.eqb d "z" && Projection_eqb (projection imgInf) INTMAX.

Definition slider_options (imgInf : ImageInfo) (d : string) : Options.t :=
  {| Options.orientation :=
       if String.eqb d "z" then vertical else horizontal;
     Options.min := 0;
     Options.max :=
       (fun m => m - 1) <$> dimensions imgInf !! String.append "max_" d;
     Options.step := (1 # 100)%Q;
     Options.value :=
       if z_projection imgInf d then None
       else inject_Z <$> dimensions imgInf !! d;
     Options.values :=
       if z_projection imgInf d then
         Some (inject_Z <$> ProjectionOpts.start (projection_opts imgInf),
               inject_Z <$> ProjectionOpts.end_ (projection_opts imgInf))
       else None;
     Options.change :=
       if z_projection imgInf d then change_projection
       else change_dimension |}.

(** The live subscriptions on one observed property. *)
Definition subscriptions_on (o : Observed) (s : State)
    : list (nat * Observed) :=
  List.filter (fun sub => Observed_eqb (snd sub) o) (subscriptions s).

(** Handles are handed out in increasing order: every live subscription and
    every handle the instance holds is below the next handle. *)
Definition fresh_handles (s : State) : Prop :=
  Forall (fun sub => (fst sub < next_subscription s)%nat) (subscriptions s).

(** What the projection observer keeps on a dimension without slider. *)
Definition kept_without_slider (s s' : State) : Prop :=
  image_config s' = image_config s /\
  dim s' = dim s /\
  context_config s' = context_config s /\
  published s' = published s /\
  add_projection_history s' = add_projection_history s /\
  subscriptions s' = subscriptions s.

(** The writes of [toggleProjection] before the projection observer runs:
    the seed of [projection_opts], the flag, the flipped mode. *)
Definition toggled (p : Projection) : Projection :=
  match p with NORMAL => INTMAX | INTMAX => NORMAL end.

Definition seeded (s : State) : State :=
  exec
    (update_image_info
       (with_start_end
          (dimensions (model s) !! dim s)
          ((fun m => m - 1) <$>
           dimensions (model s) !! String.append "max_" (dim s))) ;;
     modify (set_add_projection_history true) ;;
     update_image_info (set_projection (toggled (projection (model s)))))
    s.

(** What holds after a projection observer has run on a dimension of more
    than one section, in terms of the state [s] the observers started
    from. *)
Definition rebuilt (s t : State) : Prop :=
  image_config t = image_config s /\
  dim t = dim s /\
  model t = model s /\
  control t = Some (slider_options (model s) (dim s)) /\
  element_shown t = true.

End DimensionSliderRest.

(** ** ChannelSettings: the remaining methods *)

(** [conf.image_info], under a name that the fields of the instance do not
    hide. *)
Definition image_info_of (conf : ImageConfig) : ImageInfo := image_info conf.

Module ChannelSettingsRest.
Import ChannelSettings.

Definition set_image_info v (s : State) : State :=
  {| config_id := config_id s; image_info := v; mode := mode s;
     observers := observers s; subscribed := subscribed s;
     subscriptions := subscriptions s;
     next_subscription := next_subscription s;
     click_handlers := click_handlers s; timers := timers s;
     mode_changes := mode_changes s |}.

Definition set_config_id v (s : State) : State :=
  {| config_id := v; image_info := image_info s; mode := mode s;
     observers := observers s; subscribed := subscribed s;
     subscriptions := subscriptions s;
     next_subscription := next_subscription s;
     click_handlers := click_handlers s; timers := timers s;
     mode_changes := mode_changes s |}.

(** Modelled from the spec: [EventSubscriber.unsubscribe] is not among the
    sources; [unbind] "unsubscribes from the configuration-changed
    notification". *)
Definition unsubscribe : Js State unit := modify (set_subscribed false).

Definition unbind : Js State unit :=
  unsubscribe ;;
  unregisterObservers ;;
  modify (set_image_info None).

(** [params.config_id] of a notification: a number, [null], or missing. *)
Inductive ConfigId : Type := id_number (n : Z) | id_null | id_undefined.

(** [params.config_id !== this.config_id] *)
Definition differs (p : ConfigId) (c : option Z) : bool :=
  match p, c with
  | id_number n, Some m => negb (Z.eqb n m)
  | id_null, None => false
  | _, _ => true
  end.

(** [Context.getImageConfig] is not among the sources: what it answers
    for an id ([None] for [null]) is a parameter. *)
Section ImageConfigChange.
Variable getImageConfig : option Z -> option ImageConfig.

Definition onImageConfigChange (params_config_id : ConfigId)
    : Js State unit :=
  let* this := get in
  (* if the event is for another config, forget it... *)
  if differs params_config_id (config_id this) then ret tt else
  (* change image config and update image info *)
  let id :=
    match params_config_id with id_number n => Some n | _ => None end in
  modify (set_config_id id) ;;
  match getImageConfig id with
  | None => ret tt
  | Some conf =>
      modify (set_image_info (Some (image_info_of conf))) ;;
      bind
  end.
End ImageConfigChange.

(** *** Channel changes *)

(** One element of [ranges] in a settings change, and the event. *)
Module Range.
Record t : Type := {
  index : nat;
  start : Q;
  end_ : Q;
  color : string;
  active : bool
}.
End Range.

Inductive SettingsEvent : Type :=
| IMAGE_SETTINGS_CHANGE_ranges (config_id : option Z) (ranges : list Range.t).

(** The instance together with the events published on the context. *)
Record Env : Type := {
  this : State;
  published : list SettingsEvent
}.

Definition publish (e : SettingsEvent) : Js Env unit :=
  modify (fun env =>
    {| this := this env; published := published env ++ [e] |}).

Definition propagateChannelChanges (index : nat) : Js Env unit :=
  let* env := get in
  match image_info (this env) with
  | None => throw "TypeError: image_info is null"
  | Some imgInf =>
      match channels imgInf !! index with
      | None => throw "TypeError: channel is undefined"
      | Some c =>
          publish
            (IMAGE_SETTINGS_CHANGE_ranges (config_id (this env))
               [{| Range.index := index;
                   Range.start := Window.start (window c);
                   Range.end_ := Window.end_ (window c);
                   Range.color := color c;
                   Range.active := active c |}])
      end
  end.

Definition with_active (a : bool) (c : Channel) : Channel :=
  {| active := a; color := color c;
     window := window c |}.

Definition with_channels (cs : list Channel) (i : ImageInfo) : ImageInfo :=
  {| ready := ready i; dimensions := dimensions i;
     projection := projection i; projection_opts := projection_opts i;
     image_delta_t := image_delta_t i; channels := cs |}.

(** [this.image_info.channels[index]] for a number [index]: [None] stands
    for [undefined]. *)
Definition channel_at (imgInf : ImageInfo) (index : Z) : option Channel :=
  if Z.leb 0 index then channels imgInf !! Z.to_nat index else None.

(** [this.image_info.channels[index].active = a] on an existing channel;
    the subscriptions that [registerObservers] made on the [active]
    property of that channel run [propagateChannelChanges] with the index
    they were made for, when the value changes. *)
Definition assign_active (index : nat) (a : bool) : Js Env unit :=
  let* env := get in
  match image_info (this env) with
  | None => throw "TypeError: image_info is null"
  | Some imgInf =>
      match channels imgInf !! index with
      | None => throw "TypeError: channel is undefined"
      | Some c =>
          modify (fun env =>
            {| this :=
                 set_image_info
                   (Some (with_channels
                            (<[index := with_active a c]> (channels imgInf))
                            imgInf))
                   (this env);
               published := published env |}) ;;
          if Bool.eqb (active c) a then ret tt
          else
            for_each
              (fun sub : nat * Observed =>
                 if bool_decide (snd sub = (index, (None, "active")))
                 then propagateChannelChanges (fst (snd sub))
                 else ret tt)
              (subscriptions (this env))
      end
  end.

Definition toggleChannel (index : Z) : Js Env unit :=
  let* env := get in
  match image_info (this env) with
  | None => throw "TypeError: image_info is null"
  | Some imgInf =>
      match channel_at imgInf index with
      | None => throw "TypeError: channel is undefined"
      | Some c =>
          if active c then assign_active (Z.to_nat index) false
          else assign_active (Z.to_nat index) true
      end
  end.

(** *** Vocabulary of the properties *)

(** Handles are handed out in increasing order. *)
Definition fresh_handles (s : State) : Prop :=
  Forall (fun sub => (fst sub < next_subscription s)%nat) (subscriptions s).

(** The subscriptions that [registerObservers] makes for [n] channels,
    with handles from [h] on: four per channel, in the order of
    [observedProperties]. *)
Fixpoint channel_subscriptions (h : nat) (i n : nat)
    : list (nat * Observed) :=
  match n with
  | O => []
  | S n' =>
      [(h, (i, (None, "active")));
       (S h, (i, (None, "color")));
       (S (S h), (i, (Some "window", "start")));
       (S (S (S h)), (i, (Some "window", "end")))] ++
      channel_subscriptions (4 + h) (S i) n'
  end.

(** What registering and disposing observers leaves alone: everything but
    [observers] and the binding engine. *)
Definition same_instance (s s' : State) : Prop :=
  config_id s' = config_id s /\
  image_info s' = image_info s /\
  mode s' = mode s /\
  subscribed s' = subscribed s /\
  click_handlers s' = click_handlers s /\
  timers s' = timers s /\
  mode_changes s' = mode_changes s.

End ChannelSettingsRest.

(** ** More sample states *)

Module MoreSamples.

(** A slider on a dimension of one section ("c" of the sample image has
    none recorded, "x" has one): bound, observers registered, no control. *)
Definition flat : DimensionSlider.State :=
  exec (DimensionSliderRest.attached)
    (DimensionSlider.set_context_config
       (ImageConfig_set_image_info
          (set_dimensions
             (<["x" := 0]> (<["max_x" := 1]> (dimensions Samples.info)))
             Samples.info)
          Samples.config)
       (Samples.bound "x")).

(** The z slider of the sample image, bound while the image data is still
    loading. *)
Definition loading : DimensionSlider.State :=
  DimensionSlider.set_context_config
    (ImageConfig_set_image_info
       (DimensionSliderRest.set_ready false Samples.info) Samples.config)
    (Samples.bound "z").

(** Another configuration of the context, with an image whose second
    channel is displayed beyond its bounds. *)
Definition other_config : ImageConfig :=
  {| conf_id := 1;
     image_info :=
       ChannelSettingsRest.with_channels [Samples.channel_5_250; Samples.channel_m10_300]
         Samples.info;
     history := [] |}.

(** The channel settings of an image with two channels, bound, with
    nothing published yet. *)
Definition bus : ChannelSettingsRest.Env :=
  {| ChannelSettingsRest.this :=
       exec ChannelSettings.bind
         (Samples.settings [Samples.channel_5_250; Samples.channel_m10_300]);
     ChannelSettingsRest.published := [] |}.

End MoreSamples.

(** * Properties *)

(** ** Rounding *)

Lemma Math_round_inject_Z (z : Z) : Math_round (inject_Z z) = z.
Proof.
  unfold Math_round.
  assert (Hle : (inject_Z z <= inject_Z z + (1 # 2))%Q).
  { rewrite <- (Qplus_0_r (inject_Z z)) at 1.
    apply Qplus_le_r. discriminate. }
  assert (Hlt : (inject_Z z + (1 # 2) < inject_Z (z + 1))%Q).
  { rewrite inject_Z_plus. apply Qplus_lt_r. reflexivity. }
  pose proof (Qfloor_le (inject_Z z + (1 # 2))) as Hfl.
  pose proof (Qlt_floor (inject_Z z + (1 # 2))) as Hlf.
  assert (H1 : (inject_Z (Qfloor (inject_Z z + (1 # 2))) < inject_Z (z + 1))%Q)
    by (eapply Qle_lt_trans; eassumption).
  assert (H2 : (inject_Z z < inject_Z (Qfloor (inject_Z z + (1 # 2)) + 1))%Q)
    by (eapply Qle_lt_trans; eassumption).
  rewrite <- Zlt_Qlt in H1, H2. lia.
Qed.

(** [Math.round] returns an integer at distance at most one half, the
    upper one on a tie. *)
Lemma Math_round_nearest (x : Q) :
  (x - (1 # 2) < inject_Z (Math_round x) /\
   inject_Z (Math_round x) <= x + (1 # 2))%Q.
Proof.
  unfold Math_round. split.
  - pose proof (Qlt_floor (x + (1 # 2))) as H.
    rewrite inject_Z_plus in H.
    apply (Qplus_lt_l _ _ 1%Q).
    eapply Qle_lt_trans; [| exact H].
    ring_simplify. apply Qle_refl.
  - apply Qfloor_le.
Qed.

Lemma Math_round_monotone (x y : Q) :
  (x <= y)%Q -> Math_round x <= Math_round y.
Proof.
  intros H. unfold Math_round. apply Qfloor_resp_le.
  apply Qplus_le_l. exact H.
Qed.

Example attached_z_slider :
  DimensionSlider.control (Samples.attached "z") <> None /\
  DimensionSlider.observers (Samples.attached "z") = [0; 1; 2]%nat /\
  DimensionSlider.published (Samples.attached "z")
  = [IMAGE_SETTINGS_CHANGE 1 NORMAL].
Proof. vm_compute. repeat split; congruence. Qed.

(** ** Loops *)

Section ForEach.
Context {S A : Type} (P : S -> Prop) (f : A -> Js S unit).

(** A property kept by every iteration, thrown or not, is kept by the
    loop. *)
Lemma for_each_preserves (l : list A) :
  (forall x s, P s -> P (exec (f x) s)) ->
  forall s, P s -> P (exec (for_each f l) s).
Proof.
  intros Hf. induction l as [| x l IH]; intros s Hs; [exact Hs |].
  specialize (Hf x s Hs). unfold exec in *. simpl. unfold and_then.
  destruct (f x s) as [[[] | e] s']; simpl in *; auto.
Qed.

(** When every iteration returns and keeps the property, so does the
    loop. *)
Lemma for_each_returns (l : list A) :
  (forall x s, P s -> exists s', f x s = (Normal tt, s') /\ P s') ->
  forall s, P s -> exists s', for_each f l s = (Normal tt, s') /\ P s'.
Proof.
  intros Hf. induction l as [| x l IH]; intros s Hs.
  - exists s. split; [reflexivity | exact Hs].
  - destruct (Hf x s Hs) as (s1 & E1 & H1).
    destruct (IH s1 H1) as (s2 & E2 & H2).
    exists s2. split; [| exact H2].
    simpl. unfold and_then. rewrite E1. exact E2.
Qed.
End ForEach.

(** A loop that runs a callback on the matching elements runs it once per
    matching element. *)
Lemma for_each_filter {S A : Type} (p : A -> bool) (cb : Js S unit)
    (l : list A) (s : S) :
  for_each (fun x => if p x then cb else ret tt) l s
  = for_each (fun _ => cb) (List.filter p l) s.
Proof.
  revert s. induction l as [| x l IH]; intros s; [reflexivity |].
  simpl. destruct (p x); simpl; unfold and_then.
  - destruct (cb s) as [[[] | e] s']; [apply IH | reflexivity].
  - simpl. apply IH.
Qed.

Lemma for_each_filter_with {S A : Type} (p : A -> bool) (f : A -> Js S unit)
    (l : list A) (s : S) :
  for_each (fun x => if p x then f x else ret tt) l s
  = for_each f (List.filter p l) s.
Proof.
  revert s. induction l as [| x l IH]; intros s; [reflexivity |].
  simpl. destruct (p x); simpl; unfold and_then.
  - destruct (f x s) as [[[] | e] s']; [apply IH | reflexivity].
  - simpl. apply IH.
Qed.

(** ** The slider control *)

Module ControlSpec.
Import DimensionSlider.

Lemma Qred_inject_Z (q : Q) (z : Z) : (q == inject_Z z)%Q -> Qred q = inject_Z z.
Proof.
  intros H. rewrite (Qred_complete _ _ H).
  unfold Qred, inject_Z. simpl.
  pose proof (Z.ggcd_gcd z 1) as Hg.
  pose proof (Z.ggcd_correct_divisors z 1) as Hd.
  destruct (Z.ggcd z 1) as [g [a b]]. simpl in *.
  rewrite Z.gcd_1_r in Hg. subst g. destruct Hd as [Ha Hb].
  assert (Hza : a = z) by lia. assert (Hzb : b = 1) by lia.
  rewrite Hza, Hzb. reflexivity.
Qed.

(** The options that [trimAlignValue] reads are not the value. *)
Lemma trimAlignValue_with_value (v : option Q) (o : Options.t) (x : Q) :
  trimAlignValue (with_value v o) x = trimAlignValue o x.
Proof. reflexivity. Qed.

(** An integer within the bounds of a control in steps of 0.01 is on the
    grid: the control reports it as it is. *)
Lemma trimAlignValue_integer (o : Options.t) (n : Z) :
  Options.step o = (1 # 100)%Q ->
  in_range o (inject_Z n) ->
  trimAlignValue o (inject_Z n) = inject_Z n.
Proof.
  intros Hstep [Hmin Hmax]. unfold trimAlignValue, valueMin in *.
  destruct (num_leb (inject_Z n) (inject_Z (Options.min o))) eqn:E1.
  - apply Qle_bool_iff in E1. rewrite <- Zle_Qle in *.
    f_equal. lia.
  - assert (Halign : alignValue o (inject_Z n) = inject_Z n).
    { unfold alignValue, valueMin. rewrite Hstep.
      change (num_ltb 0 (1 # 100)) with true. cbv iota.
      assert (Hfl : Qfloor ((inject_Z n - inject_Z (Options.min o)) / (1 # 100))
                    = (n - Options.min o) * 100).
      { rewrite <- (Qfloor_Z ((n - Options.min o) * 100)).
        apply Qfloor_comp. rewrite inject_Z_mult.
        unfold Zminus. rewrite inject_Z_plus, inject_Z_opp. field. }
      rewrite Hfl.
      assert (Hmod : (inject_Z n - inject_Z (Options.min o)
                      - inject_Z ((n - Options.min o) * 100) * (1 # 100) == 0)%Q).
      { rewrite inject_Z_mult. unfold Zminus.
        rewrite inject_Z_plus, inject_Z_opp. field. }
      assert (Hle : num_leb (1 # 100)
                      (2 * (inject_Z n - inject_Z (Options.min o)
                            - inject_Z ((n - Options.min o) * 100) * (1 # 100)))
                    = false).
      { apply not_true_is_false. intros E.
        apply Qle_bool_iff in E. rewrite Hmod in E. lra. }
      rewrite Hle. apply Qred_inject_Z. rewrite Hmod. ring. }
    destruct (Options.max o) as [m |]; [| exact Halign].
    destruct (num_leb (inject_Z m) (inject_Z n)) eqn:E2; [| exact Halign].
    apply Qle_bool_iff in E2. rewrite <- Zle_Qle in *. f_equal. lia.
Qed.

(** What a control in steps of 0.01 with ordered bounds reports is
    within its bounds. *)
Lemma trimAlignValue_in_range (o : Options.t) (x : Q) :
  Options.step o = (1 # 100)%Q ->
  in_range o (valueMin o) ->
  in_range o (trimAlignValue o x).
Proof.
  intros Hstep [_ Hord]. unfold trimAlignValue.
  destruct (num_leb x (valueMin o)) eqn:E1.
  - split; [apply Qle_refl | exact Hord].
  - assert (Hlt : (valueMin o < x)%Q).
    { apply Qnot_le_lt. intros H. apply Qle_bool_iff in H.
      unfold num_leb in E1. congruence. }
    assert (Halign : forall m : option Z,
      Options.max o = m ->
      match m with Some m => (x < inject_Z m)%Q | None => True end ->
      in_range o (alignValue o x)).
    { intros m Hm Hx. unfold alignValue. rewrite Hstep.
      change (num_ltb 0 (1 # 100)) with true. cbv iota.
      set (k := Qfloor ((x - valueMin o) / (1 # 100))).
      assert (Hk1 : (inject_Z k <= (x - valueMin o) / (1 # 100))%Q)
        by apply Qfloor_le.
      assert (Hk2 : ((x - valueMin o) / (1 # 100) < inject_Z (k + 1))%Q)
        by apply Qlt_floor.
      assert (Hdiv : ((x - valueMin o) / (1 # 100) == (x - valueMin o) * 100)%Q)
        by field.
      rewrite Hdiv in Hk1, Hk2. rewrite inject_Z_plus in Hk2.
      assert (Hk0 : 0 <= k).
      { apply Zlt_succ_le. unfold Z.succ. rewrite Zlt_Qlt, inject_Z_plus.
        eapply Qle_lt_trans; [| exact Hk2]. change (inject_Z 0) with 0%Q.
        lra. }
      rewrite Zle_Qle in Hk0. change (inject_Z 0) with 0%Q in Hk0.
      assert (Hup : match m with
                    | Some m => (inject_Z (k + 1) <= (inject_Z m - valueMin o) * 100)%Q
                    | None => True
                    end).
      { destruct m as [m |]; [| exact I].
        unfold valueMin in *.
        assert (Hz : k + 1 <= (m - Options.min o) * 100).
        { apply Zlt_succ_le. unfold Z.succ. rewrite <- Z.add_lt_mono_r.
          rewrite Zlt_Qlt. eapply Qle_lt_trans; [exact Hk1 |].
          rewrite inject_Z_mult. unfold Zminus.
          rewrite inject_Z_plus, inject_Z_opp.
          change (inject_Z 100) with 100%Q. lra. }
        rewrite Zle_Qle in Hz. rewrite inject_Z_mult in Hz.
        unfold Zminus in Hz. rewrite !inject_Z_plus, inject_Z_opp in Hz.
        change (inject_Z 100) with 100%Q in Hz.
        rewrite inject_Z_plus. lra. }
      rewrite inject_Z_plus in Hup. change (inject_Z 1) with 1%Q in Hup, Hk2.
      unfold in_range. rewrite Hm.
      destruct (num_leb (1 # 100)
                  (2 * (x - valueMin o - inject_Z k * (1 # 100))));
        (split; [rewrite Qred_correct; lra |]);
        destruct m as [m |]; try exact I; rewrite Qred_correct; lra. }
    destruct (Options.max o) as [m |] eqn:Em.
    + destruct (num_leb (inject_Z m) x) eqn:E2.
      * unfold in_range. rewrite Em. split; [exact Hord | apply Qle_refl].
      * apply (Halign (Some m) eq_refl).
        apply Qnot_le_lt. intros H. apply Qle_bool_iff in H.
        unfold num_leb in E2. congruence.
    + apply (Halign None eq_refl). exact I.
Qed.

(** What the control reports is a point of its grid, in lowest terms. *)
Lemma trimAlignValue_on_grid (o : Options.t) (x : Q) :
  Options.step o = (1 # 100)%Q ->
  exists j : Z,
    trimAlignValue o x = Qred (valueMin o + inject_Z j * (1 # 100)).
Proof.
  intros Hstep. unfold trimAlignValue.
  assert (Hmin : exists j : Z,
            valueMin o = Qred (valueMin o + inject_Z j * (1 # 100))).
  { exists 0. symmetry. apply Qred_inject_Z. unfold valueMin.
    change (inject_Z 0) with 0%Q. ring. }
  assert (Halign : exists j : Z,
            alignValue o x = Qred (valueMin o + inject_Z j * (1 # 100))).
  { unfold alignValue. rewrite Hstep.
    change (num_ltb 0 (1 # 100)) with true. cbv iota.
    set (k := Qfloor ((x - valueMin o) / (1 # 100))).
    destruct (num_leb (1 # 100)
                (2 * (x - valueMin o - inject_Z k * (1 # 100)))).
    - exists (k + 1). apply Qred_complete. rewrite inject_Z_plus.
      change (inject_Z 1) with 1%Q. ring.
    - exists k. apply Qred_complete. ring. }
  destruct (num_leb x (valueMin o)); [exact Hmin |].
  destruct (Options.max o) as [m |]; [| exact Halign].
  destruct (num_leb (inject_Z m) x); [| exact Halign].
  exists ((m - Options.min o) * 100). symmetry. apply Qred_inject_Z.
  unfold valueMin. rewrite inject_Z_mult. unfold Zminus.
  rewrite inject_Z_plus, inject_Z_opp. change (inject_Z 100) with 100%Q.
  field.
Qed.

(** The control reports a point of its grid within its bounds as it
    is. *)
Lemma trimAlignValue_grid_point (o : Options.t) (j : Z) :
  Options.step o = (1 # 100)%Q ->
  let y := Qred (valueMin o + inject_Z j * (1 # 100)) in
  in_range o y ->
  trimAlignValue o y = y.
Proof.
  intros Hstep y [Hlo Hhi].
  assert (Hy : (y == valueMin o + inject_Z j * (1 # 100))%Q)
    by (subst y; apply Qred_correct).
  assert (Halign : alignValue o y = y).
  { unfold alignValue. rewrite Hstep.
    change (num_ltb 0 (1 # 100)) with true. cbv iota.
    assert (Hfl : Qfloor ((y - valueMin o) / (1 # 100)) = j).
    { rewrite <- (Qfloor_Z j). apply Qfloor_comp. rewrite Hy. field. }
    rewrite Hfl.
    assert (Hmod : (y - valueMin o - inject_Z j * (1 # 100) == 0)%Q)
      by (rewrite Hy; ring).
    assert (Hle : num_leb (1 # 100)
                    (2 * (y - valueMin o - inject_Z j * (1 # 100))) = false).
    { apply not_true_is_false. intros E.
      apply Qle_bool_iff in E. rewrite Hmod in E. lra. }
    rewrite Hle.
    transitivity (Qred y).
    - apply Qred_complete. rewrite Hmod. ring.
    - subst y. apply Qred_complete. apply Qred_correct. }
  unfold trimAlignValue.
  destruct (num_leb y (valueMin o)) eqn:E1.
  - apply Qle_bool_iff in E1. symmetry. subst y.
    apply Qred_inject_Z. unfold valueMin in *.
    apply Qle_antisym; [rewrite <- Hy; exact E1 | rewrite <- Hy; exact Hlo].
  - destruct (Options.max o) as [m |]; [| exact Halign].
    destruct (num_leb (inject_Z m) y) eqn:E2; [| exact Halign].
    apply Qle_bool_iff in E2. symmetry. subst y.
    apply Qred_inject_Z.
    apply Qle_antisym; [rewrite <- Hy; exact Hhi | rewrite <- Hy; exact E2].
Qed.

(** What a control with ordered bounds reports, it reports again. *)
Lemma trimAlignValue_idempotent (o : Options.t) (x : Q) :
  Options.step o = (1 # 100)%Q ->
  in_range o (valueMin o) ->
  trimAlignValue o (trimAlignValue o x) = trimAlignValue o x.
Proof.
  intros Hstep Hord.
  pose proof (trimAlignValue_in_range o x Hstep Hord) as Hr.
  destruct (trimAlignValue_on_grid o x Hstep) as (j & Hj).
  rewrite Hj in *. apply trimAlignValue_grid_point; assumption.
Qed.

(** Rounding stays within integer bounds. *)
Lemma Math_round_in_range (o : Options.t) (x : Q) :
  in_range o x -> in_range o (inject_Z (Math_round x)).
Proof.
  intros [Hmin Hmax]. unfold in_range, valueMin in *. split.
  - rewrite <- Zle_Qle. rewrite <- (Math_round_inject_Z (Options.min o)).
    apply Math_round_monotone. exact Hmin.
  - destruct (Options.max o) as [m |]; [| exact I].
    rewrite <- Zle_Qle. rewrite <- (Math_round_inject_Z m).
    apply Math_round_monotone. exact Hmax.
Qed.

Lemma Math_ceil_in_range (o : Options.t) (x : Q) :
  in_range o x -> in_range o (inject_Z (Math_ceil x)).
Proof.
  intros [Hmin Hmax]. unfold in_range, valueMin, Math_ceil in *. split.
  - eapply Qle_trans; [exact Hmin | apply Qle_ceiling].
  - destruct (Options.max o) as [m |]; [| exact I].
    rewrite <- Zle_Qle. rewrite <- (Qceiling_Z m).
    apply Qceiling_resp_le. exact Hmax.
Qed.

Lemma Math_floor_in_range (o : Options.t) (x : Q) :
  in_range o x -> in_range o (inject_Z (Math_floor x)).
Proof.
  intros [Hmin Hmax]. unfold in_range, valueMin, Math_floor in *. split.
  - rewrite <- Zle_Qle. rewrite <- (Qfloor_Z (Options.min o)).
    apply Qfloor_resp_le. exact Hmin.
  - destruct (Options.max o) as [m |]; [| exact I].
    eapply Qle_trans; [apply Qfloor_le | exact Hmax].
Qed.

End ControlSpec.

(** ** Sequencing *)

Section Sequencing.
Context {S A B : Type}.

(** A relation between the state before and after, kept by both parts of
    a sequence, is kept by the sequence, thrown or not. *)
Lemma exec_and_then (R : S -> S -> Prop) (m : Js S A) (k : A -> Js S B)
    (s : S) :
  (forall s1 s2 s3, R s1 s2 -> R s2 s3 -> R s1 s3) ->
  R s (exec m s) ->
  (forall a s', R s' (exec (k a) s')) ->
  R s (exec (and_then m k) s).
Proof.
  intros Htrans Hm Hk. unfold exec, and_then in *.
  destruct (m s) as [[a | e] s']; simpl in *; [| exact Hm].
  eapply Htrans; [exact Hm | apply Hk].
Qed.

(** The same for a property of the state. *)
Lemma exec_and_then_keeps (P : S -> Prop) (m : Js S A) (k : A -> Js S B)
    (s : S) :
  P (exec m s) ->
  (forall a s', P s' -> P (exec (k a) s')) ->
  P (exec (and_then m k) s).
Proof.
  intros Hm Hk. unfold exec, and_then in *.
  destruct (m s) as [[a | e] s']; simpl in *; [| exact Hm].
  apply Hk. exact Hm.
Qed.

Lemma exec_get (k : S -> Js S A) (s : S) :
  exec (and_then get k) s = exec (k s) s.
Proof. reflexivity. Qed.
End Sequencing.

(** ** DimensionSlider *)

Module DimensionSliderSpec.
Import DimensionSlider DimensionSliderRest ControlSpec.

Ltac js_unfold :=
  unfold addHistory, update_image_info, update_config, publish,
    slider_create, slider_destroy in *;
  unfold slider_method, the_image_config, try_catch_ignored, exec,
    completion, returns, and_then, ret, get, modify, throw in *.

(** *** Events of the control without original event *)

Lemma image_info_eta (i : ImageInfo) :
  {| ready := ready i; dimensions := dimensions i;
     projection := projection i; projection_opts := projection_opts i;
     image_delta_t := image_delta_t i; channels := channels i |} = i.
Proof. destruct i. reflexivity. Qed.

Lemma echoed_refl (s : State) : echoed s s.
Proof.
  unfold echoed. repeat split. unfold set_dimensions. apply image_info_eta.
Qed.

Lemma echoed_trans (s1 s2 s3 : State) :
  echoed s1 s2 -> echoed s2 s3 -> echoed s1 s3.
Proof.
  unfold echoed.
  intros (A1 & A2 & A3 & A4 & A5 & A6 & A7 & A8 & A9 & A10 & A11 & A12 & A13
          & A14 & A15)
         (B1 & B2 & B3 & B4 & B5 & B6 & B7 & B8 & B9 & B10 & B11 & B12 & B13
          & B14 & B15).
  repeat split; try congruence.
  rewrite <- A14 at 2. rewrite <- B14. reflexivity.
Qed.

Lemma echoed_frame (s s' : State) :
  echoed s s' ->
  projection (model s') = projection (model s) /\
  projection_opts (model s') = projection_opts (model s) /\
  ready (model s') = ready (model s) /\
  image_delta_t (model s') = image_delta_t (model s) /\
  channels (model s') = channels (model s).
Proof.
  intros H. unfold echoed in H.
  destruct H as (_ & _ & _ & _ & _ & _ & _ & _ & _ & _ & _ & _ & _ & H & _).
  rewrite <- H. repeat split.
Qed.

Lemma echoed_kept (s s' : State) : echoed s s' -> kept s s'.
Proof.
  intros H. destruct (echoed_frame s s' H) as (Hp & _).
  unfold echoed in H. unfold kept. tauto.
Qed.

(** A write to a handle of the control. *)
Lemma slider_method_echoed (f : Options.t -> Options.t) (s : State) :
  (forall o, bare (f o) = bare o) ->
  echoed s (exec (slider_method (fun o => Some (f o))) s).
Proof.
  intros Hf. unfold exec, slider_method.
  destruct (control s) as [o |] eqn:Hc; simpl; [| apply echoed_refl].
  unfold echoed. simpl. rewrite Hc. simpl. rewrite Hf.
  repeat split. unfold model. simpl. apply image_info_eta.
Qed.

Lemma publish_echoed (e : Event) (s : State) : echoed s (exec (publish e) s).
Proof.
  unfold echoed, exec, publish, modify. simpl.
  repeat split. apply image_info_eta.
Qed.

Lemma write_dimension_echoed (v : Z) (s : State) :
  echoed s (exec (write_dimension v) s).
Proof.
  unfold echoed, exec, write_dimension. js_unfold. simpl.
  repeat split. unfold model, set_dimensions. simpl. apply image_info_eta.
Qed.

Lemma notify_echoed (o : Observed) (cb : Js State unit) (s : State) :
  (forall t, echoed t (exec cb t)) ->
  echoed s (exec (notify o cb) s).
Proof.
  intros Hcb. unfold notify. unfold exec at 1, and_then, get.
  apply (for_each_preserves (echoed s)); [| apply echoed_refl].
  intros x t Ht. eapply echoed_trans; [exact Ht |].
  destruct (Observed_eqb (snd x) o); [apply Hcb | apply echoed_refl].
Qed.

Section Echo.
Context {callback : ChangeOption}.
Hypothesis callback_echoed :
  forall cb ui s, echoed s (exec (callback cb null_event ui) s).

Lemma trigger_change_echoed (index : Handle) (s : State) :
  echoed s (exec (trigger_change index) s).
Proof.
  unfold trigger_change. unfold exec at 1, and_then, get.
  destruct (control s) as [o |]; [| apply echoed_refl].
  destruct (uiHash o index) as [ui |]; [apply callback_echoed |].
  destruct (Options.change o); apply echoed_refl.
Qed.

Lemma slider_value_echoed (sliding : bool) (v : Q) (s : State) :
  echoed s (exec (slider_value sliding v) s).
Proof.
  unfold slider_value.
  apply exec_and_then; [apply echoed_trans | |].
  - apply (slider_method_echoed
             (fun o => with_value (Some (trimAlignValue o v)) o)).
    reflexivity.
  - intros _ t. destruct sliding;
      [apply echoed_refl | apply trigger_change_echoed].
Qed.

Lemma slider_option_value_echoed (v : Z) (s : State) :
  echoed s (exec (slider_option_value v) s).
Proof.
  unfold slider_option_value.
  apply exec_and_then; [apply echoed_trans | |].
  - apply (slider_method_echoed (with_value (Some (inject_Z v)))).
    reflexivity.
  - intros _ t. apply trigger_change_echoed.
Qed.

Lemma slider_option_values_echoed (vs : option Z * option Z) (s : State) :
  echoed s (exec (slider_option_values vs) s).
Proof.
  unfold slider_option_values. rewrite exec_get.
  apply exec_and_then; [apply echoed_trans | |].
  - apply (slider_method_echoed
             (with_values (Some (inject_Z <$> fst vs, inject_Z <$> snd vs)))).
    reflexivity.
  - intros _ t. destruct (Options.values <$> control s) as [[h |] |];
      try apply echoed_refl.
    apply exec_and_then; [apply echoed_trans | |];
      intros; apply trigger_change_echoed.
Qed.

Lemma dimension_observer_echoed (v : Z) (s : State) :
  echoed s (exec (dimension_observer v) s).
Proof.
  unfold dimension_observer.
  apply exec_and_then; [apply echoed_trans | |].
  - apply slider_option_value_echoed.
  - intros _ t. unfold exec at 1, and_then, get, the_image_config.
    destruct (image_config t); [apply echoed_refl | apply publish_echoed].
Qed.

Lemma assign_dimension_echoed (v : Z) (s : State) :
  echoed s (exec (assign_dimension v) s).
Proof.
  unfold assign_dimension. rewrite exec_get.
  apply exec_and_then; [apply echoed_trans | |].
  - apply write_dimension_echoed.
  - intros _ t.
    assert (Hn : echoed t
      (exec (notify (dimensions_prop (dim s)) (dimension_observer v)) t))
      by (apply notify_echoed; intros; apply dimension_observer_echoed).
    destruct (dimensions (image_info (context_config s)) !! dim s) as [x |];
      [destruct (Z.eqb x v); [apply echoed_refl |] |]; exact Hn.
Qed.

(** A change that the program made leaves everything but the section,
    the handle and the events as it was. *)
Lemma onChange_echoed (value : Q) (s : State) :
  echoed s (exec (onChange value false) s).
Proof.
  unfold onChange. unfold exec at 1, and_then at 1, get.
  unfold and_then at 1, the_image_config.
  destruct (image_config s); [apply echoed_refl |].
  destruct (match dimensions (image_info (context_config s)) !! dim s with
            | Some o => Z.eqb (Math_round value) o
            | None => false
            end); [apply echoed_refl |].
  unfold and_then, ret. apply assign_dimension_echoed.
Qed.

Lemma change_echoed (cb : ChangeCallback) (ui : Ui.t) (s : State) :
  echoed s (exec (change cb null_event ui) s).
Proof.
  destruct cb; [apply echoed_refl | apply onChange_echoed].
Qed.

End Echo.

Lemma nested_change_echoed (depth : nat) (cb : ChangeCallback) (ui : Ui.t)
    (s : State) :
  echoed s (exec (nested_change depth cb null_event ui) s).
Proof.
  revert cb ui s. induction depth as [| depth IH]; intros cb ui s.
  - apply echoed_refl.
  - apply (@change_echoed (nested_change depth) IH).
Qed.

Lemma control_change_echoed (cb : ChangeCallback) (ui : Ui.t) (s : State) :
  echoed s (exec (control_change cb null_event ui) s).
Proof. apply nested_change_echoed. Qed.

(** *** Changes of the section *)

(** C10. On the z slider in maximum intensity projection [playDimension]
  returns at once, for either direction: the state is left as it was, so
  no event is published, no history entry is appended and
  [last_player_start] keeps its value. *)
Theorem playDimension_z_INTMAX (forwards : bool) (s : State) :
dim s = "z" ->
image_config s = config_object ->
projection (model s) = INTMAX ->
playDimension forwards s = (Normal tt, s).
Proof.
intros Hdim Hconf Hproj. unfold model in Hproj.
unfold playDimension. js_unfold.
rewrite Hdim. simpl. rewrite Hconf. simpl. rewrite Hproj. reflexivity.
Qed.

Lemma playDimension_z_INTMAX_witness :
playDimension true Samples.projected = (Normal tt, Samples.projected) /\
playDimension false Samples.projected = (Normal tt, Samples.projected).
Proof.
split; apply (playDimension_z_INTMAX _ Samples.projected); reflexivity.
Defined.

(** C4. When the rounded value is the value the model already holds,
  [onChange] leaves the whole state as it was, for either value of
  [slider_interaction]: the model is not assigned, so the dimension
  observer does not run, no event is published and no history entry is
  appended. *)
Theorem onChange_same_value (value : Q) (slider_interaction : bool) (s : State) :
dimensions (model s) !! dim s = Some (Math_round value) ->
exec (onChange value slider_interaction) s = s /\
(image_config s = config_object ->
 completion (onChange value slider_interaction) s = Normal tt).
Proof.
intros H. unfold model in H. unfold onChange. js_unfold.
destruct (image_config s) eqn:E; simpl.
- split; [reflexivity | discriminate].
- rewrite H, Z.eqb_refl. simpl. auto.
Qed.

Lemma onChange_same_value_witness :
exec (onChange (349 # 100) true) (Samples.attached "z")
= Samples.attached "z" /\
exec (onChange (26 # 10) false) (Samples.attached "z")
= Samples.attached "z".
Proof.
split.
- apply (onChange_same_value (349 # 100) true (Samples.attached "z")).
  reflexivity.
- apply (onChange_same_value (26 # 10) false (Samples.attached "z")).
  reflexivity.
Defined.

(** The same at any depth of the nesting. *)
Lemma onChange_unchanged {callback : ChangeOption} (value : Q)
    (slider_interaction : bool) (s : State) :
  image_config s = config_object ->
  dimensions (model s) !! dim s = Some (Math_round value) ->
  onChange value slider_interaction s = (Normal tt, s).
Proof.
  intros Hconf H. unfold model in H. unfold onChange. js_unfold.
  rewrite Hconf. simpl. rewrite H, Z.eqb_refl. reflexivity.
Qed.

Lemma addHistory_bound (entries : list HistoryEntry) (s : State) :
  image_config s = config_object ->
  addHistory entries s
  = (Normal tt,
     set_context_config (ImageConfig_addHistory entries (context_config s)) s).
Proof.
  intros H. unfold addHistory, and_then, the_image_config.
  rewrite H. reflexivity.
Qed.

Lemma notify_filter (o : Observed) (cb : Js State unit) (s : State) :
  notify o cb s = for_each (fun _ => cb) (subscriptions_on o s) s.
Proof.
  unfold notify, and_then, get, subscriptions_on. apply for_each_filter.
Qed.

(** [onChange] with a new value is the history entry, if any, and the
    assignment. *)
Lemma onChange_run {callback : ChangeOption} (value : Q)
    (slider_interaction : bool) (s : State) :
  image_config s = config_object ->
  dimensions (model s) !! dim s <> Some (Math_round value) ->
  onChange value slider_interaction s
  = assign_dimension (Math_round value)
      (if slider_interaction then
         set_context_config
           (ImageConfig_addHistory
              [{| prop := ["image_info"; "dimensions"; dim s];
                  old_val := HNumber (dimensions (model s) !! dim s);
                  new_val := HNumber (Some (Math_round value));
                  type := "number" |}]
              (context_config s)) s
       else s).
Proof.
  intros Hconf Hne. unfold model in *.
  unfold onChange, and_then at 1, get.
  unfold and_then at 1, the_image_config. rewrite Hconf.
  assert (Hold : match dimensions (image_info (context_config s)) !! dim s with
                 | Some o0 => Z.eqb (Math_round value) o0
                 | None => false
                 end = false).
  { destruct (dimensions (image_info (context_config s)) !! dim s) as [x |];
      [| reflexivity].
    destruct (Z.eqb_spec (Math_round value) x) as [Heq | _];
      [| reflexivity].
    exfalso. apply Hne. f_equal. symmetry. exact Heq. }
  rewrite Hold. unfold and_then.
  destruct slider_interaction.
  - rewrite (addHistory_bound _ s Hconf). reflexivity.
  - reflexivity.
Qed.

(** The assignment of a new value is the write and then the observers. *)
Lemma assign_dimension_run {callback : ChangeOption} (v : Z) (s : State) :
  dimensions (model s) !! dim s <> Some v ->
  assign_dimension v s
  = notify (dimensions_prop (dim s)) (dimension_observer v)
      (exec (write_dimension v) s).
Proof.
  intros Hne. unfold model in Hne.
  unfold assign_dimension, and_then at 1, get.
  unfold and_then at 1. unfold write_dimension at 1.
  unfold and_then at 1, get, update_image_info, update_config, modify.
  destruct (dimensions (image_info (context_config s)) !! dim s) as [x |];
    [| reflexivity].
  destruct (Z.eqb_spec x v) as [Heq | _]; [| reflexivity].
  exfalso. apply Hne. f_equal. exact Heq.
Qed.

(** Without a control the first observer throws at once. *)
Lemma notify_no_control {callback : ChangeOption} (d : string) (v : Z)
    (t : State) :
  control t = None ->
  exec (notify (dimensions_prop d) (dimension_observer v)) t = t.
Proof.
  intros Hc. unfold exec. rewrite notify_filter.
  destruct (subscriptions_on (dimensions_prop d) t) as [| sub l];
    [reflexivity |].
  simpl. unfold and_then, dimension_observer, slider_option_value,
    slider_method, and_then. rewrite Hc. reflexivity.
Qed.

(** The [change] event of a control whose callback finds the section it
    reports in the model already, or is the callback of the projection,
    changes nothing. *)
Lemma trigger_change_settled {inner : ChangeOption} (o : Options.t)
    (t : State) :
  image_config t = config_object ->
  control t = Some o ->
  Options.change o = change_projection \/
  (Options.values o = None /\
   dimensions (model t) !! dim t = Some (Math_round (current_value o))) ->
  @trigger_change (@change inner) lower t = (Normal tt, t).
Proof.
  intros Hconf Hc Hset.
  unfold trigger_change, and_then, get. rewrite Hc.
  destruct Hset as [Hp | [Hvs Hd]].
  - rewrite Hp. destruct (uiHash o lower); reflexivity.
  - unfold uiHash. rewrite Hvs.
    unfold change_option. destruct (Options.change o); [reflexivity |].
    simpl. apply onChange_unchanged; assumption.
Qed.

(** The dimension observer on such a control: the control is set, the
    event is published, the model stays. *)
Lemma dimension_observer_settled {inner : ChangeOption} (v : Z)
    (o : Options.t) (t : State) :
  image_config t = config_object ->
  control t = Some o ->
  Options.change o = change_projection \/
  (Options.values o = None /\
   dimensions (model t) !! dim t
   = Some (Math_round (trimAlignValue o (inject_Z v)))) ->
  @dimension_observer (@change inner) v t
  = (Normal tt,
     set_published
       (published t ++
        [IMAGE_DIMENSION_CHANGE (conf_id (context_config t)) (dim t) [v]])
       (set_control (Some (with_value (Some (inject_Z v)) o)) t)).
Proof.
  intros Hconf Hc Hset.
  unfold dimension_observer, slider_option_value.
  unfold and_then at 1. unfold and_then at 1. unfold slider_method at 1.
  rewrite Hc.
  rewrite (trigger_change_settled (with_value (Some (inject_Z v)) o));
    try assumption; try reflexivity.
  js_unfold. simpl. rewrite Hconf. reflexivity.
Qed.

Lemma dimension_observers_settled {inner : ChangeOption} (v : Z)
    (l : list (nat * Observed)) (o : Options.t) (t : State) :
  image_config t = config_object ->
  control t = Some o ->
  Options.change o = change_projection \/
  (Options.values o = None /\
   dimensions (model t) !! dim t
   = Some (Math_round (trimAlignValue o (inject_Z v)))) ->
  for_each (fun _ : nat * Observed => @dimension_observer (@change inner) v)
    l t
  = (Normal tt,
     match l with
     | [] => t
     | _ :: _ =>
         set_published
           (published t ++
            repeat
              (IMAGE_DIMENSION_CHANGE (conf_id (context_config t)) (dim t) [v])
              (length l))
           (set_control (Some (with_value (Some (inject_Z v)) o)) t)
     end).
Proof.
  revert o t. induction l as [| sub l IH]; intros o t Hconf Hc Hset;
    [reflexivity |].
  simpl. unfold and_then.
  rewrite (dimension_observer_settled v o t Hconf Hc Hset).
  rewrite (IH (with_value (Some (inject_Z v)) o)); try assumption;
    try reflexivity.
  destruct l as [| sub' l]; [reflexivity |].
  simpl. rewrite <- app_assoc. reflexivity.
Qed.

(** A control that takes the section [v] as it is, with [v] in the
    model, is settled. *)
Lemma accepts_settled (o : Options.t) (v : Z) (t : State) :
  accepts o v ->
  dimensions (model t) !! dim t = Some v ->
  Options.change o = change_projection \/
  (Options.values o = None /\
   dimensions (model t) !! dim t
   = Some (Math_round (trimAlignValue o (inject_Z v)))).
Proof.
  intros [Hp | [Hvs Hr]] Hd; [left; exact Hp |].
  right. split; [exact Hvs |]. rewrite Hr. exact Hd.
Qed.

(** A one-handle control takes every section within its bounds as it
    is. *)
Lemma one_handle_accepts (o : Options.t) (v : Z) :
  one_handle o -> in_range o (inject_Z v) -> accepts o v.
Proof.
  intros (_ & Hstep & Hvs & _) Hr. right. split; [exact Hvs |].
  rewrite (trimAlignValue_integer o v Hstep Hr). apply Math_round_inject_Z.
Qed.

(** The control closed over itself is the [change] option one level
    down. *)
Lemma control_change_unfold :
  control_change = @change (nested_change (pred call_stack)).
Proof. reflexivity. Qed.

(** The assignment of a new value that the control takes as it is: the
    write, and one event for every live observer of the dimension, each
    of which sets the control. *)
Lemma assign_dimension_accepted_at {inner : ChangeOption} (v : Z) (t : State)
    (o : Options.t) :
  image_config t = config_object ->
  control t = Some o ->
  accepts o v ->
  dimensions (model t) !! dim t <> Some v ->
  @assign_dimension (@change inner) v t
  = (Normal tt,
     match subscriptions_on (dimensions_prop (dim t)) t with
     | [] => exec (write_dimension v) t
     | l =>
         set_published
           (published t ++
            repeat
              (IMAGE_DIMENSION_CHANGE (conf_id (context_config t)) (dim t) [v])
              (length l))
           (set_control (Some (with_value (Some (inject_Z v)) o))
              (exec (write_dimension v) t))
     end).
Proof.
  intros Hconf Hc Hacc Hne.
  rewrite (assign_dimension_run v t Hne), notify_filter.
  rewrite (dimension_observers_settled v _ o);
    [| exact Hconf | exact Hc |].
  - change (subscriptions_on (dimensions_prop (dim t))
              (exec (write_dimension v) t))
      with (subscriptions_on (dimensions_prop (dim t)) t).
    destruct (subscriptions_on (dimensions_prop (dim t)) t); reflexivity.
  - apply accepts_settled; [exact Hacc |].
    unfold model. simpl. apply lookup_insert_eq.
Qed.

Lemma assign_dimension_accepted (v : Z) (t : State) (o : Options.t) :
  image_config t = config_object ->
  control t = Some o ->
  accepts o v ->
  dimensions (model t) !! dim t <> Some v ->
  assign_dimension v t
  = (Normal tt,
     match subscriptions_on (dimensions_prop (dim t)) t with
     | [] => exec (write_dimension v) t
     | l =>
         set_published
           (published t ++
            repeat
              (IMAGE_DIMENSION_CHANGE (conf_id (context_config t)) (dim t) [v])
              (length l))
           (set_control (Some (with_value (Some (inject_Z v)) o))
              (exec (write_dimension v) t))
     end).
Proof.
  rewrite control_change_unfold. apply assign_dimension_accepted_at.
Qed.

(** The assignment of a new value: the write, then the observers, which
    leave the history alone; the value is still there after them when
    the control takes it as it is. *)
Lemma assign_dimension_new (v : Z) (t : State) :
  dimensions (model t) !! dim t <> Some v ->
  let written := exec (write_dimension v) t in
  let t' := exec (assign_dimension v) t in
  t' = exec (notify (dimensions_prop (dim t)) (dimension_observer v)) written /\
  history (context_config t') = history (context_config t) /\
  history (context_config written) = history (context_config t) /\
  dimensions (model written) = <[dim t := v]> (dimensions (model t)) /\
  (image_config t = config_object ->
   (forall o, control t = Some o -> accepts o v) ->
   dimensions (model t') = <[dim t := v]> (dimensions (model t))).
Proof.
  intros Hne written t'.
  assert (Hn : t' = exec (notify (dimensions_prop (dim t))
                            (dimension_observer v)) written)
    by (subst t'; unfold exec at 1;
        rewrite (assign_dimension_run v t Hne); reflexivity).
  split; [exact Hn |].
  split.
  { pose proof (assign_dimension_echoed control_change_echoed v t) as He.
    destruct He as (_ & _ & _ & _ & _ & _ & _ & _ & _ & _ & _ & _ & Hh & _).
    exact Hh. }
  split; [reflexivity |]. split; [reflexivity |].
  intros Hconf Hacc. destruct (control t) as [o |] eqn:Hc.
  - subst t'. unfold exec at 1.
    rewrite (assign_dimension_accepted v t o Hconf Hc (Hacc o eq_refl) Hne).
    destruct (subscriptions_on (dimensions_prop (dim t)) t); reflexivity.
  - rewrite Hn. rewrite notify_no_control; [reflexivity | exact Hc].
Qed.

(** C3. When the rounded value differs from the value in the model,
    [onChange] rounds to the nearest integer and assigns it to
    [dimensions[dim]]; with [slider_interaction] it first appends the one
    history entry [{prop: ['image_info','dimensions',dim], old_val, new_val}],
    without it the history is left as it was.  The assignment writes the
    rounded value and then runs the observers of the dimension, which add
    nothing to the history; [dimensions[dim]] holds the rounded value
    after them as well whenever the control takes it as it is. *)
Theorem onChange_new_value (value : Q) (slider_interaction : bool) (s : State) :
  image_config s = config_object ->
  dimensions (model s) !! dim s <> Some (Math_round value) ->
  let v := Math_round value in
  let entry :=
    {| prop := ["image_info"; "dimensions"; dim s];
       old_val := HNumber (dimensions (model s) !! dim s);
       new_val := HNumber (Some v);
       type := "number" |} in
  let written :=
    exec (write_dimension v)
      (if slider_interaction then exec (addHistory [entry]) s else s) in
  let s' := exec (onChange value slider_interaction) s in
  (value - (1 # 2) < inject_Z v /\ inject_Z v <= value + (1 # 2))%Q /\
  s' = exec (assign_dimension v)
         (if slider_interaction then exec (addHistory [entry]) s else s) /\
  history (context_config s')
  = history (context_config s) ++
    (if slider_interaction then [[entry]] else []) /\
  s' = exec (notify (dimensions_prop (dim s)) (dimension_observer v)) written /\
  history (context_config written)
  = history (context_config s) ++
    (if slider_interaction then [[entry]] else []) /\
  dimensions (model written) = <[dim s := v]> (dimensions (model s)) /\
  ((forall o, control s = Some o -> accepts o v) ->
   dimensions (model s') = <[dim s := v]> (dimensions (model s))).
Proof.
  intros Hconf Hne v entry written s'.
  split; [apply Math_round_nearest |].
  assert (Hadd : exec (addHistory [entry]) s
                 = set_context_config
                     (ImageConfig_addHistory [entry] (context_config s)) s)
    by (unfold exec; rewrite (addHistory_bound _ s Hconf); reflexivity).
  subst written. rewrite Hadd.
  set (recorded := if slider_interaction then
                     set_context_config
                       (ImageConfig_addHistory [entry] (context_config s)) s
                   else s).
  assert (Hs' : s' = exec (assign_dimension v) recorded).
  { subst s' recorded. unfold exec at 1.
    rewrite (onChange_run value slider_interaction s Hconf Hne).
    reflexivity. }
  assert (R1 : image_config recorded = config_object)
    by (subst recorded; destruct slider_interaction; exact Hconf).
  assert (R2 : dim recorded = dim s)
    by (subst recorded; destruct slider_interaction; reflexivity).
  assert (R3 : dimensions (model recorded) = dimensions (model s))
    by (subst recorded; destruct slider_interaction; reflexivity).
  assert (R4 : control recorded = control s)
    by (subst recorded; destruct slider_interaction; reflexivity).
  assert (R5 : history (context_config recorded)
               = history (context_config s) ++
                 (if slider_interaction then [[entry]] else [])).
  { subst recorded. destruct slider_interaction; [reflexivity |].
    rewrite app_nil_r. reflexivity. }
  assert (Hne' : dimensions (model recorded) !! dim recorded <> Some v)
    by (rewrite R3, R2; exact Hne).
  destruct (assign_dimension_new v recorded Hne')
    as (A1 & A2 & A3 & A4 & A5).
  rewrite <- Hs' in A1, A2, A5. rewrite R2 in A1, A4, A5.
  rewrite R3 in A4, A5. rewrite R5 in A2, A3.
  split; [exact Hs' |]. split; [exact A2 |]. split; [exact A1 |].
  split; [exact A3 |]. split; [exact A4 |].
  intros Hacc. apply A5; [exact R1 |]. rewrite R4. exact Hacc.
Qed.

Lemma onChange_new_value_witness :
  history (context_config (exec (onChange (421 # 100) true)
                             (Samples.attached "z")))
  = [[{| prop := ["image_info"; "dimensions"; "z"];
         old_val := HNumber (Some 3);
         new_val := HNumber (Some 4);
         type := "number" |}]] /\
  history (context_config (exec (onChange (421 # 100) false)
                             (Samples.attached "z"))) = [].
Proof.
  assert (Hconf : image_config (Samples.attached "z") = config_object)
    by (vm_compute; reflexivity).
  assert (Hne : dimensions (model (Samples.attached "z"))
                  !! dim (Samples.attached "z")
                <> Some (Math_round (421 # 100)))
    by (vm_compute; discriminate).
  split.
  - destruct (onChange_new_value (421 # 100) true (Samples.attached "z")
                Hconf Hne) as (_ & _ & H & _).
    etransitivity; [exact H | vm_compute; reflexivity].
  - destruct (onChange_new_value (421 # 100) false (Samples.attached "z")
                Hconf Hne) as (_ & _ & H & _).
    etransitivity; [exact H | vm_compute; reflexivity].
Defined.

(** *** Playback *)



Lemma onChange_programmatic_kept (value : Q) (s : State) :
  kept s (exec (onChange value false) s).
Proof.
  apply echoed_kept. apply (onChange_echoed control_change_echoed).
Qed.








(** *** Teardown *)

Lemma detached_returns (s : State) :
  completion detached s = Normal tt /\
  control (exec detached s) = None /\
  element_shown (exec detached s) = false.
Proof.
  unfold detached. js_unfold. destruct (control s) eqn:E; simpl; auto.
Qed.

(** Disposing a list of handles returns and removes exactly the
    subscriptions with these handles. *)
Lemma for_each_dispose (l : list nat) (s : State) :
  exists s',
    for_each dispose l s = (Normal tt, s') /\
    observers s' = observers s /\
    image_info_ready_observer s' = image_info_ready_observer s /\
    image_config s' = image_config s /\
    forall sub, In sub (subscriptions s') <->
                In sub (subscriptions s) /\ ~ In (fst sub) l.
Proof.
  revert s. induction l as [| h l IH]; intros s.
  - exists s. simpl. repeat split; tauto.
  - destruct (IH (exec (dispose h) s)) as (s' & E & H1 & H2 & H3 & H4).
    exists s'. simpl. unfold and_then. unfold dispose at 1, modify.
    split; [exact E |].
    split; [exact H1 |]. split; [exact H2 |]. split; [exact H3 |].
    intros sub. rewrite H4.
    unfold exec, dispose, modify. simpl. rewrite filter_In.
    destruct (Nat.eqb_spec (fst sub) h) as [Heq | Hne]; simpl.
    + split; [intros [[_ Hf] _]; discriminate |].
      intros [_ Hnot]. exfalso. apply Hnot. left. symmetry. exact Heq.
    + split.
      * intros [[Hin _] Hl]. split; [exact Hin |].
        intros [Hh | Hl']; [apply Hne; symmetry; exact Hh | exact (Hl Hl')].
      * intros [Hin Hnot]. split; [split; [exact Hin | reflexivity] |].
        intros Hl'. apply Hnot. right. exact Hl'.
Qed.

Lemma unregisterObservers_spec (s : State) :
  exists s',
    unregisterObservers s = (Normal tt, s') /\
    observers s' = [] /\
    image_info_ready_observer s' = None /\
    image_config s' = image_config s /\
    forall sub, In sub (subscriptions s') <->
                In sub (subscriptions s) /\
                ~ In (fst sub) (observers s) /\
                image_info_ready_observer s <> Some (fst sub).
Proof.
  destruct (for_each_dispose (observers s) s) as (s1 & E & H1 & H2 & H3 & H4).
  unfold unregisterObservers. unfold and_then at 1, get. unfold and_then at 1.
  rewrite E. unfold and_then, modify, get. simpl.
  destruct (image_info_ready_observer s1) as [o |] eqn:Eo; simpl.
  - eexists. split; [reflexivity |]. simpl. rewrite <- H2.
    split; [reflexivity |]. split; [reflexivity |]. split; [exact H3 |].
    intros sub. rewrite filter_In, H4.
    destruct (Nat.eqb_spec (fst sub) o) as [Heq | Hne]; simpl.
    + split; [intros [_ Hf]; discriminate |].
      intros (_ & _ & Hn). exfalso. apply Hn. f_equal. symmetry. exact Heq.
    + split.
      * intros [[Hin Hnot] _]. split; [exact Hin |]. split; [exact Hnot |].
        intros Heq. injection Heq as Heq. apply Hne. symmetry. exact Heq.
      * intros (Hin & Hnot & _). tauto.
  - eexists. split; [reflexivity |]. simpl. rewrite <- H2.
    split; [reflexivity |]. split; [exact Eo |]. split; [exact H3 |].
    intros sub. rewrite H4.
    split; [intros [Hin Hnot]; repeat split; [exact Hin | exact Hnot | discriminate] |].
    intros (Hin & Hnot & _). tauto.
Qed.

(** C9. [detached] returns in every state, with or without a control on
    the element: a failing teardown of the control is swallowed.
    [unregisterObservers] and [unbind] return in every state and release
    every subscription the instance holds, those in [observers] and the
    one in [image_info_ready_observer]: none of their handles is live
    afterwards, every other subscription still is, [observers] is empty
    and [image_info_ready_observer] is null.  A state without observers
    is left as it was. *)
Theorem teardown_safe :
  (forall s, completion detached s = Normal tt /\
             control (exec detached s) = None) /\
  (forall s,
     let s' := exec unregisterObservers s in
     completion unregisterObservers s = Normal tt /\
     observers s' = [] /\
     image_info_ready_observer s' = None /\
     (forall h,
        In h (observers s) \/ image_info_ready_observer s = Some h ->
        ~ In h (map fst (subscriptions s'))) /\
     (forall sub,
        In sub (subscriptions s') <->
        In sub (subscriptions s) /\
        ~ In (fst sub) (observers s) /\
        image_info_ready_observer s <> Some (fst sub)) /\
     (observers s = [] -> image_info_ready_observer s = None -> s' = s)) /\
  (forall s,
     let s' := exec unbind s in
     completion unbind s = Normal tt /\
     observers s' = [] /\
     image_info_ready_observer s' = None /\
     image_config s' = null /\
     (forall h,
        In h (observers s) \/ image_info_ready_observer s = Some h ->
        ~ In h (map fst (subscriptions s'))) /\
     (forall sub,
        In sub (subscriptions s') <->
        In sub (subscriptions s) /\
        ~ In (fst sub) (observers s) /\
        image_info_ready_observer s <> Some (fst sub))).
Proof.
  split; [| split].
  - intros s. destruct (detached_returns s) as (H1 & H2 & _). auto.
  - intros s s'. subst s'.
    destruct (unregisterObservers_spec s) as (s' & E & H1 & H2 & H3 & H4).
    unfold completion, exec. rewrite E. simpl.
    split; [reflexivity |]. split; [exact H1 |]. split; [exact H2 |].
    split; [| split; [exact H4 |]].
    + intros h Hh Hin. apply in_map_iff in Hin.
      destruct Hin as (sub & Hfst & Hin). apply H4 in Hin.
      subst h. destruct Hh as [Hh | Hh]; tauto.
    + intros Ho Hr. unfold unregisterObservers in E.
      unfold and_then, get, modify in E. rewrite Ho in E. simpl in E.
      rewrite Hr in E. injection E as <-.
      destruct s. simpl in *. subst. reflexivity.
  - intros s s'. subst s'.
    destruct (unregisterObservers_spec s) as (s' & E & H1 & H2 & H3 & H4).
    assert (Eb : unbind s = (Normal tt, set_image_config null s'))
      by (unfold unbind, and_then; rewrite E; reflexivity).
    unfold completion, exec. rewrite Eb. simpl.
    split; [reflexivity |]. split; [exact H1 |]. split; [exact H2 |].
    split; [reflexivity |]. split; [| exact H4].
    intros h Hh Hin. apply in_map_iff in Hin.
    destruct Hin as (sub & Hfst & Hin). apply H4 in Hin.
    subst h. destruct Hh as [Hh | Hh]; tauto.
Qed.

(** A slider that was bound but never attached: no control, no observers;
    an attached slider; and a slider unbound while the image data was
    still loading, which holds the subscription on [ready] only. *)
Lemma teardown_safe_witness :
  completion detached (Samples.bound "z") = Normal tt /\
  exec unregisterObservers (Samples.bound "z") = Samples.bound "z" /\
  observers (exec unbind (Samples.attached "z")) = [] /\
  ~ In 0%nat
      (map fst (subscriptions (exec unbind (exec attached MoreSamples.loading)))).
Proof.
  destruct teardown_safe as (Hd & Hu & Hb).
  split; [exact (proj1 (Hd (Samples.bound "z"))) |].
  split.
  { destruct (Hu (Samples.bound "z")) as (_ & _ & _ & _ & _ & Hs).
    apply Hs; reflexivity. }
  split.
  { destruct (Hb (Samples.attached "z")) as (_ & Ho & _). exact Ho. }
  destruct (Hb (exec attached MoreSamples.loading))
    as (_ & _ & _ & _ & Hh & _).
  apply Hh. right. vm_compute. reflexivity.
Defined.

(** *** Slides *)

Lemma num_eqb_refl (x : Q) : num_eqb x x = true.
Proof. apply Qeq_bool_iff. reflexivity. Qed.

Lemma num_eqb_lt (x y : Q) : (x < y)%Q -> num_eqb y x = false.
Proof.
  intros H. destruct (num_eqb y x) eqn:E; [| reflexivity].
  apply Qeq_bool_iff in E. rewrite E in H.
  exfalso. exact (Qlt_irrefl _ H).
Qed.

Lemma num_leb_lt (x y : Q) : (x < y)%Q -> num_leb x y = true.
Proof. intros H. apply Qle_bool_iff. apply Qlt_le_weak. exact H. Qed.

Lemma num_leb_false (x y : Q) : num_leb x y = false -> (y < x)%Q.
Proof.
  intros H. apply Qnot_le_lt. intros Hle.
  apply Qle_bool_iff in Hle. unfold num_leb in H. congruence.
Qed.

(** A slide of the lower handle onto or past the upper one is cancelled,
    before anything is touched. *)
Lemma slide_lower_rejected (event : SliderEvent.t) (s : State) (v hi : Q) :
  (hi <= v)%Q ->
  slide event {| Ui.value := v; Ui.values := Some (v, hi) |} s
  = (Normal return_false, s).
Proof.
  intros H. unfold slide, and_then, get, ret. simpl.
  destruct (PlayerInfo.handle (player_info s)); [reflexivity |].
  rewrite num_eqb_refl. simpl.
  apply Qle_bool_iff in H. unfold num_leb. rewrite H. reflexivity.
Qed.

Lemma slide_upper_rejected (event : SliderEvent.t) (s : State) (lo v : Q) :
  (v <= lo)%Q ->
  slide event {| Ui.value := v; Ui.values := Some (lo, v) |} s
  = (Normal return_false, s).
Proof.
  intros H. unfold slide, and_then, get, ret. simpl.
  destruct (PlayerInfo.handle (player_info s)); [reflexivity |].
  rewrite (num_eqb_refl v).
  destruct (num_eqb lo v) eqn:E; simpl.
  - unfold num_leb. rewrite (proj2 (Qle_bool_iff v v) (Qle_refl v)).
    reflexivity.
  - apply Qle_bool_iff in H. unfold num_leb. rewrite H. reflexivity.
Qed.

(** A slide that is not cancelled leaves the handles strictly ordered. *)
Lemma slide_allowed_ordered (event : SliderEvent.t) (s s' : State)
    (v0 v1 v : Q) :
  v = v0 \/ v = v1 ->
  slide event {| Ui.value := v; Ui.values := Some (v0, v1) |} s
  = (Normal return_undefined, s') ->
  (v0 < v1)%Q.
Proof.
  intros Hv. unfold slide, and_then, get, ret. simpl.
  destruct (PlayerInfo.handle (player_info s)); [discriminate |].
  destruct (num_eqb v0 v) eqn:E0; simpl.
  - destruct (num_leb v1 v) eqn:E1; [discriminate |].
    intros _. apply num_leb_false in E1. apply Qeq_bool_iff in E0.
    rewrite E0. exact E1.
  - destruct Hv as [-> | ->]; [rewrite num_eqb_refl in E0; discriminate |].
    rewrite num_eqb_refl. simpl.
    destruct (num_leb v1 v0) eqn:E1; [discriminate |].
    intros _. apply num_leb_false in E1. exact E1.
Qed.

Lemma slide_handle_ordered (event : SliderEvent.t) (index : Handle)
    (newVal lo hi a b : Q) (s : State) :
  (lo <= hi)%Q ->
  completion (slide_handle event index newVal (lo, hi)) s = Normal (a, b) ->
  (a <= b)%Q.
Proof.
  intros Hle. unfold completion, slide_handle, and_then, ret. simpl.
  destruct index.
  - destruct (slide event _ s) as [[[] | e] s'] eqn:E; simpl;
      intros H; try discriminate; injection H as <- <-; [exact Hle |].
    apply Qlt_le_weak. eapply slide_allowed_ordered; [| exact E]. auto.
  - destruct (slide event _ s) as [[[] | e] s'] eqn:E; simpl;
      intros H; try discriminate; injection H as <- <-; [exact Hle |].
    apply Qlt_le_weak. eapply slide_allowed_ordered; [| exact E]. auto.
Qed.

(** What leaves the image info alone. *)
Lemma addHistory_model (entries : list HistoryEntry) (s : State) :
  model (exec (addHistory entries) s) = model s.
Proof.
  unfold model. js_unfold. destruct (image_config s); reflexivity.
Qed.

(** The control closed over itself ignores an event without original
    event on a two-handle control. *)
Lemma trigger_change_projection (index : Handle) (t : State) (o : Options.t) :
  control t = Some o ->
  Options.change o = change_projection ->
  trigger_change index t = (Normal tt, t).
Proof.
  intros Hc Hp. unfold trigger_change, and_then, get. rewrite Hc, Hp.
  destruct (uiHash o index); reflexivity.
Qed.

(** On a quiet control [option values] is the write of the pair. *)
Lemma slider_option_values_quiet (vs : option Z * option Z) (t : State)
    (o : Options.t) :
  control t = Some o ->
  quiet o ->
  slider_option_values vs t
  = (Normal tt,
     set_control
       (Some (with_values (Some (inject_Z <$> fst vs, inject_Z <$> snd vs)) o))
       t).
Proof.
  intros Hc Hq. unfold slider_option_values, and_then at 1, get.
  unfold and_then, slider_method. rewrite Hc. simpl.
  destruct (Options.values o) as [h |] eqn:Hv; [| reflexivity].
  destruct Hq as [Hp | Hn]; [| congruence].
  set (o' := with_values (Some (inject_Z <$> fst vs, inject_Z <$> snd vs)) o).
  rewrite (trigger_change_projection upper (set_control (Some o') t) o'
             eq_refl Hp).
  rewrite (trigger_change_projection lower (set_control (Some o') t) o'
             eq_refl Hp).
  reflexivity.
Qed.

Ltac quiet_values :=
  erewrite slider_option_values_quiet;
    [| reflexivity | first [left; reflexivity | right; reflexivity]].

(** [changeProjection] with a pair writes the rounded pair to
    [projection_opts], whatever the control does with it. *)
Lemma changeProjection_opts (v0 v1 : option Q) (toggle : bool) (s : State) :
  image_config s = config_object ->
  projection_opts
    (model (exec (changeProjection (Some (v0, v1)) toggle) s))
  = {| ProjectionOpts.start := round_parseFloat v0;
       ProjectionOpts.end_ := round_parseFloat v1 |}.
Proof.
  intros Hconf.
  set (P := fun t : State =>
              projection_opts (model t)
              = {| ProjectionOpts.start := round_parseFloat v0;
                   ProjectionOpts.end_ := round_parseFloat v1 |}).
  change (P (exec (changeProjection (Some (v0, v1)) toggle) s)).
  unfold changeProjection.
  apply exec_and_then_keeps.
  - unfold exec at 1, and_then at 1, the_image_config. rewrite Hconf.
    apply (exec_and_then_keeps P); [reflexivity |].
    intros _ t Ht. apply (exec_and_then_keeps P).
    + unfold P.
      destruct (echoed_frame _ _
                  (slider_option_values_echoed control_change_echoed
                     (round_parseFloat v0, round_parseFloat v1) t))
        as (_ & -> & _).
      exact Ht.
    + intros _ t1 Ht1. rewrite exec_get.
      destruct (add_projection_history t1); [| exact Ht1].
      apply (exec_and_then_keeps P).
      * unfold P. rewrite addHistory_model. exact Ht1.
      * intros _ t2 Ht2. exact Ht2.
  - intros _ t Ht. unfold exec, and_then, the_image_config.
    destruct (image_config t); exact Ht.
Qed.

(** The [change] callback of the two-handle control writes the rounded
    handle values to [projection_opts]. *)
Lemma change_projection_opts (s : State) (a b : Q) :
  image_config s = config_object ->
  projection_opts
    (model (exec (change change_projection
                    {| SliderEvent.keyCode := None;
                       SliderEvent.originalEvent := true |}
                    {| Ui.value := a; Ui.values := Some (a, b) |}) s))
  = {| ProjectionOpts.start := Some (Math_round a);
       ProjectionOpts.end_ := Some (Math_round b) |}.
Proof.
  intros Hconf. unfold change. simpl.
  unfold exec at 1, and_then at 1, modify.
  apply (changeProjection_opts (Some a) (Some b) false
           (set_add_projection_history true s)).
  exact Hconf.
Qed.

(** C2. On a two-handle control with handles [lo <= hi], a slide of the
    lower handle to a value above [hi], or of the upper handle to a value
    below [lo], is answered with [false] and changes nothing: the handles
    stay where they were, they are not clamped.  Hence every slide leaves
    the handles ordered, and the [projection_opts] written from ordered
    handles have [start <= end]. *)
Theorem dual_handle_slide (event : SliderEvent.t) (s : State) (lo hi : Q) :
  (lo <= hi)%Q ->
  (forall v, (hi < v)%Q ->
     slide event {| Ui.value := v; Ui.values := Some (v, hi) |} s
     = (Normal return_false, s) /\
     slide_handle event lower v (lo, hi) s = (Normal (lo, hi), s)) /\
  (forall v, (v < lo)%Q ->
     slide event {| Ui.value := v; Ui.values := Some (lo, v) |} s
     = (Normal return_false, s) /\
     slide_handle event upper v (lo, hi) s = (Normal (lo, hi), s)) /\
  (forall index v a b,
     completion (slide_handle event index v (lo, hi)) s = Normal (a, b) ->
     (a <= b)%Q) /\
  (image_config s = config_object ->
   let opts :=
     projection_opts
       (model (exec (change change_projection
                       {| SliderEvent.keyCode := None;
                          SliderEvent.originalEvent := true |}
                       {| Ui.value := lo; Ui.values := Some (lo, hi) |}) s)) in
   exists a b,
     ProjectionOpts.start opts = Some a /\ ProjectionOpts.end_ opts = Some b /\
     a <= b).
Proof.
  intros Hle. repeat split.
  - apply slide_lower_rejected. apply Qlt_le_weak. assumption.
  - unfold slide_handle, and_then. simpl.
    rewrite slide_lower_rejected by (apply Qlt_le_weak; assumption).
    reflexivity.
  - apply slide_upper_rejected. apply Qlt_le_weak. assumption.
  - unfold slide_handle, and_then. simpl.
    rewrite slide_upper_rejected by (apply Qlt_le_weak; assumption).
    reflexivity.
  - intros index v a b. apply slide_handle_ordered. exact Hle.
  - intros Hconf opts. subst opts.
    rewrite (change_projection_opts s lo hi Hconf). simpl.
    exists (Math_round lo), (Math_round hi).
    repeat split. apply Math_round_monotone. exact Hle.
Qed.

(** The z slider in projection, handles at 3 and 9, dragged with the
    mouse: the lower handle to 9.5, the upper handle to 2.25. *)
Lemma dual_handle_slide_witness :
  slide_handle
    {| SliderEvent.keyCode := None; SliderEvent.originalEvent := true |}
    lower (95 # 10) (inject_Z 3, inject_Z 9) Samples.projected
  = (Normal (inject_Z 3, inject_Z 9), Samples.projected) /\
  slide_handle
    {| SliderEvent.keyCode := None; SliderEvent.originalEvent := true |}
    upper (225 # 100) (inject_Z 3, inject_Z 9) Samples.projected
  = (Normal (inject_Z 3, inject_Z 9), Samples.projected).
Proof.
  assert (H : (inject_Z 3 <= inject_Z 9)%Q) by (vm_compute; discriminate).
  destruct (dual_handle_slide
              {| SliderEvent.keyCode := None;
                 SliderEvent.originalEvent := true |}
              Samples.projected (inject_Z 3) (inject_Z 9) H)
    as (Hlo & Hup & _).
  split.
  - apply Hlo. reflexivity.
  - apply Hup. reflexivity.
Defined.


(** C8, as the code has it.  An arrow key on a slider that is not playing
    and shows one handle sets the control to a whole step in the direction
    of the key: the proposed value rounded up for the up and right keys
    (38, 39), rounded down for the left and down keys (37, 40), which is
    less than one step away from the proposed value; the slide itself is
    cancelled.  The control trims what it is handed to its bounds and its
    grid, and fires no [change] event during the slide: for a proposed
    value within the bounds of a control in steps of 0.01 (the control
    proposes no other) the whole step is stored as it is. *)
Theorem keyboard_step (event : SliderEvent.t) (keyCode : Z) (value : Q)
    (s : State) (o : Options.t) :
  PlayerInfo.handle (player_info s) = None ->
  control s = Some o ->
  SliderEvent.keyCode event = Some keyCode ->
  In keyCode [37; 38; 39; 40] ->
  let newVal :=
    if Z.eqb keyCode 38 || Z.eqb keyCode 39 then Math_ceil value
    else Math_floor value in
  slide event {| Ui.value := value; Ui.values := None |} s
  = (Normal return_false,
     set_control
       (Some (with_value (Some (trimAlignValue o (inject_Z newVal))) o)) s) /\
  (Options.step o = (1 # 100)%Q -> in_range o value ->
   trimAlignValue o (inject_Z newVal) = inject_Z newVal) /\
  (inject_Z (newVal - 1) < value /\ value < inject_Z (newVal + 1))%Q.
Proof.
  intros Hh Hc Hk Hin newVal. split; [| split].
  - unfold slide, and_then, get, ret. rewrite Hh, Hk. simpl.
    unfold slider_value, and_then, slider_method, ret. rewrite Hc.
    subst newVal. simpl in Hin.
    destruct Hin as [<- | [<- | [<- | [<- | []]]]]; reflexivity.
  - intros Hstep Hrange. apply trimAlignValue_integer; [exact Hstep |].
    subst newVal. destruct (Z.eqb keyCode 38 || Z.eqb keyCode 39).
    + apply Math_ceil_in_range. exact Hrange.
    + apply Math_floor_in_range. exact Hrange.
  - subst newVal.
    destruct (Z.eqb keyCode 38 || Z.eqb keyCode 39); split.
    + apply Qceiling_lt.
    + eapply Qle_lt_trans; [apply Qle_ceiling |].
      rewrite <- Zlt_Qlt. unfold Math_ceil. lia.
    + eapply Qlt_le_trans; [| apply Qfloor_le].
      rewrite <- Zlt_Qlt. unfold Math_floor. lia.
    + apply Qlt_floor.
Qed.

Lemma keyboard_step_witness :
  slide {| SliderEvent.keyCode := Some 39; SliderEvent.originalEvent := true |}
    {| Ui.value := 301 # 100; Ui.values := None |} (Samples.attached "z")
  = (Normal return_false,
     set_control
       (with_value (Some (inject_Z 4)) <$> control (Samples.attached "z"))
       (Samples.attached "z")).
Proof.
  assert (Hh : PlayerInfo.handle (player_info (Samples.attached "z")) = None)
    by (vm_compute; reflexivity).
  assert (Hc : control (Samples.attached "z")
               = Some (slider_options Samples.info "z"))
    by (vm_compute; reflexivity).
  destruct (keyboard_step
              {| SliderEvent.keyCode := Some 39;
                 SliderEvent.originalEvent := true |}
              39 (301 # 100) (Samples.attached "z") _ Hh Hc eq_refl)
    as (Hrun & Hkeep & _); [simpl; auto |].
  rewrite Hrun, Hkeep, Hc; [reflexivity | reflexivity |].
  split; vm_compute; discriminate.
Defined.

(** C8, as stated, fails: the right key at 3.01 moves the control to 4,
    the nearest integer of 3.01 is 3. *)
Lemma keyboard_step_not_nearest :
  let s' :=
    exec (slide {| SliderEvent.keyCode := Some 39;
                   SliderEvent.originalEvent := true |}
            {| Ui.value := 301 # 100; Ui.values := None |})
      (Samples.attached "z") in
  Options.value <$> control s' = Some (Some (inject_Z 4)) /\
  Math_round (301 # 100) = 3 /\
  Options.value <$> control s'
  <> Some (Some (inject_Z (Math_round (301 # 100)))).
Proof.
  vm_compute. repeat split. discriminate.
Qed.


(** *** Projection toggle *)

Lemma round_parseFloat_inject_Z (x : option Z) :
  round_parseFloat (inject_Z <$> x) = x.
Proof.
  destruct x as [z |]; simpl; [| reflexivity].
  rewrite Math_round_inject_Z. reflexivity.
Qed.

Lemma projection_opts_eta (o : ProjectionOpts.t) :
  {| ProjectionOpts.start := ProjectionOpts.start o;
     ProjectionOpts.end_ := ProjectionOpts.end_ o |} = o.
Proof. destruct o. reflexivity. Qed.

Lemma projection_observer_spec (s : State) :
  image_config s = config_object ->
  extent_le_1 (model s) (dim s) = false ->
  exists s', projection_observer s = (Normal tt, s') /\ observed s s'.
Proof.
  intros Hconf Hext. unfold model in Hext.
  unfold projection_observer, detached, initSlider, changeProjection.
  js_unfold. unfold observed, toggle_entry, model, with_start_end.
  destruct (control s) as [c |]; simpl; rewrite Hconf; simpl; rewrite Hext;
    destruct (String.eqb (dim s) "z");
    destruct (projection (image_info (context_config s))) eqn:Hp;
    simpl; rewrite ?Hconf; simpl; try quiet_values; simpl;
    destruct (add_projection_history s) eqn:Hflag; simpl; rewrite ?Hconf;
    simpl; rewrite ?Hconf; simpl;
    (eexists; split; [reflexivity |]); simpl;
    rewrite ?round_parseFloat_inject_Z, ?app_nil_r, ?Hp;
    unfold set_projection_opts; simpl;
    rewrite ?projection_opts_eta, ?Hp;
    rewrite <- ?Hp, ?image_info_eta;
    repeat split; rewrite ?Hconf, ?Hflag; reflexivity.
Qed.
Lemma observed_trans (s1 s2 s3 : State) :
  observed s1 s2 -> observed s2 s3 -> observed s1 s3.
Proof.
  unfold observed.
  intros (A1 & A2 & A3 & A4 & A5 & A6 & A7 & A8)
         (B1 & B2 & B3 & B4 & B5 & B6 & B7 & B8).
  repeat split; try congruence.
  rewrite B8, A7, app_nil_r. exact A8.
Qed.

Lemma notify_projection_spec (s : State) :
  image_config s = config_object ->
  extent_le_1 (model s) (dim s) = false ->
  exists s',
    notify projection_prop projection_observer s = (Normal tt, s') /\
    if existsb on_projection (subscriptions s) then observed s s' else s' = s.
Proof.
  unfold notify, and_then, get.
  generalize (subscriptions s) as l. intros l. revert s.
  induction l as [| sub l IH]; intros s Hconf Hext.
  - exists s. split; reflexivity.
  - simpl. unfold and_then. unfold on_projection at 1.
    destruct (Observed_eqb (snd sub) projection_prop); simpl.
    + destruct (projection_observer_spec s Hconf Hext) as (s1 & E1 & O1).
      rewrite E1.
      assert (Hconf1 : image_config s1 = config_object)
        by (destruct O1 as (-> & _); exact Hconf).
      assert (Hext1 : extent_le_1 (model s1) (dim s1) = false)
        by (destruct O1 as (_ & -> & _ & _ & -> & _); exact Hext).
      destruct (IH s1 Hconf1 Hext1) as (s' & E & O).
      exists s'. split; [exact E |].
      destruct (existsb on_projection l).
      * eapply observed_trans; eassumption.
      * subst s'. exact O1.
    + apply IH; assumption.
Qed.

(** One toggle on a slider that is not playing, whose dimension has more
    than one section and whose projection observer is registered. *)
Lemma toggleProjection_spec (s : State) :
  image_config s = config_object ->
  PlayerInfo.handle (player_info s) = None ->
  extent_le_1 (model s) (dim s) = false ->
  existsb on_projection (subscriptions s) = true ->
  let toggled :=
    match projection (model s) with NORMAL => INTMAX | INTMAX => NORMAL end in
  exists s',
    toggleProjection s = (Normal tt, s') /\
    image_config s' = config_object /\
    dim s' = dim s /\
    player_info s' = player_info s /\
    subscriptions s' = subscriptions s /\
    model s'
    = set_projection toggled
        (with_start_end
           (dimensions (model s) !! dim s)
           ((fun m => m - 1) <$>
            dimensions (model s) !! String.append "max_" (dim s))
           (model s)) /\
    history (context_config s')
    = history (context_config s) ++ [[toggle_entry (dim s) toggled]].
Proof.
  intros Hconf Hh Hext Hsub toggled.
  unfold toggleProjection, and_then at 1, get. rewrite Hh.
  unfold and_then at 1, the_image_config. rewrite Hconf.
  unfold and_then at 1, update_image_info, update_config, modify.
  unfold and_then at 1. unfold assign_projection, and_then at 1, get.
  unfold and_then at 1. unfold update_image_info, update_config, modify.
  simpl. fold (model s). fold toggled.
  assert (Hneq : Projection_eqb (projection (model s)) toggled = false)
    by (subst toggled; destruct (projection (model s)); reflexivity).
  rewrite Hneq.
  match goal with
  | |- context [notify _ _ ?s0] =>
      destruct (notify_projection_spec s0) as (s' & E & O);
        [exact Hconf | exact Hext | ]
  end.
  simpl in O. rewrite Hsub in O.
  destruct O as (O1 & O2 & O3 & O4 & O5 & O6 & O7 & O8).
  exists s'. split; [exact E |].
  simpl in *. unfold model in *. simpl in *.
  repeat split; try assumption; congruence.
Qed.
(** C1, as the code has it.  On a slider that is bound, not playing, has
    more than one section in its dimension and has its projection observer
    registered, and whose image is in NORMAL projection, two calls of
    [toggleProjection] return; the projection mode is NORMAL again; two
    history entries have been appended, one by each toggle; and
    [projection_opts] holds the seed written by [toggleProjection], from
    the current dimension value to the dimension maximum less one, whatever
    it held before. *)
Theorem toggleProjection_twice (s : State) :
  image_config s = config_object ->
  PlayerInfo.handle (player_info s) = None ->
  extent_le_1 (model s) (dim s) = false ->
  existsb on_projection (subscriptions s) = true ->
  projection (model s) = NORMAL ->
  let twice := toggleProjection ;; toggleProjection in
  let s' := exec twice s in
  completion twice s = Normal tt /\
  projection (model s') = NORMAL /\
  projection_opts (model s')
  = {| ProjectionOpts.start := dimensions (model s) !! dim s;
       ProjectionOpts.end_ :=
         (fun m => m - 1) <$>
         dimensions (model s) !! String.append "max_" (dim s) |} /\
  history (context_config s')
  = history (context_config s) ++
    [[toggle_entry (dim s) INTMAX]; [toggle_entry (dim s) NORMAL]].
Proof.
  intros Hconf Hh Hext Hsub Hp twice s'.
  destruct (toggleProjection_spec s Hconf Hh Hext Hsub)
    as (s1 & E1 & C1 & D1 & P1 & S1 & M1 & H1).
  rewrite Hp in M1, H1.
  assert (Hext1 : extent_le_1 (model s1) (dim s1) = false)
    by (rewrite M1, D1; exact Hext).
  assert (Hh1 : PlayerInfo.handle (player_info s1) = None)
    by (rewrite P1; exact Hh).
  assert (Hsub1 : existsb on_projection (subscriptions s1) = true)
    by (rewrite S1; exact Hsub).
  destruct (toggleProjection_spec s1 C1 Hh1 Hext1 Hsub1)
    as (s2 & E2 & C2 & D2 & P2 & S2 & M2 & H2).
  assert (Hp1 : projection (model s1) = INTMAX) by (rewrite M1; reflexivity).
  rewrite Hp1 in M2, H2.
  assert (Erun : twice s = (Normal tt, s2))
    by (subst twice; unfold and_then; rewrite E1; exact E2).
  subst s'. unfold completion, exec. rewrite Erun. simpl.
  split; [reflexivity |].
  rewrite M2, H2, H1, D1, M1. simpl.
  repeat split. rewrite <- app_assoc. reflexivity.
Qed.

Lemma toggleProjection_twice_witness :
  let s' := exec (toggleProjection ;; toggleProjection) (Samples.attached "z") in
  projection (model s') = NORMAL /\
  length (history (context_config s')) = 2%nat.
Proof.
  destruct (toggleProjection_twice (Samples.attached "z"))
    as (_ & Hp & _ & Hh); try reflexivity.
  split; [exact Hp |].
  rewrite Hh. reflexivity.
Defined.

(** C1, as stated, fails: [projection_opts] does not return to its
    original value.  The z slider of the sample image stands at z = 3 of
    ten sections, its [projection_opts] are (0, 0); after two toggles they
    are (3, 9). *)
Lemma toggleProjection_twice_opts_changed :
  let s := Samples.attached "z" in
  let s' := exec (toggleProjection ;; toggleProjection) s in
  projection (model s) = NORMAL /\
  projection_opts (model s)
  = {| ProjectionOpts.start := Some 0; ProjectionOpts.end_ := Some 0 |} /\
  projection_opts (model s')
  = {| ProjectionOpts.start := Some 3; ProjectionOpts.end_ := Some 9 |} /\
  projection_opts (model s') <> projection_opts (model s).
Proof.
  vm_compute. repeat split. discriminate.
Qed.

End DimensionSliderSpec.

(** ** ChannelSettings *)

Module ChannelSettingsSpec.
Import ChannelSettings.

Lemma num_ltb_lt (x y : Q) : num_ltb x y = true <-> (x < y)%Q.
Proof.
  unfold num_ltb. rewrite negb_true_iff. split.
  - intros H. apply Qnot_le_lt. intros Hle.
    apply Qle_bool_iff in Hle. congruence.
  - intros H. destruct (Qle_bool y x) eqn:E; [| reflexivity].
    apply Qle_bool_iff in E. exfalso. exact (Qlt_not_le _ _ H E).
Qed.

Lemma outside_min_max_spec (c : Channel) :
  outside_min_max c = true <->
  (Window.start (window c) < Window.min (window c) \/
   Window.max (window c) < Window.end_ (window c))%Q.
Proof.
  unfold outside_min_max. rewrite orb_true_iff, !num_ltb_lt. reflexivity.
Qed.

(** The flag set inside the [map] callback is the disjunction over the
    channels. *)
Lemma needsFullRangeMode_existsb (l : list Channel) (b : bool) :
  fold_left (fun needs c => if outside_min_max c then true else needs) l b
  = b || existsb outside_min_max l.
Proof.
  revert b. induction l as [| c l IH]; intros b; simpl.
  - rewrite orb_false_r. reflexivity.
  - rewrite IH. destruct (outside_min_max c), b; reflexivity.
Qed.

Lemma same_settings_refl (s : State) : same_settings s s.
Proof. repeat split. Qed.

Lemma same_settings_trans (s1 s2 s3 : State) :
  same_settings s1 s2 -> same_settings s2 s3 -> same_settings s1 s3.
Proof.
  unfold same_settings. intros (A1 & A2 & A3 & A4) (B1 & B2 & B3 & B4).
  repeat split; congruence.
Qed.

Lemma unregisterObservers_returns (s : State) :
  exists s', unregisterObservers s = (Normal tt, s') /\ same_settings s s'.
Proof.
  unfold unregisterObservers, and_then at 1, get. unfold and_then at 1.
  destruct (for_each_returns (same_settings s) dispose (observers s))
    with (s := s) as (s1 & E1 & H1).
  - intros h s0 H0. eexists. split; [reflexivity |].
    eapply same_settings_trans; [exact H0 |]. repeat split.
  - apply same_settings_refl.
  - rewrite E1. eexists. split; [reflexivity |].
    eapply same_settings_trans; [exact H1 |]. repeat split.
Qed.

Lemma registerObservers_returns (s : State) :
  exists s', registerObservers s = (Normal tt, s') /\ same_settings s s'.
Proof.
  unfold registerObservers, and_then at 1, get.
  destruct (image_info s) as [imgInf |];
    [| exists s; split; [reflexivity | apply same_settings_refl]].
  unfold and_then at 1.
  destruct (unregisterObservers_returns s) as (s1 & E1 & H1). rewrite E1.
  destruct (for_each_returns (same_settings s)
              (fun i : nat =>
                 for_each
                   (fun obsProp : option string * string =>
                      let* o := propertyObserver_subscribe (i, obsProp) in
                      modify (fun s => set_observers (observers s ++ [o]) s))
                   observedProperties)
              (seq 0 (length (channels imgInf))))
    with (s := s1) as (s2 & E2 & H2).
  - intros i s0 H0. apply for_each_returns; [| exact H0].
    intros obsProp s3 H3. eexists. split; [reflexivity |].
    eapply same_settings_trans; [exact H3 |]. repeat split.
  - exact H1.
  - exists s2. split; assumption.
Qed.

Lemma assign_mode_mode (v : option Z) (s : State) :
  mode (exec (assign_mode v) s) = v.
Proof.
  unfold assign_mode, exec, modify. simpl.
  destruct (decide (mode s = v)) as [Heq | Hne]; [exact Heq | reflexivity].
Qed.

(** C6. With an image info at hand, [bind] returns and sets [mode] to
    FULL_RANGE when the window of some channel leaves its bounds
    ([start < min] or [end > max]) and to MIN_MAX otherwise; channels with
    window (5, 250) in bounds (0, 255) give MIN_MAX, a channel with window
    (-10, 300) in bounds (0, 255) gives FULL_RANGE. *)
Theorem bind_mode (s : State) (imgInf : ImageInfo) :
  image_info s = Some imgInf ->
  let s' := exec bind s in
  completion bind s = Normal tt /\
  mode s'
  = Some (if existsb outside_min_max (channels imgInf)
          then FULL_RANGE else MIN_MAX) /\
  (mode s' = Some FULL_RANGE <->
   exists c, In c (channels imgInf) /\
     (Window.start (window c) < Window.min (window c) \/
      Window.max (window c) < Window.end_ (window c))%Q) /\
  (Forall (fun c => window c = window Samples.channel_5_250)
     (channels imgInf) -> mode s' = Some MIN_MAX) /\
  (Exists (fun c => window c = window Samples.channel_m10_300)
     (channels imgInf) -> mode s' = Some FULL_RANGE).
Proof.
  intros Hinfo s'.
  assert (Hrun : completion bind s = Normal tt /\
                 mode s' = Some (if existsb outside_min_max (channels imgInf)
                                 then FULL_RANGE else MIN_MAX)).
  { subst s'.
    destruct (registerObservers_returns (set_subscribed true s))
      as (s1 & E1 & I1 & M1 & C1 & T1).
    simpl in I1. rewrite Hinfo in I1.
    assert (Hb : bind s
      = assign_mode
          (Some (if existsb outside_min_max (channels imgInf)
                 then FULL_RANGE else MIN_MAX))
          (set_click_handlers 1 (set_click_handlers 0 s1))).
    { unfold bind, and_then, subscribe, modify, get. rewrite E1. simpl.
      rewrite I1, needsFullRangeMode_existsb. simpl.
      destruct (existsb outside_min_max (channels imgInf)); reflexivity. }
    unfold completion, exec. rewrite Hb.
    split; [reflexivity |]. apply assign_mode_mode. }
  destruct Hrun as [Hc Hm].
  split; [exact Hc |]. split; [exact Hm |].
  rewrite Hm. split; [| split].
  - destruct (existsb outside_min_max (channels imgInf)) eqn:E.
    + split; [| reflexivity]. intros _.
      apply existsb_exists in E. destruct E as (c & Hin & Hc').
      exists c. split; [exact Hin |]. apply outside_min_max_spec. exact Hc'.
    + split; [discriminate |]. intros (c & Hin & Hc').
      apply outside_min_max_spec in Hc'.
      assert (Ht : existsb outside_min_max (channels imgInf) = true)
        by (apply existsb_exists; exists c; auto).
      congruence.
  - intros Hall.
    destruct (existsb outside_min_max (channels imgInf)) eqn:E;
      [| reflexivity].
    apply existsb_exists in E. destruct E as (c & Hin & Hc').
    rewrite Forall_forall in Hall. specialize (Hall c).
    unfold outside_min_max in Hc'. rewrite Hall in Hc'.
    + vm_compute in Hc'. discriminate.
    + apply list_elem_of_In. exact Hin.
  - intros Hex. apply Exists_exists in Hex. destruct Hex as (c & Hin & Hw).
    assert (Ht : existsb outside_min_max (channels imgInf) = true).
    { apply existsb_exists. exists c. split; [apply list_elem_of_In; exact Hin |].
      unfold outside_min_max. rewrite Hw. reflexivity. }
    rewrite Ht. reflexivity.
Qed.

Lemma bind_mode_witness :
  mode (exec bind
          (Samples.settings [Samples.channel_5_250; Samples.channel_5_250]))
  = Some MIN_MAX /\
  mode (exec bind
          (Samples.settings [Samples.channel_5_250; Samples.channel_m10_300]))
  = Some FULL_RANGE.
Proof.
  split.
  - refine (proj1 (proj2 (proj2 (proj2 (bind_mode
      (Samples.settings [Samples.channel_5_250; Samples.channel_5_250])
      _ _)))) _); [reflexivity |].
    repeat constructor.
  - refine (proj2 (proj2 (proj2 (proj2 (bind_mode
      (Samples.settings [Samples.channel_5_250; Samples.channel_m10_300])
      _ _)))) _); [reflexivity |].
    right. left. reflexivity.
Defined.
(** C7. [onModeChange] leaves the state as it was, and schedules nothing,
    when its argument is not a number, lies outside [0, 2] or differs from
    the active mode.  For a number in [0, 2] equal to the active mode it
    sets [mode] to [null] and schedules one task; when that task runs, the
    same mode is assigned again.  An observer of [mode], which is not told
    of an assignment of the value already stored, is so handed [null] and
    then the mode: the reinitialisation on a mode is triggered once. *)
Theorem onModeChange_reselect (s : State) :
  (forall arg, (forall x, arg <> js_number x) ->
     onModeChange arg s = (Normal tt, s)) /\
  (forall x, (x < inject_Z 0 \/ inject_Z 2 < x)%Q ->
     onModeChange (js_number x) s = (Normal tt, s)) /\
  (forall x, (forall m, mode s = Some m -> ~ (inject_Z m == x)%Q) ->
     onModeChange (js_number x) s = (Normal tt, s)) /\
  (forall m x,
     mode s = Some m -> (inject_Z m == x)%Q -> 0 <= m <= 2 ->
     let s1 := exec (onModeChange (js_number x)) s in
     let s2 := exec tick s1 in
     exec (assign_mode (Some m)) s = s /\
     completion (onModeChange (js_number x)) s = Normal tt /\
     mode s1 = None /\
     timers s1 = timers s ++ [assign_mode_task m] /\
     mode_changes s1 = mode_changes s ++ [None] /\
     (timers s = [] ->
      completion tick s1 = Normal tt /\
      mode s2 = Some m /\
      timers s2 = [] /\
      mode_changes s2 = mode_changes s ++ [None; Some m])).
Proof.
  split; [| split; [| split]].
  - intros arg Harg. destruct arg; try reflexivity.
    exfalso. exact (Harg x eq_refl).
  - intros x Hx. unfold onModeChange, and_then, get.
    assert (Hb : num_ltb x (inject_Z 0) || num_ltb (inject_Z 2) x = true)
      by (rewrite orb_true_iff, !num_ltb_lt; exact Hx).
    rewrite Hb. reflexivity.
  - intros x Hx. unfold onModeChange, and_then, get.
    destruct (num_ltb x (inject_Z 0) || num_ltb (inject_Z 2) x);
      [reflexivity |].
    destruct (mode s) as [m |] eqn:Em; [| reflexivity].
    destruct (num_eqb (inject_Z m) x) eqn:E; [| reflexivity].
    apply Qeq_bool_iff in E. exfalso. exact (Hx m eq_refl E).
  - intros m x Hm Hx Hrange s1 s2.
    assert (Hb : num_ltb x (inject_Z 0) || num_ltb (inject_Z 2) x = false).
    { apply orb_false_iff. split.
      - destruct (num_ltb x (inject_Z 0)) eqn:E; [| reflexivity].
        apply num_ltb_lt in E. rewrite <- Hx, <- Zlt_Qlt in E. lia.
      - destruct (num_ltb (inject_Z 2) x) eqn:E; [| reflexivity].
        apply num_ltb_lt in E. rewrite <- Hx, <- Zlt_Qlt in E. lia. }
    assert (He : num_eqb (inject_Z m) x = true)
      by (apply Qeq_bool_iff; exact Hx).
    assert (Hrun : onModeChange (js_number x) s
                   = (Normal tt,
                      set_timers (timers s ++ [assign_mode_task m])
                        (set_mode None (mode_changes s ++ [None]) s))).
    { unfold onModeChange, and_then, get. rewrite Hb, Hm, He.
      unfold assign_mode, setTimeout, modify. simpl.
      destruct (decide (mode s = None)) as [Hn | _]; [congruence |].
      reflexivity. }
    subst s2 s1. unfold completion, exec. rewrite Hrun. simpl.
    split.
    { unfold assign_mode, modify. simpl.
      destruct (decide (mode s = Some m)) as [_ | Hn]; [reflexivity |].
      contradiction. }
    repeat split.
    + rewrite H. reflexivity.
    + unfold tick, and_then, get, modify. simpl. rewrite H. simpl.
      unfold assign_mode, modify. simpl. reflexivity.
    + unfold tick, and_then, get, modify. simpl. rewrite H. simpl.
      unfold assign_mode, modify. simpl. reflexivity.
    + unfold tick, and_then, get, modify. simpl. rewrite H. simpl.
      unfold assign_mode, modify. simpl. rewrite <- app_assoc. reflexivity.
Qed.

(** The settings of the sample image after [bind] are in MIN_MAX mode;
    the MIN_MAX button is clicked again. *)
Lemma onModeChange_reselect_witness :
  mode_changes
    (exec tick
       (exec (onModeChange (js_number (inject_Z 0)))
          (exec bind
             (Samples.settings
                [Samples.channel_5_250; Samples.channel_5_250]))))
  = [Some 0; None; Some 0].
Proof.
  destruct (onModeChange_reselect
              (exec bind
                 (Samples.settings
                    [Samples.channel_5_250; Samples.channel_5_250])))
    as (_ & _ & _ & H).
  destruct (H 0 (inject_Z 0)) as (_ & _ & _ & _ & _ & Htick).
  - reflexivity.
  - reflexivity.
  - lia.
  - destruct Htick as (_ & _ & _ & Hc); [reflexivity |].
    rewrite Hc. reflexivity.
Defined.

End ChannelSettingsSpec.

(** * Further properties *)

(** ** Disposal as a filter *)

Section Filters.
Context {A : Type}.

Lemma filter_filter (f g : A -> bool) (l : list A) :
  List.filter f (List.filter g l) = List.filter (fun x => g x && f x) l.
Proof.
  induction l as [| x l IH]; [reflexivity |].
  simpl. destruct (g x); simpl; [destruct (f x) |]; rewrite IH; reflexivity.
Qed.

Lemma filter_all (f : A -> bool) (l : list A) :
  Forall (fun x => f x = true) l -> List.filter f l = l.
Proof.
  intros H. induction H as [| x l Hx _ IH]; [reflexivity |].
  simpl. rewrite Hx, IH. reflexivity.
Qed.

Lemma filter_none (f : A -> bool) (l : list A) :
  Forall (fun x => f x = false) l -> List.filter f l = [].
Proof.
  intros H. induction H as [| x l Hx _ IH]; [reflexivity |].
  simpl. rewrite Hx, IH. reflexivity.
Qed.
End Filters.

Lemma survives_fresh {O : Type} (hs : list nat) (n : nat)
    (l : list (nat * O)) :
  Forall (fun sub => (fst sub < n)%nat) l ->
  Forall (fun h => (n <= h)%nat) hs ->
  List.filter (survives hs) l = l.
Proof.
  intros Hl Hhs. apply filter_all.
  eapply Forall_impl; [exact Hl |]. intros sub Hsub.
  unfold survives. apply negb_true_iff.
  destruct (existsb (Nat.eqb (fst sub)) hs) eqn:E; [| reflexivity].
  apply existsb_exists in E. destruct E as (h & Hin & Heq).
  apply Nat.eqb_eq in Heq. rewrite Forall_forall in Hhs.
  specialize (Hhs h). rewrite list_elem_of_In in Hhs.
  specialize (Hhs Hin). simpl in *. lia.
Qed.

Lemma survives_none {O : Type} (hs : list nat) (l : list (nat * O)) :
  Forall (fun sub => In (fst sub) hs) l ->
  List.filter (survives hs) l = [].
Proof.
  intros Hl. apply filter_none.
  eapply Forall_impl; [exact Hl |]. intros sub Hsub.
  unfold survives. apply negb_false_iff.
  apply existsb_exists. exists (fst sub). split; [exact Hsub |].
  apply Nat.eqb_refl.
Qed.

(** ** DimensionSlider: the remaining methods *)

Module DimensionSliderMore.
Import DimensionSlider DimensionSliderRest ControlSpec DimensionSliderSpec.

(** For a dimension of at most one section [initSlider] builds no
    control: it returns with the state as it was (nothing shown, nothing
    published, no history entry), whether called after a toggle or not. *)
Lemma initSlider_degenerate (toggle : bool) (s : State) :
  image_config s = config_object ->
  extent_le_1 (model s) (dim s) = true ->
  initSlider toggle s = (Normal tt, s).
Proof.
  intros Hconf Hext. unfold model in Hext.
  unfold initSlider, and_then, get, the_image_config.
  rewrite Hconf, Hext. reflexivity.
Qed.
Lemma projection_observer_degenerate (s : State) :
  image_config s = config_object ->
  extent_le_1 (model s) (dim s) = true ->
  exists s',
    projection_observer s = (Normal tt, s') /\
    kept_without_slider s s' /\ control s' = None.
Proof.
  intros Hconf Hext. unfold model in Hext.
  unfold projection_observer, detached, initSlider. js_unfold.
  destruct (control s) eqn:Hc; simpl; rewrite Hconf; simpl; rewrite Hext;
    (eexists; split; [reflexivity |]); simpl;
    repeat split; assumption.
Qed.

(** A toggle on a bound slider that is not playing is the three writes
    followed by the projection observers. *)
Lemma toggleProjection_notify (s : State) :
  image_config s = config_object ->
  PlayerInfo.handle (player_info s) = None ->
  toggleProjection s = notify projection_prop projection_observer (seeded s).
Proof.
  intros Hconf Hh.
  unfold toggleProjection, and_then at 1, get. rewrite Hh.
  unfold and_then at 1, the_image_config. rewrite Hconf.
  unfold and_then at 1, update_image_info, update_config, modify.
  unfold and_then at 1. unfold assign_projection, and_then at 1, get.
  unfold and_then at 1. unfold update_image_info, update_config, modify.
  simpl. fold (model s).
  assert (Hneq : Projection_eqb (projection (model s))
                   match projection (model s) with
                   | NORMAL => INTMAX
                   | INTMAX => NORMAL
                   end = false)
    by (destruct (projection (model s)); reflexivity).
  rewrite Hneq. reflexivity.
Qed.

(** X1. On a slider whose dimension has at most one section a toggle
    flips the projection mode and seeds [projection_opts], but its observer
    builds no control: nothing is published, no history entry is appended,
    and [add_projection_history] stays set. *)
Theorem toggleProjection_degenerate (s : State) :
  image_config s = config_object ->
  PlayerInfo.handle (player_info s) = None ->
  extent_le_1 (model s) (dim s) = true ->
  subscriptions_on projection_prop s <> [] ->
  let s' := exec toggleProjection s in
  completion toggleProjection s = Normal tt /\
  projection (model s') = toggled (projection (model s)) /\
  control s' = None /\
  published s' = published s /\
  history (context_config s') = history (context_config s) /\
  add_projection_history s' = true.
Proof.
  intros Hconf Hh Hext Hsub s'. subst s'.
  unfold completion, exec.
  rewrite (toggleProjection_notify s Hconf Hh), notify_filter.
  assert (Hl : subscriptions_on projection_prop (seeded s)
               = subscriptions_on projection_prop s) by reflexivity.
  rewrite Hl.
  destruct (subscriptions_on projection_prop s) as [| sub l];
    [contradiction |].
  assert (Hconf1 : image_config (seeded s) = config_object) by exact Hconf.
  assert (Hext1 : extent_le_1 (model (seeded s)) (dim (seeded s)) = true)
    by exact Hext.
  destruct (projection_observer_degenerate (seeded s) Hconf1 Hext1)
    as (s2 & E2 & K2 & C2).
  destruct (for_each_returns
              (fun t => kept_without_slider (seeded s) t /\ control t = None)
              (fun _ : nat * Observed => projection_observer) l)
    with (s := s2) as (s3 & E3 & K3 & C3).
  - intros _ t ((T1 & T2 & T3 & T4 & T5 & T6) & Tc).
    destruct (projection_observer_degenerate t) as (t' & Et & Kt & Ct).
    + rewrite T1. exact Hconf.
    + unfold model. rewrite T3, T2. exact Hext.
    + exists t'. split; [exact Et |]. split; [| exact Ct].
      destruct Kt as (U1 & U2 & U3 & U4 & U5 & U6).
      repeat split; congruence.
  - split; assumption.
  - assert (Hrun : for_each (fun _ : nat * Observed => projection_observer)
                     (sub :: l) (seeded s) = (Normal tt, s3))
      by (simpl; unfold and_then; rewrite E2; exact E3).
    rewrite Hrun. simpl.
    destruct K3 as (V1 & V2 & V3 & V4 & V5 & V6).
    unfold model. rewrite V3, V4, V5, C3.
    repeat split.
Qed.

(** The slider of a dimension of one section, bound and with its
    observers registered. *)
Lemma toggleProjection_degenerate_witness :
  history (context_config (exec toggleProjection MoreSamples.flat)) = [] /\
  add_projection_history (exec toggleProjection MoreSamples.flat) = true.
Proof.
  destruct (toggleProjection_degenerate MoreSamples.flat)
    as (_ & _ & _ & _ & Hh & Hf).
  - reflexivity.
  - reflexivity.
  - reflexivity.
  - vm_compute. discriminate.
  - split; [exact Hh | exact Hf].
Defined.
(** What [initSlider] does for a dimension of more than one section. *)
Lemma initSlider_run (toggle : bool) (s : State) :
  image_config s = config_object ->
  extent_le_1 (model s) (dim s) = false ->
  let s' := exec (initSlider toggle) s in
  completion (initSlider toggle) s = Normal tt /\
  control s' = Some (slider_options (model s) (dim s)) /\
  element_shown s' = true /\
  published s'
  = published s ++
    [IMAGE_SETTINGS_CHANGE (conf_id (context_config s))
       (projection (model s))] /\
  model s' = model s /\
  (add_projection_history s = false ->
   history (context_config s') = history (context_config s)).
Proof.
  intros Hconf Hext s'. subst s'. unfold model in *.
  unfold slider_options, z_projection.
  unfold initSlider, changeProjection. js_unfold.
  unfold with_start_end, model.
  rewrite Hconf; simpl; rewrite Hext;
    destruct (String.eqb (dim s) "z");
    destruct (projection (image_info (context_config s))) eqn:Hp;
    simpl; rewrite ?Hconf; simpl; try quiet_values; simpl;
    destruct (add_projection_history s) eqn:Hflag; simpl; rewrite ?Hconf;
    simpl; rewrite ?Hconf; simpl;
    destruct toggle; simpl; repeat (rewrite Hconf; simpl);
    rewrite ?round_parseFloat_inject_Z, ?Hp;
    unfold set_projection_opts, with_values; simpl;
    rewrite ?projection_opts_eta, ?Hp;
    rewrite <- ?Hp, ?image_info_eta;
    repeat split; try reflexivity; try discriminate.
Qed.

(** X2. For a dimension of more than one section [initSlider] returns
    with a control on the element: vertical on the z slider and horizontal
    otherwise, from 0 to the dimension maximum less one in steps of 0.01,
    with the two handles [projection_opts.start] and [projection_opts.end]
    on the z slider in projection and the one handle [dimensions[dim]]
    otherwise.  It shows the element, publishes one settings change with
    the projection mode, and leaves the image info as it was; without a
    pending [add_projection_history] it leaves the history as it was. *)
Theorem initSlider_creates (toggle : bool) (s : State) :
  image_config s = config_object ->
  extent_le_1 (model s) (dim s) = false ->
  let s' := exec (initSlider toggle) s in
  completion (initSlider toggle) s = Normal tt /\
  control s' = Some (slider_options (model s) (dim s)) /\
  element_shown s' = true /\
  published s'
  = published s ++
    [IMAGE_SETTINGS_CHANGE (conf_id (context_config s))
       (projection (model s))] /\
  model s' = model s /\
  (add_projection_history s = false ->
   history (context_config s') = history (context_config s)).
Proof. exact (initSlider_run toggle s). Qed.

Lemma initSlider_creates_witness :
  control (exec (initSlider false) (Samples.bound "t"))
  = Some (slider_options Samples.info "t") /\
  published (exec (initSlider false) (Samples.bound "t"))
  = [IMAGE_SETTINGS_CHANGE 1 NORMAL].
Proof.
  destruct (initSlider_creates false (Samples.bound "t"))
    as (_ & Hc & _ & Hp & _); [reflexivity | reflexivity |].
  split; [exact Hc | exact Hp].
Defined.
Lemma initSlider_frame (toggle : bool) (s : State) :
  image_config s = config_object ->
  extent_le_1 (model s) (dim s) = false ->
  image_config (exec (initSlider toggle) s) = image_config s /\
  dim (exec (initSlider toggle) s) = dim s.
Proof.
  intros Hconf Hext. unfold model in *.
  unfold initSlider, changeProjection. js_unfold.
  rewrite Hconf; simpl; rewrite Hext;
    destruct (String.eqb (dim s) "z");
    destruct (projection (image_info (context_config s)));
    simpl; rewrite ?Hconf; simpl; try quiet_values; simpl;
    destruct (add_projection_history s); simpl; rewrite ?Hconf;
    simpl; rewrite ?Hconf; simpl;
    destruct toggle; simpl; repeat (rewrite Hconf; simpl);
    split; reflexivity.
Qed.

Lemma detached_frame (s : State) :
  exists s1,
    detached s = (Normal tt, s1) /\
    image_config s1 = image_config s /\
    dim s1 = dim s /\
    context_config s1 = context_config s /\
    add_projection_history s1 = add_projection_history s /\
    published s1 = published s.
Proof.
  unfold detached. js_unfold.
  destruct (control s); simpl; eexists; (split; [reflexivity |]);
    repeat split.
Qed.

Lemma projection_observer_rebuilt (s : State) :
  image_config s = config_object ->
  extent_le_1 (model s) (dim s) = false ->
  exists s', projection_observer s = (Normal tt, s') /\ rebuilt s s'.
Proof.
  intros Hconf Hext.
  destruct (detached_frame s) as (s1 & E1 & F1 & F2 & F3 & F4 & F5).
  assert (Hconf1 : image_config s1 = config_object) by congruence.
  assert (Hext1 : extent_le_1 (model s1) (dim s1) = false)
    by (unfold model; rewrite F3, F2; exact Hext).
  destruct (initSlider_run true s1 Hconf1 Hext1)
    as (Hc & Hctl & Hshown & _ & Hm & _).
  exists (exec (initSlider true) s1). split.
  - unfold projection_observer, and_then. rewrite E1.
    unfold completion, exec in *.
    destruct (initSlider true s1) as [c t]. simpl in *. subst c.
    reflexivity.
  - unfold rebuilt.
    assert (Hms : model s1 = model s) by (unfold model; rewrite F3; reflexivity).
    rewrite Hctl, Hm, Hms, F2.
    repeat split; try assumption.
    + destruct (initSlider_frame true s1 Hconf1 Hext1) as [A B].
      rewrite A. exact F1.
    + destruct (initSlider_frame true s1 Hconf1 Hext1) as [A B].
      rewrite B. exact F2.
Qed.
Lemma rebuilt_again (s0 t : State) :
  image_config s0 = config_object ->
  extent_le_1 (model s0) (dim s0) = false ->
  rebuilt s0 t ->
  exists t', projection_observer t = (Normal tt, t') /\ rebuilt s0 t'.
Proof.
  intros Hconf Hext (R1 & R2 & R3 & R4 & R5).
  destruct (projection_observer_rebuilt t) as (t' & E & Q1 & Q2 & Q3 & Q4 & Q5).
  - congruence.
  - rewrite R3, R2. exact Hext.
  - exists t'. split; [exact E |].
    unfold rebuilt. rewrite Q1, Q2, Q3, Q4, R1, R2, R3. repeat split.
    exact Q5.
Qed.

(** X3. A toggle on a slider that is not playing, whose dimension has more
    than one section and whose projection observer is registered, rebuilds
    the control from the image info it leaves behind and shows the element.
    On the z slider a toggle out of NORMAL gives a vertical control with
    two handles, at the current section and at the last section; any other
    toggle gives a control with the one handle [dimensions[dim]]. *)
Theorem toggleProjection_control (s : State) :
  image_config s = config_object ->
  PlayerInfo.handle (player_info s) = None ->
  extent_le_1 (model s) (dim s) = false ->
  subscriptions_on projection_prop s <> [] ->
  let s' := exec toggleProjection s in
  let current := dimensions (model s) !! dim s in
  let last :=
    (fun m => m - 1) <$> dimensions (model s) !! String.append "max_" (dim s) in
  control s' = Some (slider_options (model s') (dim s)) /\
  element_shown s' = true /\
  (dim s = "z" -> projection (model s) = NORMAL ->
   control s'
   = Some {| Options.orientation := vertical;
             Options.min := 0;
             Options.max := last;
             Options.step := (1 # 100)%Q;
             Options.value := None;
             Options.values := Some (inject_Z <$> current, inject_Z <$> last);
             Options.change := change_projection |}) /\
  (dim s <> "z" \/ projection (model s) = INTMAX ->
   Options.value <$> control s' = Some (inject_Z <$> current) /\
   Options.values <$> control s' = Some None /\
   Options.change <$> control s' = Some change_dimension).
Proof.
  intros Hconf Hh Hext Hsub s' current last.
  assert (Hrun : exists t, toggleProjection s = (Normal tt, t) /\
                           rebuilt (seeded s) t).
  { rewrite (toggleProjection_notify s Hconf Hh), notify_filter.
    assert (Hl : subscriptions_on projection_prop (seeded s)
                 = subscriptions_on projection_prop s) by reflexivity.
    rewrite Hl.
    destruct (subscriptions_on projection_prop s) as [| sub l];
      [contradiction |].
    assert (Hconf1 : image_config (seeded s) = config_object) by exact Hconf.
    assert (Hext1 : extent_le_1 (model (seeded s)) (dim (seeded s)) = false)
      by exact Hext.
    destruct (projection_observer_rebuilt (seeded s) Hconf1 Hext1)
      as (s2 & E2 & R2).
    destruct (for_each_returns (rebuilt (seeded s))
                (fun _ : nat * Observed => projection_observer) l)
      with (s := s2) as (s3 & E3 & R3).
    - intros _ t Rt. apply rebuilt_again; assumption.
    - exact R2.
    - exists s3. split; [| exact R3].
      simpl. unfold and_then. rewrite E2. exact E3. }
  destruct Hrun as (t & Et & R1 & R2 & R3 & R4 & R5).
  subst s'. unfold exec. rewrite Et. simpl.
  rewrite R4, R3, R5.
  split; [reflexivity |]. split; [reflexivity |].
  unfold slider_options, z_projection, seeded, model. js_unfold. simpl.
  subst current last. unfold model. split.
  - intros Hd Hp. rewrite Hd, Hp. reflexivity.
  - intros [Hd | Hp].
    + apply String.eqb_neq in Hd. rewrite Hd. simpl. repeat split.
    + rewrite Hp. simpl. rewrite andb_false_r. repeat split.
Qed.

Lemma toggleProjection_control_witness :
  Options.values <$> control (exec toggleProjection (Samples.attached "z"))
  = Some (Some (Some (inject_Z 3), Some (inject_Z 9))) /\
  Options.value <$> control (exec toggleProjection Samples.projected)
  = Some (Some (inject_Z 3)).
Proof.
  split.
  - destruct (toggleProjection_control (Samples.attached "z"))
      as (_ & _ & Hz & _);
      [reflexivity | reflexivity | reflexivity | vm_compute; discriminate |].
    rewrite Hz; reflexivity.
  - destruct (toggleProjection_control Samples.projected)
      as (_ & _ & _ & Hn);
      [reflexivity | reflexivity | reflexivity | vm_compute; discriminate |].
    destruct Hn as (Hv & _); [right; reflexivity |].
    rewrite Hv. reflexivity.
Defined.
(** X4. The [slide] callback never writes the model: whatever the event,
    the proposed values and the state, the configuration object (image
    info and history), the published events and the subscriptions are left
    as they were, and the callback returns.  While a playback runs
    ([player_info.handle] set) every slide is cancelled with the whole
    state untouched. *)
Theorem slide_keeps_model (event : SliderEvent.t) (ui : Ui.t) (s : State) :
  let s' := exec (slide event ui) s in
  context_config s' = context_config s /\
  published s' = published s /\
  subscriptions s' = subscriptions s /\
  add_projection_history s' = add_projection_history s /\
  (PlayerInfo.handle (player_info s) <> None ->
   slide event ui s = (Normal return_false, s)).
Proof.
  unfold slide. js_unfold. simpl.
  destruct (PlayerInfo.handle (player_info s)) as [h |]; simpl.
  - repeat split.
  - match goal with
    | |- context [if ?b then _ else _] => destruct b
    end; simpl.
    + repeat split.
    + destruct (SliderEvent.keyCode event) as [k |]; simpl.
      * unfold slider_value. js_unfold.
        destruct (control s); simpl; repeat split;
          try (intros H; contradiction).
      * repeat split; try (intros H; contradiction).
Qed.

Lemma slide_keeps_model_witness :
  slide {| SliderEvent.keyCode := Some 39; SliderEvent.originalEvent := true |}
    {| Ui.value := 301 # 100; Ui.values := None |}
    (playing true 7 (Samples.attached "z"))
  = (Normal return_false, playing true 7 (Samples.attached "z")).
Proof.
  apply (slide_keeps_model _ _ (playing true 7 (Samples.attached "z"))).
  discriminate.
Defined.

(** X5. While a playback runs, [toggleProjection] and [onArrowClick] do
    nothing: they return with the state as it was, whatever the control
    answers for its value. *)
Theorem playback_blocks_controls (s : State) :
  PlayerInfo.handle (player_info s) <> None ->
  toggleProjection s = (Normal tt, s) /\
  (forall (slider_value_of : Options.t -> Q) (step : Q),
     onArrowClick slider_value_of step s = (Normal tt, s)).
Proof.
  intros Hh. unfold toggleProjection, onArrowClick, and_then, get.
  destruct (PlayerInfo.handle (player_info s)); [| contradiction].
  split; reflexivity.
Qed.

Lemma playback_blocks_controls_witness :
  toggleProjection (playing true 7 (Samples.attached "z"))
  = (Normal tt, playing true 7 (Samples.attached "z")).
Proof.
  apply (playback_blocks_controls (playing true 7 (Samples.attached "z"))).
  discriminate.
Defined.

(** The control closed over itself, two levels down. *)
Lemma nested_change_unfold :
  nested_change (pred call_stack)
  = @change (nested_change (pred (pred call_stack))).
Proof. reflexivity. Qed.

(** Outside a playback and with a one-handle control, [onArrowClick] is
    the move of the control and the [change] callback for the value that
    the control reports after it. *)
Lemma onArrowClick_run (step : Q) (s : State) (o : Options.t) :
  PlayerInfo.handle (player_info s) = None ->
  control s = Some o ->
  one_handle o ->
  in_range o (valueMin o) ->
  let moved := trimAlignValue o (current_value o + step) in
  onArrowClick current_value step s
  = @onChange (nested_change (pred call_stack)) moved false
      (set_control (Some (with_value (Some moved) o)) s).
Proof.
  intros Hh Hc (Hmin & Hstep & Hvs & Hcb) Hord moved.
  unfold onArrowClick, and_then at 1, get. rewrite Hh.
  unfold and_then at 1, slider_get_value. rewrite Hc.
  unfold slider_value, and_then, slider_method. rewrite Hc. fold moved.
  unfold trigger_change, and_then, get. simpl.
  unfold uiHash. simpl. rewrite Hvs, Hcb.
  unfold current_value at 1. simpl.
  rewrite trimAlignValue_with_value.
  subst moved. rewrite (trimAlignValue_idempotent o _ Hstep Hord).
  reflexivity.
Qed.

(** X6. Outside a playback [onArrowClick] moves the one-handle control by
    [step] from the value it reports, within its bounds and on its grid,
    and the control fires its [change] event: the section nearest to the
    new value is written to the model unless it is there already, every
    live observer of the dimension announces it and sets the control to
    it, and no history entry is made.  Without a control on the element
    the call throws and the state is as it was. *)
Theorem onArrowClick_nudges (step : Q) (s : State) :
  PlayerInfo.handle (player_info s) = None ->
  (forall o,
     image_config s = config_object ->
     control s = Some o ->
     one_handle o ->
     in_range o (valueMin o) ->
     let moved := trimAlignValue o (current_value o + step) in
     let v := Math_round moved in
     let s' := exec (onArrowClick current_value step) s in
     let live := subscriptions_on (dimensions_prop (dim s)) s in
     completion (onArrowClick current_value step) s = Normal tt /\
     in_range o moved /\
     history (context_config s') = history (context_config s) /\
     (dimensions (model s) !! dim s = Some v ->
      s' = set_control (Some (with_value (Some moved) o)) s) /\
     (dimensions (model s) !! dim s <> Some v ->
      dimensions (model s') = <[dim s := v]> (dimensions (model s)) /\
      published s'
      = published s ++
        repeat
          (IMAGE_DIMENSION_CHANGE (conf_id (context_config s)) (dim s) [v])
          (length live) /\
      control s'
      = Some (with_value
                (Some (match live with [] => moved | _ => inject_Z v end)) o))) /\
  (control s = None ->
   exec (onArrowClick current_value step) s = s /\
   completion (onArrowClick current_value step) s <> Normal tt).
Proof.
  intros Hh. split.
  - intros o Hconf Hc Hone Hord moved v s' live.
    pose proof (onArrowClick_run step s o Hh Hc Hone Hord) as Hrun.
    fold moved in Hrun.
    destruct Hone as (Hmin & Hstep & Hvs & Hcb).
    assert (Hmoved : in_range o moved)
      by (apply trimAlignValue_in_range; assumption).
    set (s1 := set_control (Some (with_value (Some moved) o)) s) in *.
    assert (Hhist : history (context_config s') = history (context_config s)).
    { subst s'. unfold exec. rewrite Hrun.
      pose proof (@onChange_echoed (nested_change (pred call_stack))
                    (nested_change_echoed (pred call_stack)) moved s1) as He.
      destruct He as (_ & _ & _ & _ & _ & _ & _ & _ & _ & _ & _ & _ & He & _).
      exact He. }
    destruct (decide (dimensions (model s) !! dim s = Some v)) as [Heq | Hne].
    + assert (Hs' : onArrowClick current_value step s = (Normal tt, s1)).
      { rewrite Hrun. apply onChange_unchanged; [exact Hconf | exact Heq]. }
      subst s'. unfold completion, exec. rewrite Hs'. simpl.
      split; [reflexivity |]. split; [exact Hmoved |].
      split; [reflexivity |]. split; [reflexivity |].
      intros Hne. contradiction.
    + assert (Hacc : accepts (with_value (Some moved) o) v).
      { apply one_handle_accepts; [repeat split; assumption |].
        apply (Math_round_in_range o). exact Hmoved. }
      assert (Hs' : onArrowClick current_value step s
        = (Normal tt,
           match live with
           | [] => exec (write_dimension v) s1
           | l =>
               set_published
                 (published s ++
                  repeat
                    (IMAGE_DIMENSION_CHANGE (conf_id (context_config s))
                       (dim s) [v])
                    (length l))
                 (set_control (Some (with_value (Some (inject_Z v)) o))
                    (exec (write_dimension v) s1))
           end)).
      { rewrite Hrun.
        rewrite (onChange_run moved false s1 Hconf Hne).
        rewrite nested_change_unfold.
        rewrite (assign_dimension_accepted_at v s1 _ Hconf eq_refl Hacc Hne).
        change (subscriptions_on (dimensions_prop (dim s1)) s1) with live.
        destruct live; reflexivity. }
      subst s'. unfold completion, exec. rewrite Hs'. simpl.
      split; [reflexivity |]. split; [exact Hmoved |].
      split; [unfold exec in Hhist; rewrite Hs' in Hhist; exact Hhist |].
      split; [intros Heq; contradiction |].
      intros _. destruct live; repeat split.
      simpl. rewrite app_nil_r. reflexivity.
  - intros Hc. unfold onArrowClick, slider_get_value. js_unfold.
    rewrite Hh, Hc. simpl. split; [reflexivity | discriminate].
Qed.

(** The z slider of the sample image stands at section 3 of 0..9 and has
    one observer: an arrow click forwards. *)
Lemma onArrowClick_nudges_witness :
  dimensions (model (exec (onArrowClick current_value (inject_Z 1))
                       (Samples.attached "z"))) !! "z" = Some 4 /\
  published (exec (onArrowClick current_value (inject_Z 1))
               (Samples.attached "z"))
  = [IMAGE_SETTINGS_CHANGE 1 NORMAL; IMAGE_DIMENSION_CHANGE 1 "z" [4]].
Proof.
  assert (Hh : PlayerInfo.handle (player_info (Samples.attached "z")) = None)
    by (vm_compute; reflexivity).
  assert (Hconf : image_config (Samples.attached "z") = config_object)
    by (vm_compute; reflexivity).
  assert (Hc : control (Samples.attached "z")
               = Some (slider_options Samples.info "z"))
    by (vm_compute; reflexivity).
  assert (Hone : one_handle (slider_options Samples.info "z"))
    by (vm_compute; repeat split).
  assert (Hord : in_range (slider_options Samples.info "z")
                   (valueMin (slider_options Samples.info "z")))
    by (split; vm_compute; discriminate).
  destruct (proj1 (onArrowClick_nudges (inject_Z 1) (Samples.attached "z") Hh)
              _ Hconf Hc Hone Hord) as (_ & _ & _ & _ & Hnew).
  destruct Hnew as (Hd & Hp & _); [vm_compute; discriminate |].
  split.
  - rewrite Hd. vm_compute. reflexivity.
  - rewrite Hp. vm_compute. reflexivity.
Defined.

(** X7. On a bound slider with one live observer of its dimension and a
    control that takes the value as it is, [onChange] with a value that
    rounds to a new integer returns, moves the control to that integer
    and publishes exactly one dimension change event carrying the
    configuration id, the dimension and the new value.  A one-handle
    control takes every section within its bounds as it is. *)
Theorem onChange_notifies (value : Q) (slider_interaction : bool)
    (s : State) (o : Options.t) (sub : nat * Observed) :
  image_config s = config_object ->
  control s = Some o ->
  accepts o (Math_round value) ->
  subscriptions_on (dimensions_prop (dim s)) s = [sub] ->
  dimensions (model s) !! dim s <> Some (Math_round value) ->
  let v := Math_round value in
  let s' := exec (onChange value slider_interaction) s in
  completion (onChange value slider_interaction) s = Normal tt /\
  control s' = Some (with_value (Some (inject_Z v)) o) /\
  published s'
  = published s ++
    [IMAGE_DIMENSION_CHANGE (conf_id (context_config s)) (dim s) [v]] /\
  dimensions (model s') = <[dim s := v]> (dimensions (model s)) /\
  (forall n : Z,
     one_handle o -> in_range o (inject_Z n) -> accepts o n).
Proof.
  intros Hconf Hc Hacc Hsub Hne v s'. subst s'.
  pose proof (onChange_run value slider_interaction s Hconf Hne) as Hrun.
  fold v in Hrun.
  match type of Hrun with
  | _ = assign_dimension v ?t => set (t0 := t) in Hrun
  end.
  assert (T1 : image_config t0 = config_object)
    by (subst t0; destruct slider_interaction; exact Hconf).
  assert (T2 : dim t0 = dim s)
    by (subst t0; destruct slider_interaction; reflexivity).
  assert (T3 : dimensions (model t0) = dimensions (model s))
    by (subst t0; destruct slider_interaction; reflexivity).
  assert (T4 : control t0 = Some o)
    by (subst t0; destruct slider_interaction; exact Hc).
  assert (T5 : subscriptions_on (dimensions_prop (dim t0)) t0 = [sub])
    by (subst t0; destruct slider_interaction; exact Hsub).
  assert (T6 : published t0 = published s)
    by (subst t0; destruct slider_interaction; reflexivity).
  assert (T7 : conf_id (context_config t0) = conf_id (context_config s))
    by (subst t0; destruct slider_interaction; reflexivity).
  assert (Hne0 : dimensions (model t0) !! dim t0 <> Some v)
    by (rewrite T3, T2; exact Hne).
  rewrite (assign_dimension_accepted v t0 o T1 T4 Hacc Hne0) in Hrun.
  rewrite T5 in Hrun.
  unfold completion, exec. rewrite Hrun. simpl.
  rewrite T6, T7, T2.
  split; [reflexivity |]. split; [reflexivity |]. split; [reflexivity |].
  split; [| intros n; apply one_handle_accepts].
  fold (model t0). rewrite T3. reflexivity.
Qed.

Lemma onChange_notifies_witness :
  published (exec (onChange (421 # 100) true) (Samples.attached "z"))
  = [IMAGE_SETTINGS_CHANGE 1 NORMAL; IMAGE_DIMENSION_CHANGE 1 "z" [4]].
Proof.
  assert (Hconf : image_config (Samples.attached "z") = config_object)
    by (vm_compute; reflexivity).
  assert (Hc : control (Samples.attached "z")
               = Some (slider_options Samples.info "z"))
    by (vm_compute; reflexivity).
  assert (Hacc : accepts (slider_options Samples.info "z")
                   (Math_round (421 # 100)))
    by (right; vm_compute; split; reflexivity).
  assert (Hsub : subscriptions_on
                   (dimensions_prop (dim (Samples.attached "z")))
                   (Samples.attached "z") = [(0%nat, dimensions_prop "z")])
    by (vm_compute; reflexivity).
  destruct (onChange_notifies (421 # 100) true (Samples.attached "z")
              _ _ Hconf Hc Hacc Hsub) as (_ & _ & Hp & _);
    [vm_compute; discriminate |].
  rewrite Hp. vm_compute. reflexivity.
Defined.

(** X8. Setting a dimension to a section that the control takes as it is
    twice is setting it once: a second [onChange] with the same number,
    from whatever origin, leaves the state the first one produced. *)
Theorem onChange_idempotent (value : Q) (first second : bool) (s : State) :
  (forall o, control s = Some o -> accepts o (Math_round value)) ->
  exec (onChange value second) (exec (onChange value first) s)
  = exec (onChange value first) s.
Proof.
  intros Hacc.
  destruct (image_config s) eqn:Hconf.
  - assert (H1 : exec (onChange value first) s = s)
      by (unfold onChange; js_unfold; rewrite Hconf; reflexivity).
    rewrite H1. unfold onChange. js_unfold. rewrite Hconf. reflexivity.
  - destruct (decide (dimensions (model s) !! dim s
                      = Some (Math_round value))) as [Heq | Hne].
    + unfold exec.
      rewrite (onChange_unchanged value first s Hconf Heq). simpl.
      rewrite (onChange_unchanged value second s Hconf Heq). reflexivity.
    + pose proof (onChange_run value first s Hconf Hne) as Hrun.
      match type of Hrun with
      | _ = assign_dimension ?v ?t => set (t0 := t) in Hrun
      end.
      assert (T1 : image_config t0 = config_object)
        by (subst t0; destruct first; exact Hconf).
      assert (T2 : dim t0 = dim s)
        by (subst t0; destruct first; reflexivity).
      assert (T3 : dimensions (model t0) = dimensions (model s))
        by (subst t0; destruct first; reflexivity).
      assert (T4 : control t0 = control s)
        by (subst t0; destruct first; reflexivity).
      assert (Hne0 : dimensions (model t0) !! dim t0
                     <> Some (Math_round value))
        by (rewrite T3, T2; exact Hne).
      destruct (assign_dimension_new (Math_round value) t0 Hne0)
        as (_ & _ & _ & _ & Hd).
      specialize (Hd T1). rewrite T4 in Hd. specialize (Hd Hacc).
      pose proof (assign_dimension_echoed control_change_echoed
                    (Math_round value) t0) as He.
      destruct He as (E1 & E2 & _).
      assert (Hs : exec (onChange value first) s
                   = exec (assign_dimension (Math_round value)) t0)
        by (unfold exec; rewrite Hrun; reflexivity).
      rewrite Hs. unfold exec at 1.
      rewrite onChange_unchanged; [reflexivity | | ].
      * rewrite E1. exact T1.
      * rewrite Hd, E2. apply lookup_insert_eq.
Qed.

Lemma onChange_idempotent_witness :
  exec (onChange (421 # 100) false)
    (exec (onChange (421 # 100) true) (Samples.attached "z"))
  = exec (onChange (421 # 100) true) (Samples.attached "z").
Proof.
  apply (onChange_idempotent (421 # 100) true false (Samples.attached "z")).
  intros o Ho.
  assert (Hc : control (Samples.attached "z")
               = Some (slider_options Samples.info "z"))
    by (vm_compute; reflexivity).
  rewrite Hc in Ho. injection Ho as <-.
  right. vm_compute. split; reflexivity.
Defined.

Lemma for_each_dispose_filter (hs : list nat) (s : State) :
  exists s',
    for_each dispose hs s = (Normal tt, s') /\
    observers s' = observers s /\
    image_info_ready_observer s' = image_info_ready_observer s /\
    subscriptions s' = List.filter (survives hs) (subscriptions s).
Proof.
  revert s. induction hs as [| h hs IH]; intros s.
  - exists s. repeat split. symmetry. apply filter_all.
    apply Forall_forall. reflexivity.
  - destruct (IH (exec (dispose h) s)) as (s' & E & H1 & H2 & H3).
    exists s'. split; [exact E |].
    split; [exact H1 |]. split; [exact H2 |].
    rewrite H3. unfold exec, dispose, modify. simpl.
    rewrite filter_filter. apply List.filter_ext. intros sub.
    unfold survives. simpl. rewrite negb_orb. reflexivity.
Qed.

(** X9. On a bound slider [registerObservers] returns with three new
    live subscriptions, on [dimensions[dim]], [projection] and
    [projection_opts], whose handles it appends to [observers]; on an
    unbound slider it throws before subscribing.  With handles handed out
    in increasing order, [unregisterObservers] after [registerObservers]
    on a slider without observers leaves the live subscriptions exactly as
    they were before. *)
Theorem registerObservers_roundtrip (s : State) :
  let n := next_subscription s in
  let s1 := exec registerObservers s in
  (image_config s = null ->
   s1 = s /\ completion registerObservers s <> Normal tt) /\
  (image_config s = config_object ->
   completion registerObservers s = Normal tt /\
   observers s1 = observers s ++ [n; S n; S (S n)] /\
   subscriptions s1
   = subscriptions s ++
     [(n, dimensions_prop (dim s)); (S n, projection_prop);
      (S (S n), projection_opts_prop)] /\
   (fresh_handles s -> observers s = [] ->
    image_info_ready_observer s = None ->
    fresh_handles s1 /\
    observers (exec unregisterObservers s1) = [] /\
    subscriptions (exec unregisterObservers s1) = subscriptions s)).
Proof.
  intros n s1. subst n s1. split.
  - intros Hconf. unfold registerObservers. js_unfold. rewrite Hconf.
    simpl. split; [reflexivity | discriminate].
  - intros Hconf.
    assert (Hrun : registerObservers s
      = (Normal tt,
         set_observers
           (((observers s ++ [next_subscription s]) ++
             [S (next_subscription s)]) ++ [S (S (next_subscription s))])
           (set_subscriptions
              (((subscriptions s ++
                 [(next_subscription s, dimensions_prop (dim s))]) ++
                [(S (next_subscription s), projection_prop)]) ++
               [(S (S (next_subscription s)), projection_opts_prop)])
              (S (S (S (next_subscription s)))) s))).
    { unfold registerObservers, subscribe. js_unfold.
      repeat (rewrite Hconf; simpl). reflexivity. }
    unfold completion, exec. rewrite Hrun. simpl.
    split; [reflexivity |].
    split; [rewrite <- !app_assoc; reflexivity |].
    split; [rewrite <- !app_assoc; reflexivity |].
    intros Hfresh Ho Hr.
    split.
    { unfold fresh_handles in *. simpl.
      rewrite !Forall_app. repeat split;
        try (eapply Forall_impl; [exact Hfresh | simpl; intros; lia]);
        repeat constructor; simpl; lia. }
    match goal with
    | |- context [unregisterObservers ?t] => set (s1 := t)
    end.
    destruct (for_each_dispose_filter (observers s1) s1)
      as (s2 & E2 & O2 & R2 & S2).
    assert (Hun : unregisterObservers s1 = (Normal tt, set_observers [] s2)).
    { unfold unregisterObservers, and_then at 1, get. unfold and_then at 1.
      rewrite E2. unfold and_then, modify, get. simpl.
      rewrite R2. subst s1. simpl. rewrite Hr. reflexivity. }
    rewrite Hun. simpl. split; [reflexivity |].
    rewrite S2. subst s1. simpl. rewrite Ho. simpl.
    rewrite !List.filter_app.
    rewrite (survives_fresh _ (next_subscription s));
      [| exact Hfresh | repeat constructor; lia].
    rewrite !survives_none; [rewrite !app_nil_r; reflexivity | | |];
      (constructor; [simpl; tauto | constructor]).
Qed.

Lemma registerObservers_roundtrip_witness :
  subscriptions
    (exec unregisterObservers (exec registerObservers (Samples.bound "z")))
  = subscriptions (Samples.bound "z").
Proof.
  destruct (registerObservers_roundtrip (Samples.bound "z")) as [_ H].
  destruct H as (_ & _ & _ & H); [reflexivity |].
  destruct H as (_ & _ & H); [constructor | reflexivity | reflexivity |].
  exact H.
Defined.
Lemma initSlider_observers (toggle : bool) (s : State) :
  image_config s = config_object ->
  extent_le_1 (model s) (dim s) = false ->
  observers (exec (initSlider toggle) s) = observers s /\
  image_info_ready_observer (exec (initSlider toggle) s)
  = image_info_ready_observer s /\
  subscriptions (exec (initSlider toggle) s) = subscriptions s.
Proof.
  intros Hconf Hext. unfold model in *.
  unfold initSlider, changeProjection. js_unfold.
  rewrite Hconf; simpl; rewrite Hext;
    destruct (String.eqb (dim s) "z");
    destruct (projection (image_info (context_config s)));
    simpl; rewrite ?Hconf; simpl; try quiet_values; simpl;
    destruct (add_projection_history s); simpl; rewrite ?Hconf;
    simpl; rewrite ?Hconf; simpl;
    destruct toggle; simpl; repeat (rewrite Hconf; simpl);
    repeat split; reflexivity.
Qed.

Lemma registerObservers_run (s : State) :
  image_config s = config_object ->
  registerObservers s
  = (Normal tt,
     set_observers
       (((observers s ++ [next_subscription s]) ++
         [S (next_subscription s)]) ++ [S (S (next_subscription s))])
       (set_subscriptions
          (((subscriptions s ++
             [(next_subscription s, dimensions_prop (dim s))]) ++
            [(S (next_subscription s), projection_prop)]) ++
           [(S (S (next_subscription s)), projection_opts_prop)])
          (S (S (S (next_subscription s)))) s)).
Proof.
  intros Hconf. unfold registerObservers, subscribe. js_unfold.
  repeat (rewrite Hconf; simpl). reflexivity.
Qed.

(** X10. [attached] on a bound slider whose image data is not ready
    returns having only subscribed to [ready]: the handle is kept in
    [image_info_ready_observer], no control is built, no other observer is
    registered, nothing is published.  When [ready] then turns true and no
    other subscription on it is live, the three observers are registered
    and, for a dimension of more than one section, the control is built
    and one settings change is published; the subscription on [ready] is
    still live and still held afterwards. *)
Theorem attached_deferred (s : State) :
  image_config s = config_object ->
  ready (model s) = false ->
  let n := next_subscription s in
  let s1 := exec attached s in
  let s2 := exec (assign_ready true) s1 in
  attached s
  = (Normal tt,
     set_image_info_ready_observer (Some n)
       (set_subscriptions (subscriptions s ++ [(n, ready_prop)]) (S n) s)) /\
  (subscriptions_on ready_prop s = [] ->
   extent_le_1 (model s) (dim s) = false ->
   completion (assign_ready true) s1 = Normal tt /\
   ready (model s2) = true /\
   observers s2 = observers s ++ [S n; S (S n); S (S (S n))] /\
   control s2 = Some (slider_options (model s) (dim s)) /\
   published s2
   = published s ++
     [IMAGE_SETTINGS_CHANGE (conf_id (context_config s))
        (projection (model s))] /\
   image_info_ready_observer s2 = Some n /\
   In (n, ready_prop) (subscriptions s2)).
Proof.
  intros Hconf Hready n s1 s2.
  assert (Hrun : attached s
    = (Normal tt,
       set_image_info_ready_observer (Some n)
         (set_subscriptions (subscriptions s ++ [(n, ready_prop)]) (S n) s))).
  { unfold attached, subscribe. js_unfold. unfold model in Hready.
    rewrite Hconf. simpl. rewrite Hready, Hconf. reflexivity. }
  split; [exact Hrun |].
  intros Hnone Hext.
  assert (Hs1 : exec attached s
    = set_image_info_ready_observer (Some n)
        (set_subscriptions (subscriptions s ++ [(n, ready_prop)]) (S n) s))
    by (unfold exec; rewrite Hrun; reflexivity).
  subst s2 s1. rewrite Hs1. unfold completion, exec.
  match goal with
  | |- context [assign_ready true ?t] => set (s1 := t)
  end.
  set (s1' := set_context_config
                (ImageConfig_set_image_info
                   (set_ready true (image_info (context_config s1)))
                   (context_config s1)) s1).
  assert (Hassign : assign_ready true s1 = imageDataReady s1').
  { unfold assign_ready, and_then at 1, get.
    unfold and_then at 1, update_image_info, update_config, modify.
    fold s1'.
    assert (Hold : ready (image_info (context_config s1)) = false)
      by exact Hready.
    rewrite Hold. simpl. rewrite notify_filter.
    assert (Hl : subscriptions_on ready_prop s1' = [(n, ready_prop)]).
    { unfold subscriptions_on in *. subst s1' s1. simpl.
      rewrite List.filter_app, Hnone. reflexivity. }
    rewrite Hl. simpl. unfold and_then.
    destruct (imageDataReady s1') as [[[] | e] t]; reflexivity. }
  assert (Hconf1 : image_config s1' = config_object) by exact Hconf.
  pose proof (registerObservers_run s1' Hconf1) as Hreg.
  match type of Hreg with
  | _ = (_, ?t) => set (s3 := t) in Hreg
  end.
  assert (Hconf3 : image_config s3 = config_object) by exact Hconf.
  assert (Hext3 : extent_le_1 (model s3) (dim s3) = false) by exact Hext.
  destruct (initSlider_run false s3 Hconf3 Hext3)
    as (Hc & Hctl & _ & Hpub & Hm & _).
  destruct (initSlider_observers false s3 Hconf3 Hext3) as (Ho & Hr & Hs).
  assert (Hready_run : imageDataReady s1'
                       = (Normal tt, exec (initSlider false) s3)).
  { unfold imageDataReady, and_then. rewrite Hreg.
    unfold completion, exec in *.
    destruct (initSlider false s3) as [c t]. simpl in *. subst c.
    reflexivity. }
  unfold completion, exec in *. rewrite Hassign, Hready_run. simpl.
  split; [reflexivity |].
  rewrite Hctl, Hpub, Ho, Hr, Hs.
  unfold model in *. rewrite Hm.
  split; [reflexivity |].
  split; [subst s3 s1' s1; simpl; rewrite <- !app_assoc; reflexivity |].
  split; [reflexivity |]. split; [reflexivity |].
  split; [reflexivity |].
  subst s3 s1' s1. simpl. rewrite !in_app_iff. simpl. tauto.
Qed.

Lemma attached_deferred_witness :
  control (exec attached MoreSamples.loading) = None /\
  control (exec (assign_ready true) (exec attached MoreSamples.loading))
  = Some (slider_options Samples.info "z").
Proof.
  destruct (attached_deferred MoreSamples.loading) as [Ha Hr];
    [reflexivity | reflexivity |].
  split.
  - unfold exec. rewrite Ha. reflexivity.
  - destruct Hr as (_ & _ & _ & Hc & _); [reflexivity | reflexivity |].
    exact Hc.
Defined.
(** Without a pending [add_projection_history], [changeProjection] leaves
    the history, the flag and the projection mode alone, whatever the
    control does. *)
Lemma changeProjection_unrecorded (values : option (option Q * option Q))
    (toggle : bool) (s : State) :
  add_projection_history s = false ->
  let s' := exec (changeProjection values toggle) s in
  history (context_config s') = history (context_config s) /\
  add_projection_history s' = false /\
  projection (model s') = projection (model s).
Proof.
  intros Hflag.
  set (P := fun t : State =>
              history (context_config t) = history (context_config s) /\
              add_projection_history t = false /\
              projection (model t) = projection (model s)).
  change (P (exec (changeProjection values toggle) s)).
  assert (Hs : P s) by (unfold P; auto).
  assert (Hpub : forall t, P t ->
            P (exec (let* conf := the_image_config in
                     publish (IMAGE_SETTINGS_CHANGE (conf_id conf)
                                (projection (image_info conf)))) t)).
  { intros t Ht. unfold exec, and_then, the_image_config.
    destruct (image_config t); exact Ht. }
  unfold changeProjection.
  apply exec_and_then_keeps; [| intros _ t Ht; apply Hpub; exact Ht].
  destruct values as [[v0 v1] |].
  - unfold exec at 1, and_then at 1, the_image_config.
    destruct (image_config s); [exact Hs |].
    apply (exec_and_then_keeps P); [exact Hs |].
    intros _ t Ht. apply (exec_and_then_keeps P).
    + pose proof (slider_option_values_echoed control_change_echoed
                    (round_parseFloat v0, round_parseFloat v1) t) as He.
      destruct (echoed_frame _ _ He) as (Hp & _).
      destruct He as (_ & _ & _ & _ & _ & _ & Hf & _ & _ & _ & _ & _ & Hh & _).
      destruct Ht as (T1 & T2 & T3). unfold P.
      rewrite Hh, Hf, Hp. auto.
    + intros _ t1 Ht1. rewrite exec_get.
      destruct Ht1 as (T1 & T2 & T3). rewrite T2. unfold P. auto.
  - rewrite exec_get. rewrite Hflag, andb_false_r. exact Hs.
Qed.

(** X11. Without a pending [add_projection_history], [changeProjection]
    on a bound slider with a control records nothing: the history is left
    as it was, whatever the values and the toggle flag, and the flag and
    the projection mode stay.  It writes the rounded values to
    [projection_opts] when it is given a pair (and leaves them alone
    otherwise).  On a control that is quiet for [option values] (the
    two-handle control, or a control that had no [values] so far) it
    returns, publishes one settings change with the projection mode and
    nothing else, and does not write to [dimensions]. *)
Theorem changeProjection_echo (values : option (option Q * option Q))
    (toggle : bool) (s : State) (o : Options.t) :
  image_config s = config_object ->
  control s = Some o ->
  add_projection_history s = false ->
  let s' := exec (changeProjection values toggle) s in
  history (context_config s') = history (context_config s) /\
  add_projection_history s' = false /\
  projection_opts (model s')
  = match values with
    | Some (v0, v1) =>
        {| ProjectionOpts.start := round_parseFloat v0;
           ProjectionOpts.end_ := round_parseFloat v1 |}
    | None => projection_opts (model s)
    end /\
  projection (model s') = projection (model s) /\
  (quiet o ->
   completion (changeProjection values toggle) s = Normal tt /\
   published s'
   = published s ++
     [IMAGE_SETTINGS_CHANGE (conf_id (context_config s))
        (projection (model s))] /\
   dimensions (model s') = dimensions (model s)).
Proof.
  intros Hconf Hc Hflag s'.
  destruct (changeProjection_unrecorded values toggle s Hflag)
    as (Hh & Hf & Hp).
  split; [exact Hh |]. split; [exact Hf |].
  split; [| split; [exact Hp |]].
  - subst s'. destruct values as [[v0 v1] |].
    + apply changeProjection_opts. exact Hconf.
    + unfold model, changeProjection. js_unfold.
      rewrite Hflag, andb_false_r. simpl. rewrite Hconf. reflexivity.
  - intros Hq. subst s'. unfold model.
    unfold changeProjection. js_unfold.
    destruct values as [[v0 v1] |]; simpl.
    + rewrite Hconf. simpl.
      erewrite slider_option_values_quiet; [| exact Hc | exact Hq].
      simpl. rewrite Hflag. simpl.
      rewrite Hconf. simpl. repeat split.
    + rewrite Hflag, andb_false_r. simpl. rewrite Hconf. simpl.
      repeat split.
Qed.

Lemma changeProjection_echo_witness :
  history (context_config
             (exec (projection_opts_observer
                      {| ProjectionOpts.start := Some 2;
                         ProjectionOpts.end_ := Some 5 |})
                Samples.projected))
  = history (context_config Samples.projected).
Proof.
  assert (Hconf : image_config Samples.projected = config_object)
    by (vm_compute; reflexivity).
  assert (Hc : control Samples.projected
               = Some (slider_options (model Samples.projected) "z"))
    by (vm_compute; reflexivity).
  assert (Hf : add_projection_history Samples.projected = false)
    by (vm_compute; reflexivity).
  unfold projection_opts_observer.
  exact (proj1 (changeProjection_echo _ false Samples.projected _
                  Hconf Hc Hf)).
Defined.

(** X12. When the user drops a handle of the two-handle control (a
    [change] event with an original event), the rounded handle values
    are written to [projection_opts], one history entry is appended
    with the former [projection_opts] as old and the new ones as new
    value, one settings change is published, and the pending flag is
    cleared again.  The control is the two-handle control, or any other
    that is quiet for [option values]. *)
Theorem change_projection_by_user (event : SliderEvent.t) (ui : Ui.t)
    (a b : Q) (s : State) (o : Options.t) :
  image_config s = config_object ->
  control s = Some o ->
  quiet o ->
  SliderEvent.originalEvent event = true ->
  Ui.values ui = Some (a, b) ->
  let s' := exec (change change_projection event ui) s in
  let opts :=
    {| ProjectionOpts.start := Some (Math_round a);
       ProjectionOpts.end_ := Some (Math_round b) |} in
  completion (change change_projection event ui) s = Normal tt /\
  projection_opts (model s') = opts /\
  history (context_config s')
  = history (context_config s) ++
    [[{| prop := ["image_info"; "projection_opts"];
         old_val := HOpts (projection_opts (model s));
         new_val := HOpts opts;
         type := "object" |}]] /\
  published s'
  = published s ++
    [IMAGE_SETTINGS_CHANGE (conf_id (context_config s))
       (projection (model s))] /\
  add_projection_history s' = false.
Proof.
  intros Hconf Hc Hq Hev Hui s' opts. subst s' opts. unfold model.
  unfold change, changeProjection. rewrite Hev, Hui. js_unfold. simpl.
  rewrite Hconf. simpl.
  erewrite slider_option_values_quiet; [| exact Hc | exact Hq].
  simpl. rewrite Hconf. simpl.
  rewrite Hconf. simpl. repeat split.
Qed.

Lemma change_projection_by_user_witness :
  projection_opts
    (model (exec (change change_projection
                    {| SliderEvent.keyCode := None;
                       SliderEvent.originalEvent := true |}
                    {| Ui.value := (46 # 10)%Q;
                       Ui.values := Some ((46 # 10)%Q, inject_Z 9) |})
              Samples.projected))
  = {| ProjectionOpts.start := Some 5; ProjectionOpts.end_ := Some 9 |}.
Proof.
  assert (Hconf : image_config Samples.projected = config_object)
    by (vm_compute; reflexivity).
  assert (Hc : control Samples.projected
               = Some (slider_options (model Samples.projected) "z"))
    by (vm_compute; reflexivity).
  assert (Hq : quiet (slider_options (model Samples.projected) "z"))
    by (left; vm_compute; reflexivity).
  pose proof (proj1 (proj2 (change_projection_by_user
    {| SliderEvent.keyCode := None; SliderEvent.originalEvent := true |}
    {| Ui.value := (46 # 10)%Q;
       Ui.values := Some ((46 # 10)%Q, inject_Z 9) |}
    (46 # 10)%Q (inject_Z 9) Samples.projected _ Hconf Hc Hq
    eq_refl eq_refl)))
    as H.
  rewrite H. vm_compute. reflexivity.
Defined.

(** X13. A [change] event that the program caused itself (no original
    event) never adds a history entry: the callback of the two-handle
    control returns with the state as it was, and the callback of the
    one-handle control leaves the history as it was. *)
Theorem change_by_program (cb : ChangeCallback) (event : SliderEvent.t)
    (ui : Ui.t) (s : State) :
  SliderEvent.originalEvent event = false ->
  history (context_config (exec (change cb event ui) s))
  = history (context_config s) /\
  change change_projection event ui s = (Normal tt, s).
Proof.
  intros Hev. unfold change. rewrite Hev. split; [| reflexivity].
  destruct cb; [reflexivity |].
  apply onChange_programmatic_kept.
Qed.

Lemma change_by_program_witness :
  history (context_config
             (exec (change change_dimension
                      {| SliderEvent.keyCode := None;
                         SliderEvent.originalEvent := false |}
                      {| Ui.value := inject_Z 7; Ui.values := None |})
                (Samples.attached "z")))
  = history (context_config (Samples.attached "z")).
Proof.
  exact (proj1 (change_by_program change_dimension
                  {| SliderEvent.keyCode := None;
                     SliderEvent.originalEvent := false |}
                  {| Ui.value := inject_Z 7; Ui.values := None |}
                  (Samples.attached "z") eq_refl)).
Defined.

(** X14. A new dimension value is announced once per live observer of the
    dimension: on a bound slider with a control that takes the value as
    it is, [onChange] with a value that rounds to a new integer returns
    and publishes as many dimension change events as there are live
    subscriptions on [dimensions[dim]].  [registerObservers] does not
    dispose what it registered before, so after two calls on a slider
    without observers there are two of them, and every change is
    announced twice. *)
Theorem onChange_announces_per_observer (value : Q)
    (slider_interaction : bool) (s : State) (o : Options.t) :
  image_config s = config_object ->
  control s = Some o ->
  accepts o (Math_round value) ->
  dimensions (model s) !! dim s <> Some (Math_round value) ->
  let s' := exec (onChange value slider_interaction) s in
  completion (onChange value slider_interaction) s = Normal tt /\
  published s'
  = published s ++
    repeat
      (IMAGE_DIMENSION_CHANGE (conf_id (context_config s)) (dim s)
         [Math_round value])
      (length (subscriptions_on (dimensions_prop (dim s)) s)) /\
  (subscriptions_on (dimensions_prop (dim s)) s = [] ->
   length (subscriptions_on (dimensions_prop (dim s))
             (exec (registerObservers ;; registerObservers) s)) = 2%nat).
Proof.
  intros Hconf Hc Hacc Hne s'. subst s'.
  pose proof (onChange_run value slider_interaction s Hconf Hne) as Hrun.
  match type of Hrun with
  | _ = assign_dimension ?v ?t => set (t0 := t) in Hrun
  end.
  assert (T1 : image_config t0 = config_object)
    by (subst t0; destruct slider_interaction; exact Hconf).
  assert (T2 : dim t0 = dim s)
    by (subst t0; destruct slider_interaction; reflexivity).
  assert (T3 : dimensions (model t0) = dimensions (model s))
    by (subst t0; destruct slider_interaction; reflexivity).
  assert (T4 : control t0 = Some o)
    by (subst t0; destruct slider_interaction; exact Hc).
  assert (T5 : subscriptions_on (dimensions_prop (dim t0)) t0
               = subscriptions_on (dimensions_prop (dim s)) s)
    by (subst t0; destruct slider_interaction; reflexivity).
  assert (T6 : published t0 = published s)
    by (subst t0; destruct slider_interaction; reflexivity).
  assert (T7 : conf_id (context_config t0) = conf_id (context_config s))
    by (subst t0; destruct slider_interaction; reflexivity).
  assert (Hne0 : dimensions (model t0) !! dim t0 <> Some (Math_round value))
    by (rewrite T3, T2; exact Hne).
  rewrite (assign_dimension_accepted _ t0 o T1 T4 Hacc Hne0) in Hrun.
  rewrite T5 in Hrun.
  unfold completion, exec. rewrite Hrun. simpl.
  split; [reflexivity |]. split.
  - destruct (subscriptions_on (dimensions_prop (dim s)) s) as [| sub l].
    + simpl. rewrite app_nil_r. exact T6.
    + simpl. rewrite T6, T7, T2. reflexivity.
  - intros Hnone.
    pose proof (registerObservers_run s Hconf) as R1.
    match type of R1 with
    | _ = (_, ?t) => set (s1 := t) in R1
    end.
    pose proof (registerObservers_run s1 Hconf) as R2.
    unfold and_then. rewrite R1, R2. simpl.
    unfold subscriptions_on in *. simpl.
    rewrite !List.filter_app, Hnone. simpl.
    rewrite String.eqb_refl. reflexivity.
Qed.

(** The t slider of the sample image, five time points, with its
    observers registered twice, set to the time point 3. *)
Lemma onChange_announces_per_observer_witness :
  published
    (exec (onChange (inject_Z 3) false)
       (exec (registerObservers ;; registerObservers ;; initSlider false)
          (Samples.bound "t")))
  = [IMAGE_SETTINGS_CHANGE 1 NORMAL;
     IMAGE_DIMENSION_CHANGE 1 "t" [3]; IMAGE_DIMENSION_CHANGE 1 "t" [3]].
Proof.
  assert (Hconf : image_config
            (exec (registerObservers ;; registerObservers ;; initSlider false)
               (Samples.bound "t")) = config_object)
    by (vm_compute; reflexivity).
  assert (Hc : control
            (exec (registerObservers ;; registerObservers ;; initSlider false)
               (Samples.bound "t"))
          = Some (slider_options Samples.info "t"))
    by (vm_compute; reflexivity).
  assert (Hacc : accepts (slider_options Samples.info "t")
                   (Math_round (inject_Z 3)))
    by (right; vm_compute; split; reflexivity).
  destruct (onChange_announces_per_observer (inject_Z 3) false _ _
              Hconf Hc Hacc)
    as (_ & Hp & _); [vm_compute; discriminate |].
  rewrite Hp. vm_compute. reflexivity.
Defined.

(** The first observer of a section that the one-handle control does not
    take as it is: the control is set to it and reports the nearest
    section within its bounds, which [onChange] writes to the model and
    every live observer announces, before this observer announces its
    own. *)
Lemma dimension_observer_clamped {inner : ChangeOption} (v : Z)
    (o : Options.t) (t : State) :
  image_config t = config_object ->
  control t = Some o ->
  one_handle o ->
  in_range o (valueMin o) ->
  dimensions (model t) !! dim t = Some v ->
  let nearest := Math_round (trimAlignValue o (inject_Z v)) in
  nearest <> v ->
  @dimension_observer (@change (@change inner)) v t
  = (Normal tt,
     set_published
       (published t ++
        repeat
          (IMAGE_DIMENSION_CHANGE (conf_id (context_config t)) (dim t)
             [nearest])
          (length (subscriptions_on (dimensions_prop (dim t)) t)) ++
        [IMAGE_DIMENSION_CHANGE (conf_id (context_config t)) (dim t) [v]])
       (set_control
          (Some (with_value
                   (Some (match subscriptions_on (dimensions_prop (dim t)) t
                          with
                          | [] => inject_Z v
                          | _ => inject_Z nearest
                          end)) o))
          (exec (write_dimension nearest) t))).
Proof.
  intros Hconf Hc Hone Hord Hd nearest Hnear.
  pose proof Hone as (Hmin & Hstep & Hvs & Hcb).
  set (o1 := with_value (Some (inject_Z v)) o).
  set (t1 := set_control (Some o1) t).
  assert (Hacc : accepts o1 nearest).
  { apply one_handle_accepts; [exact Hone |].
    apply (Math_round_in_range o).
    apply trimAlignValue_in_range; assumption. }
  assert (Hne1 : dimensions (model t1) !! dim t1
                 <> Some (Math_round (trimAlignValue o (inject_Z v)))).
  { change (dimensions (model t) !! dim t <> Some nearest).
    rewrite Hd. intros H. injection H as H. apply Hnear. symmetry. exact H. }
  assert (Hinner : @onChange (@change inner)
                     (trimAlignValue o (inject_Z v)) false t1
    = (Normal tt,
       match subscriptions_on (dimensions_prop (dim t)) t with
       | [] => exec (write_dimension nearest) t1
       | l =>
           set_published
             (published t ++
              repeat
                (IMAGE_DIMENSION_CHANGE (conf_id (context_config t)) (dim t)
                   [nearest])
                (length l))
             (set_control (Some (with_value (Some (inject_Z nearest)) o))
                (exec (write_dimension nearest) t1))
       end)).
  { rewrite (onChange_run _ false t1 Hconf Hne1).
    fold nearest.
    rewrite (assign_dimension_accepted_at nearest t1 o1 Hconf eq_refl Hacc
               Hne1).
    change (subscriptions_on (dimensions_prop (dim t1)) t1)
      with (subscriptions_on (dimensions_prop (dim t)) t).
    destruct (subscriptions_on (dimensions_prop (dim t)) t); reflexivity. }
  unfold dimension_observer, slider_option_value.
  unfold and_then at 1. unfold and_then at 1. unfold slider_method at 1.
  rewrite Hc. fold o1. fold t1.
  unfold trigger_change, and_then at 1, get.
  change (control t1) with (Some o1).
  unfold uiHash. change (Options.values o1) with (Options.values o).
  rewrite Hvs. change (Options.change o1) with (Options.change o).
  rewrite Hcb.
  change (current_value o1) with (trimAlignValue o (inject_Z v)).
  unfold change_option, change at 1. simpl SliderEvent.originalEvent.
  simpl Ui.value. unfold and_then at 1. rewrite Hinner.
  destruct (subscriptions_on (dimensions_prop (dim t)) t) as [| sub l];
    js_unfold; simpl; rewrite Hconf; simpl.
  - reflexivity.
  - rewrite <- app_assoc. reflexivity.
Qed.

(** X21. After [onChange] and the observers it triggers, on a bound
    slider with a one-handle control and a live observer of its
    dimension, [dimensions[dim]] holds the section nearest to the
    requested one within the bounds of the control: the requested section
    within the bounds, the first section below them, the last one above
    them (the control reports the bound, and its [change] event writes it
    to the model).  The history entry of a slider interaction records the
    requested section in either case. *)
Theorem onChange_settles (value : Q) (slider_interaction : bool)
    (s : State) (o : Options.t) :
  image_config s = config_object ->
  control s = Some o ->
  one_handle o ->
  in_range o (valueMin o) ->
  subscriptions_on (dimensions_prop (dim s)) s <> [] ->
  dimensions (model s) !! dim s <> Some (Math_round value) ->
  let v := Math_round value in
  let nearest := Math_round (trimAlignValue o (inject_Z v)) in
  let s' := exec (onChange value slider_interaction) s in
  completion (onChange value slider_interaction) s = Normal tt /\
  dimensions (model s') = <[dim s := nearest]> (dimensions (model s)) /\
  history (context_config s')
  = history (context_config s) ++
    (if slider_interaction then
       [[{| prop := ["image_info"; "dimensions"; dim s];
            old_val := HNumber (dimensions (model s) !! dim s);
            new_val := HNumber (Some v);
            type := "number" |}]]
     else []) /\
  (in_range o (inject_Z v) -> nearest = v) /\
  (v <= 0 -> nearest = 0) /\
  (forall max, Options.max o = Some max -> max <= v -> nearest = max).
Proof.
  intros Hconf Hc Hone Hord Hlive Hne v nearest s'.
  pose proof Hone as (Hmin & Hstep & Hvs & Hcb).
  assert (Hin : in_range o (inject_Z v) -> nearest = v).
  { intros Hr. subst nearest.
    rewrite (trimAlignValue_integer o v Hstep Hr).
    apply Math_round_inject_Z. }
  assert (Hlow : v <= 0 -> nearest = 0).
  { intros Hv. subst nearest. unfold trimAlignValue, valueMin.
    rewrite Hmin.
    assert (E : num_leb (inject_Z v) (inject_Z 0) = true)
      by (apply Qle_bool_iff; rewrite <- Zle_Qle; exact Hv).
    rewrite E. apply Math_round_inject_Z. }
  assert (Hhigh : forall max, Options.max o = Some max -> max <= v ->
                              nearest = max).
  { intros m Hm Hv. subst nearest. unfold trimAlignValue, valueMin.
    rewrite Hmin, Hm.
    destruct Hord as [_ Hord]. rewrite Hm in Hord.
    unfold valueMin in Hord. rewrite Hmin in Hord.
    rewrite <- Zle_Qle in Hord.
    destruct (num_leb (inject_Z v) (inject_Z 0)) eqn:E1.
    - apply Qle_bool_iff in E1. rewrite <- Zle_Qle in E1.
      rewrite Math_round_inject_Z. lia.
    - assert (E2 : num_leb (inject_Z m) (inject_Z v) = true)
        by (apply Qle_bool_iff; rewrite <- Zle_Qle; exact Hv).
      rewrite E2. apply Math_round_inject_Z. }
  pose proof (onChange_run value slider_interaction s Hconf Hne) as Hrun.
  fold v in Hrun.
  match type of Hrun with
  | _ = assign_dimension v ?t => set (t0 := t) in Hrun
  end.
  assert (T1 : image_config t0 = config_object)
    by (subst t0; destruct slider_interaction; exact Hconf).
  assert (T2 : dim t0 = dim s)
    by (subst t0; destruct slider_interaction; reflexivity).
  assert (T3 : dimensions (model t0) = dimensions (model s))
    by (subst t0; destruct slider_interaction; reflexivity).
  assert (T4 : control t0 = Some o)
    by (subst t0; destruct slider_interaction; exact Hc).
  assert (T5 : subscriptions_on (dimensions_prop (dim t0)) t0
               = subscriptions_on (dimensions_prop (dim s)) s)
    by (subst t0; destruct slider_interaction; reflexivity).
  assert (T8 : history (context_config t0)
               = history (context_config s) ++
                 (if slider_interaction then
                    [[{| prop := ["image_info"; "dimensions"; dim s];
                         old_val := HNumber (dimensions (model s) !! dim s);
                         new_val := HNumber (Some v);
                         type := "number" |}]]
                  else [])).
  { subst t0. destruct slider_interaction; [reflexivity |].
    rewrite app_nil_r. reflexivity. }
  assert (Hne0 : dimensions (model t0) !! dim t0 <> Some v)
    by (rewrite T3, T2; exact Hne).
  assert (Hhist : history (context_config (exec (assign_dimension v) t0))
                  = history (context_config t0)).
  { pose proof (assign_dimension_echoed control_change_echoed v t0) as He.
    destruct He as (_ & _ & _ & _ & _ & _ & _ & _ & _ & _ & _ & _ & He & _).
    exact He. }
  assert (Hs' : s' = exec (assign_dimension v) t0)
    by (subst s'; unfold exec; rewrite Hrun; reflexivity).
  assert (Hmain : completion (assign_dimension v) t0 = Normal tt /\
                  dimensions (model (exec (assign_dimension v) t0))
                  = <[dim s := nearest]> (dimensions (model s))).
  { destruct (Z.eq_dec nearest v) as [Heq | Hneq].
    - assert (Hacc : accepts o v).
      { right. split; [exact Hvs |]. exact Heq. }
      unfold completion, exec.
      rewrite (assign_dimension_accepted v t0 o T1 T4 Hacc Hne0).
      rewrite Heq. split; [reflexivity |].
      destruct (subscriptions_on (dimensions_prop (dim t0)) t0);
        simpl; fold (model t0); rewrite T3, T2; reflexivity.
    - set (w := exec (write_dimension v) t0).
      assert (W1 : image_config w = config_object) by exact T1.
      assert (W2 : control w = Some o) by exact T4.
      assert (W3 : dimensions (model w) !! dim w = Some v)
        by (unfold model; simpl; apply lookup_insert_eq).
      assert (W4 : subscriptions_on (dimensions_prop (dim w)) w
                   = subscriptions_on (dimensions_prop (dim s)) s)
        by exact T5.
      assert (Hrun2 : assign_dimension v t0
                = for_each
                    (fun _ : nat * Observed => dimension_observer v)
                    (subscriptions_on (dimensions_prop (dim s)) s) w).
      { rewrite (assign_dimension_run v t0 Hne0), notify_filter.
        fold w.
        change (subscriptions_on (dimensions_prop (dim t0)) w)
          with (subscriptions_on (dimensions_prop (dim t0)) t0).
        rewrite T5. reflexivity. }
      destruct (subscriptions_on (dimensions_prop (dim s)) s)
        as [| sub l] eqn:Hsubs; [contradiction |].
      simpl in Hrun2. unfold and_then in Hrun2.
      rewrite control_change_unfold, nested_change_unfold in Hrun2.
      rewrite (dimension_observer_clamped v o w W1 W2 Hone Hord W3 Hneq)
        in Hrun2.
      rewrite W4 in Hrun2.
      match type of Hrun2 with
      | _ = for_each _ _ ?t => set (w3 := t) in Hrun2
      end.
      assert (Hset : Options.change
                       (with_value (Some (inject_Z nearest)) o)
                     = change_projection \/
                     (Options.values
                        (with_value (Some (inject_Z nearest)) o) = None /\
                      dimensions (model w3) !! dim w3
                      = Some (Math_round
                                (trimAlignValue
                                   (with_value (Some (inject_Z nearest)) o)
                                   (inject_Z v))))).
      { right. split; [exact Hvs |].
        subst w3. unfold model. simpl. apply lookup_insert_eq. }
      rewrite (dimension_observers_settled v l
                 (with_value (Some (inject_Z nearest)) o) w3 W1 eq_refl Hset)
        in Hrun2.
      rewrite control_change_unfold, nested_change_unfold.
      unfold completion, exec. rewrite Hrun2. split; [reflexivity |].
      assert (Hw3 : dimensions (model w3)
                    = <[dim s := nearest]> (dimensions (model s))).
      { subst w3 w. unfold model. simpl. fold (model t0).
        rewrite T3, T2. apply insert_insert_eq. }
      destruct l; simpl; exact Hw3. }
  destruct Hmain as (Hcomp & Hdims).
  split.
  { unfold completion in *. rewrite Hrun. exact Hcomp. }
  split; [rewrite Hs'; exact Hdims |].
  split; [rewrite Hs', Hhist; exact T8 |].
  split; [exact Hin |]. split; [exact Hlow | exact Hhigh].
Qed.

(** The z slider of the sample image, sections 0..9, dragged to -2 and
    to 12. *)
Lemma onChange_settles_witness :
  dimensions (model (exec (onChange (inject_Z (-2)) true)
                       (Samples.attached "z"))) !! "z" = Some 0 /\
  dimensions (model (exec (onChange (inject_Z 12) true)
                       (Samples.attached "z"))) !! "z" = Some 9.
Proof.
  assert (Hconf : image_config (Samples.attached "z") = config_object)
    by (vm_compute; reflexivity).
  assert (Hc : control (Samples.attached "z")
               = Some (slider_options Samples.info "z"))
    by (vm_compute; reflexivity).
  assert (Hone : one_handle (slider_options Samples.info "z"))
    by (vm_compute; repeat split).
  assert (Hord : in_range (slider_options Samples.info "z")
                   (valueMin (slider_options Samples.info "z")))
    by (split; vm_compute; discriminate).
  assert (Hlive : subscriptions_on
                    (dimensions_prop (dim (Samples.attached "z")))
                    (Samples.attached "z") <> [])
    by (vm_compute; discriminate).
  split.
  - destruct (onChange_settles (inject_Z (-2)) true (Samples.attached "z") _
                Hconf Hc Hone Hord Hlive) as (_ & Hd & _);
      [vm_compute; discriminate |].
    rewrite Hd. vm_compute. reflexivity.
  - destruct (onChange_settles (inject_Z 12) true (Samples.attached "z") _
                Hconf Hc Hone Hord Hlive) as (_ & Hd & _);
      [vm_compute; discriminate |].
    rewrite Hd. vm_compute. reflexivity.
Defined.

(** X15. A slide with the mouse (no key code) on a one-handle slider that
    is not playing is let through and shows the value span, at [bottom] on
    the z slider and at [left] otherwise.  Its text is the dimension in
    upper case and the one-based number of the nearest section; the time
    stamp of [image_delta_t] is appended on the t slider only, and only
    for a section that [image_delta_t] covers.  The [stop] callback then
    empties and hides the span. *)
Theorem slide_shows_section (event : SliderEvent.t) (ui : Ui.t) (s : State) :
  PlayerInfo.handle (player_info s) = None ->
  SliderEvent.keyCode event = None ->
  Ui.values ui = None ->
  let n := Math_round (Ui.value ui) in
  let delta := image_delta_t (model s) in
  let label := toUpperCase (dim s) +:+ ":" +:+ pretty (n + 1) in
  let span := slider_value_span (exec (slide event ui) s) in
  completion (slide event ui) s = Normal return_undefined /\
  ValueSpan.shown span = true /\
  (exists percent,
     ValueSpan.css span
     = Some (if String.eqb (dim s) "z" then bottom percent
             else left percent)) /\
  (dim s <> "t" \/ Z.of_nat (length delta) <= n ->
   ValueSpan.text span = label) /\
  (dim s = "t" -> forall d, 0 <= n -> delta !! Z.to_nat n = Some d ->
   ValueSpan.text span = label +:+ " [" +:+ d +:+ "]") /\
  slider_value_span (exec stop (exec (slide event ui) s))
  = {| ValueSpan.text := ""; ValueSpan.css := ValueSpan.css span;
       ValueSpan.shown := false |}.
Proof.
  intros Hh Hk Hv n delta label span.
  assert (Hrun : exists text percent,
    slide event ui s
    = (Normal return_undefined,
       set_slider_value_span
         {| ValueSpan.text := text;
            ValueSpan.css :=
              Some (if String.eqb (dim s) "z" then bottom percent
                    else left percent);
            ValueSpan.shown := true |} s) /\
    text
    = if String.eqb (dim s) "t" && Nat.ltb 0 (length delta) &&
         Z.ltb n (Z.of_nat (length delta))
      then label +:+ " [" +:+ delta_t_text delta n +:+ "]"
      else label).
  { unfold slide, and_then, get, modify, ret. rewrite Hh, Hv, Hk. simpl.
    eexists. eexists. split; reflexivity. }
  destruct Hrun as (text & percent & Hrun & Htext).
  subst span. unfold completion, exec. rewrite Hrun. simpl.
  split; [reflexivity |]. split; [reflexivity |].
  split; [exists percent; reflexivity |].
  split; [| split; [| reflexivity]].
  - intros Hcase. rewrite Htext. destruct Hcase as [Hd | Hn].
    + apply String.eqb_neq in Hd. rewrite Hd. reflexivity.
    + assert (Hlt : Z.ltb n (Z.of_nat (length delta)) = false)
        by (apply Z.ltb_ge; exact Hn).
      rewrite Hlt, andb_false_r. reflexivity.
  - intros Hd d Hn Hlook. rewrite Htext.
    assert (Hlen : (Z.to_nat n < length delta)%nat)
      by (eapply lookup_lt_Some; exact Hlook).
    assert (H1 : Nat.ltb 0 (length delta) = true)
      by (apply Nat.ltb_lt; lia).
    assert (H2 : Z.ltb n (Z.of_nat (length delta)) = true)
      by (apply Z.ltb_lt; lia).
    rewrite Hd, H1, H2. simpl.
    unfold delta_t_text.
    assert (H3 : Z.leb 0 n = true) by (apply Z.leb_le; exact Hn).
    rewrite H3, Hlook. reflexivity.
Qed.

Lemma slide_shows_section_witness :
  ValueSpan.text
    (slider_value_span
       (exec (slide {| SliderEvent.keyCode := None;
                       SliderEvent.originalEvent := true |}
                {| Ui.value := (301 # 100)%Q; Ui.values := None |})
          (Samples.attached "z")))
  = "Z:4".
Proof.
  assert (Hh : PlayerInfo.handle (player_info (Samples.attached "z")) = None)
    by (vm_compute; reflexivity).
  destruct (slide_shows_section
              {| SliderEvent.keyCode := None;
                 SliderEvent.originalEvent := true |}
              {| Ui.value := (301 # 100)%Q; Ui.values := None |}
              (Samples.attached "z") Hh eq_refl eq_refl)
    as (_ & _ & _ & Ht & _).
  rewrite Ht; [vm_compute; reflexivity |].
  left. vm_compute. discriminate.
Defined.

End DimensionSliderMore.

(** ** ChannelSettings: the remaining methods *)

Module ChannelSettingsMore.
Import ChannelSettings ChannelSettingsRest ChannelSettingsSpec.

Lemma same_instance_refl (s : State) : same_instance s s.
Proof. repeat split. Qed.

Lemma same_instance_trans (s1 s2 s3 : State) :
  same_instance s1 s2 -> same_instance s2 s3 -> same_instance s1 s3.
Proof.
  unfold same_instance.
  intros (A1 & A2 & A3 & A4 & A5 & A6 & A7) (B1 & B2 & B3 & B4 & B5 & B6 & B7).
  repeat split; congruence.
Qed.

Lemma channel_dispose_filter (hs : list nat) (s : State) :
  exists s',
    for_each dispose hs s = (Normal tt, s') /\
    same_instance s s' /\
    observers s' = observers s /\
    next_subscription s' = next_subscription s /\
    subscriptions s' = List.filter (survives hs) (subscriptions s).
Proof.
  revert s. induction hs as [| h hs IH]; intros s.
  - exists s. split; [reflexivity |]. split; [apply same_instance_refl |].
    repeat split. symmetry. apply filter_all.
    apply Forall_forall. reflexivity.
  - destruct (IH (exec (dispose h) s)) as (s' & E & F & H1 & H2 & H3).
    exists s'. split; [exact E |].
    split; [eapply same_instance_trans; [| exact F]; repeat split |].
    split; [exact H1 |]. split; [exact H2 |].
    rewrite H3. unfold exec, dispose, modify. simpl.
    rewrite filter_filter. apply List.filter_ext. intros sub.
    unfold survives. simpl. rewrite negb_orb. reflexivity.
Qed.

Lemma unregisterObservers_run (s : State) :
  exists s',
    unregisterObservers s = (Normal tt, s') /\
    same_instance s s' /\
    observers s' = [] /\
    next_subscription s' = next_subscription s /\
    subscriptions s'
    = List.filter (survives (observers s)) (subscriptions s).
Proof.
  destruct (channel_dispose_filter (observers s) s)
    as (s1 & E & F & H1 & H2 & H3).
  exists (set_observers [] s1). split.
  - unfold unregisterObservers, and_then at 1, get. unfold and_then.
    rewrite E. reflexivity.
  - split; [eapply same_instance_trans; [exact F |]; repeat split |].
    simpl. repeat split; assumption.
Qed.

(** The loop of [registerObservers] over the channels [i .. i + n - 1]. *)
Lemma register_loop (n i : nat) (s : State) :
  exists s',
    for_each
      (fun i : nat =>
         for_each
           (fun obsProp : option string * string =>
              let* o := propertyObserver_subscribe (i, obsProp) in
              modify (fun s => set_observers (observers s ++ [o]) s))
           observedProperties)
      (seq i n) s
    = (Normal tt, s') /\
    same_instance s s' /\
    observers s'
    = observers s ++ map fst (channel_subscriptions (next_subscription s) i n) /\
    next_subscription s' = (next_subscription s + 4 * n)%nat /\
    subscriptions s'
    = subscriptions s ++ channel_subscriptions (next_subscription s) i n.
Proof.
  revert i s. induction n as [| n IH]; intros i s.
  - exists s. split; [reflexivity |]. split; [apply same_instance_refl |].
    simpl. rewrite !app_nil_r, Nat.add_0_r. repeat split.
  - simpl seq. simpl for_each.
    unfold and_then at 1. simpl.
    match goal with
    | |- context [for_each _ (seq (S i) n) ?t] =>
        destruct (IH (S i) t) as (s' & E & F & H1 & H2 & H3)
    end.
    exists s'. split; [exact E |].
    split; [eapply same_instance_trans; [| exact F]; repeat split |].
    simpl in H1, H2, H3.
    rewrite H1, H2, H3. simpl.
    rewrite <- !app_assoc. simpl.
    repeat split. lia.
Qed.
Lemma channel_registerObservers_run (s : State) (imgInf : ImageInfo) :
  image_info s = Some imgInf ->
  let n := length (channels imgInf) in
  let h := next_subscription s in
  exists s',
    registerObservers s = (Normal tt, s') /\
    same_instance s s' /\
    observers s' = map fst (channel_subscriptions h 0 n) /\
    next_subscription s' = (h + 4 * n)%nat /\
    subscriptions s'
    = List.filter (survives (observers s)) (subscriptions s) ++
      channel_subscriptions h 0 n.
Proof.
  intros Hinfo n h. subst n h.
  destruct (unregisterObservers_run s) as (s1 & E1 & F1 & O1 & N1 & S1).
  destruct (register_loop (length (channels imgInf)) 0 s1)
    as (s2 & E2 & F2 & O2 & N2 & S2).
  exists s2. split.
  - unfold registerObservers, and_then at 1, get. rewrite Hinfo.
    unfold and_then at 1. rewrite E1. exact E2.
  - split; [eapply same_instance_trans; eassumption |].
    rewrite O2, N2, S2, O1, N1, S1. repeat split.
Qed.

Lemma channel_subscriptions_length (h i n : nat) :
  length (channel_subscriptions h i n) = (4 * n)%nat.
Proof.
  revert h i. induction n as [| n IH]; intros h i; [reflexivity |].
  simpl. rewrite IH. lia.
Qed.

Lemma channel_subscriptions_handles (h i n : nat) :
  Forall (fun sub => (h <= fst sub < h + 4 * n)%nat)
    (channel_subscriptions h i n).
Proof.
  revert h i. induction n as [| n IH]; intros h i; [constructor |].
  simpl. repeat (constructor; [simpl; lia |]).
  eapply Forall_impl; [apply IH |]. simpl. intros sub Hsub. lia.
Qed.

(** X16. With an image info [registerObservers] returns holding four
    live subscriptions per channel, on [active], [color], [window.start]
    and [window.end], and nothing else in [observers]: the subscriptions it
    held before are disposed first.  Without an image info it does nothing.
    So registering again leaks nothing: with handles handed out in
    increasing order, a second [registerObservers] leaves as many live
    subscriptions as the first. *)
Theorem registerObservers_no_leak (s : State) :
  (image_info s = None -> registerObservers s = (Normal tt, s)) /\
  (forall imgInf, image_info s = Some imgInf ->
     let n := length (channels imgInf) in
     let s1 := exec registerObservers s in
     let s2 := exec registerObservers s1 in
     completion registerObservers s = Normal tt /\
     length (observers s1) = (4 * n)%nat /\
     subscriptions s1
     = List.filter (survives (observers s)) (subscriptions s) ++
       channel_subscriptions (next_subscription s) 0 n /\
     observers s1 = map fst (channel_subscriptions (next_subscription s) 0 n) /\
     (fresh_handles s ->
      length (observers s2) = (4 * n)%nat /\
      length (subscriptions s2) = length (subscriptions s1))).
Proof.
  split.
  - intros Hnone. unfold registerObservers, and_then, get.
    rewrite Hnone. reflexivity.
  - intros imgInf Hinfo n s1 s2.
    destruct (channel_registerObservers_run s imgInf Hinfo)
      as (t1 & E1 & F1 & O1 & N1 & S1).
    assert (Hs1 : s1 = t1) by (subst s1; unfold exec; rewrite E1; reflexivity).
    assert (Hinfo1 : image_info t1 = Some imgInf)
      by (destruct F1 as (_ & -> & _); exact Hinfo).
    destruct (channel_registerObservers_run t1 imgInf Hinfo1)
      as (t2 & E2 & F2 & O2 & N2 & S2).
    assert (Hs2 : s2 = t2)
      by (subst s2; rewrite Hs1; unfold exec; rewrite E2; reflexivity).
    rewrite Hs2, Hs1. unfold completion. rewrite E1. simpl.
    split; [reflexivity |].
    split; [rewrite O1, length_map; apply channel_subscriptions_length |].
    split; [exact S1 |]. split; [exact O1 |].
    intros Hfresh.
    split; [rewrite O2, length_map; apply channel_subscriptions_length |].
    rewrite S2, S1, O1.
    set (cs := channel_subscriptions (next_subscription s) 0
                 (length (channels imgInf))).
    set (old := List.filter (survives (observers s)) (subscriptions s)).
    rewrite List.filter_app, !length_app, !channel_subscriptions_length.
    rewrite (survives_fresh (map fst cs) (next_subscription s) old).
    + rewrite (survives_none (map fst cs) cs);
        [subst cs; rewrite channel_subscriptions_length; simpl; lia |].
      apply Forall_forall. intros sub Hsub.
      apply in_map. apply list_elem_of_In. exact Hsub.
    + apply Forall_forall. intros sub Hsub. subst old.
      apply list_elem_of_In, filter_In in Hsub. destruct Hsub as [Hsub _].
      unfold fresh_handles in Hfresh. rewrite Forall_forall in Hfresh.
      apply Hfresh. apply list_elem_of_In. exact Hsub.
    + apply Forall_forall. intros h0 Hh.
      apply list_elem_of_In, in_map_iff in Hh.
      destruct Hh as (sub & <- & Hsub).
      pose proof (channel_subscriptions_handles (next_subscription s) 0
                    (length (channels imgInf))) as Hall.
      rewrite Forall_forall in Hall.
      specialize (Hall sub). rewrite list_elem_of_In in Hall.
      specialize (Hall Hsub). simpl in Hall. lia.
Qed.

Lemma registerObservers_no_leak_witness :
  length (subscriptions
            (exec registerObservers
               (exec registerObservers
                  (Samples.settings
                     [Samples.channel_5_250; Samples.channel_m10_300]))))
  = 8%nat.
Proof.
  destruct (registerObservers_no_leak
              (Samples.settings
                 [Samples.channel_5_250; Samples.channel_m10_300]))
    as [_ H].
  destruct (H _ eq_refl) as (_ & _ & Hs & _ & Hf).
  destruct Hf as [_ Hl]; [constructor |].
  rewrite Hl, Hs. reflexivity.
Defined.
Lemma assign_mode_frame (v : option Z) (s : State) :
  let s' := exec (assign_mode v) s in
  observers s' = observers s /\
  subscriptions s' = subscriptions s /\
  next_subscription s' = next_subscription s /\
  image_info s' = image_info s /\
  subscribed s' = subscribed s /\
  click_handlers s' = click_handlers s /\
  config_id s' = config_id s.
Proof.
  unfold assign_mode, exec, modify. simpl.
  destruct (decide (mode s = v)); repeat split.
Qed.

Lemma bind_run (s : State) (imgInf : ImageInfo) :
  image_info s = Some imgInf ->
  exists s1,
    registerObservers (set_subscribed true s) = (Normal tt, s1) /\
    bind s
    = assign_mode
        (Some (if existsb outside_min_max (channels imgInf)
               then FULL_RANGE else MIN_MAX))
        (set_click_handlers 1 (set_click_handlers 0 s1)).
Proof.
  intros Hinfo.
  destruct (channel_registerObservers_run (set_subscribed true s) imgInf Hinfo)
    as (s1 & E1 & F1 & _).
  exists s1. split; [exact E1 |].
  destruct F1 as (_ & I1 & _). simpl in I1. rewrite Hinfo in I1.
  unfold bind, and_then, subscribe, modify, get. rewrite E1. simpl.
  rewrite I1, needsFullRangeMode_existsb. simpl.
  destruct (existsb outside_min_max (channels imgInf)); reflexivity.
Qed.

(** X17. [unbind] after [bind] gives back what [bind] took: on an
    instance that holds an image info and no observers, with handles
    handed out in increasing order, the two calls return, the live
    subscriptions are exactly those from before [bind], [observers] is
    empty, the instance is unsubscribed from the event bus and its
    [image_info] is [null].  The mode that [bind] derived is kept. *)
Theorem bind_unbind (s : State) (imgInf : ImageInfo) :
  image_info s = Some imgInf ->
  fresh_handles s ->
  observers s = [] ->
  let s' := exec (bind ;; unbind) s in
  completion (bind ;; unbind) s = Normal tt /\
  subscriptions s' = subscriptions s /\
  observers s' = [] /\
  subscribed s' = false /\
  image_info s' = None /\
  mode s'
  = Some (if existsb outside_min_max (channels imgInf)
          then FULL_RANGE else MIN_MAX).
Proof.
  intros Hinfo Hfresh Ho s'.
  destruct (bind_run s imgInf Hinfo) as (s1 & E1 & Hb).
  destruct (channel_registerObservers_run (set_subscribed true s) imgInf Hinfo)
    as (t1 & E1' & F1 & O1 & N1 & S1).
  rewrite E1 in E1'. injection E1' as <-.
  simpl in O1, N1, S1. rewrite Ho in S1.
  set (m := Some (if existsb outside_min_max (channels imgInf)
                  then FULL_RANGE else MIN_MAX)) in *.
  set (t := exec (assign_mode m)
              (set_click_handlers 1 (set_click_handlers 0 s1))).
  assert (Hbt : bind s = (Normal tt, t)) by (rewrite Hb; reflexivity).
  destruct (assign_mode_frame m
              (set_click_handlers 1 (set_click_handlers 0 s1)))
    as (A1 & A2 & A3 & A4 & A5 & A6 & A7).
  fold t in A1, A2, A3, A4, A5, A6, A7. simpl in A1, A2, A3, A4, A5, A6, A7.
  destruct (unregisterObservers_run (set_subscribed false t))
    as (u & Eu & Fu & Ou & Nu & Su).
  simpl in Ou, Nu, Su.
  assert (Hrun : (bind ;; unbind) s = (Normal tt, set_image_info None u)).
  { unfold and_then at 1. rewrite Hbt.
    unfold unbind, and_then, unsubscribe, modify. rewrite Eu. reflexivity. }
  subst s'. unfold completion, exec. rewrite Hrun. simpl.
  split; [reflexivity |].
  destruct Fu as (U1 & U2 & U3 & U4 & U5 & U6 & U7). simpl in *.
  split.
  { rewrite Su, A1, A2, O1, S1.
    set (cs := channel_subscriptions (next_subscription s) 0
                 (length (channels imgInf))).
    rewrite List.filter_app.
    rewrite (survives_none (map fst cs) cs).
    - rewrite app_nil_r.
      rewrite (filter_all (survives [])) by (apply Forall_forall; reflexivity).
      apply (survives_fresh _ (next_subscription s)); [exact Hfresh |].
      apply Forall_forall. intros h0 Hh.
      apply list_elem_of_In, in_map_iff in Hh.
      destruct Hh as (sub & <- & Hsub).
      pose proof (channel_subscriptions_handles (next_subscription s) 0
                    (length (channels imgInf))) as Hall.
      rewrite Forall_forall in Hall.
      specialize (Hall sub). rewrite list_elem_of_In in Hall.
      specialize (Hall Hsub). simpl in Hall. lia.
    - apply Forall_forall. intros sub Hsub.
      apply in_map. apply list_elem_of_In. exact Hsub. }
  split; [exact Ou |]. split; [exact U4 |]. split; [reflexivity |].
  rewrite U3. subst t. apply assign_mode_mode.
Qed.

Lemma bind_unbind_witness :
  subscriptions
    (exec (bind ;; unbind)
       (Samples.settings [Samples.channel_5_250; Samples.channel_m10_300]))
  = [].
Proof.
  destruct (bind_unbind
              (Samples.settings [Samples.channel_5_250; Samples.channel_m10_300])
              _ eq_refl) as (_ & Hs & _); [constructor | reflexivity |].
  rewrite Hs. reflexivity.
Defined.
(** X18. [onImageConfigChange] ignores a notification whose id is not the
    id of the instance, and one for which the context knows no
    configuration: the state is left as it was.  For its own, known
    configuration it takes over the image info of that configuration and
    binds again: the mode is derived from the new channels and four
    observers per new channel are held. *)
Theorem onImageConfigChange_rebinds
    (getImageConfig : option Z -> option ImageConfig)
    (params_config_id : ConfigId) (s : State) :
  (differs params_config_id (config_id s) = true ->
   onImageConfigChange getImageConfig params_config_id s = (Normal tt, s)) /\
  (forall n, params_config_id = id_number n -> config_id s = Some n ->
     (getImageConfig (Some n) = None ->
      exec (onImageConfigChange getImageConfig params_config_id) s = s) /\
     (forall conf, getImageConfig (Some n) = Some conf ->
        let s' := exec (onImageConfigChange getImageConfig params_config_id) s in
        completion (onImageConfigChange getImageConfig params_config_id) s
        = Normal tt /\
        config_id s' = Some n /\
        image_info s' = Some (image_info_of conf) /\
        mode s'
        = Some (if existsb outside_min_max (channels (image_info_of conf))
                then FULL_RANGE else MIN_MAX) /\
        length (observers s')
        = (4 * length (channels (image_info_of conf)))%nat)).
Proof.
  split.
  - intros Hd. unfold onImageConfigChange, and_then, get.
    rewrite Hd. reflexivity.
  - intros n -> Hid.
    assert (Hnd : differs (id_number n) (config_id s) = false)
      by (rewrite Hid; simpl; rewrite Z.eqb_refl; reflexivity).
    split.
    + intros Hnone. unfold exec, onImageConfigChange, and_then, get, modify.
      rewrite Hnd, Hnone. simpl.
      destruct s. simpl in *. subst. reflexivity.
    + intros conf Hconf s'.
      set (t := set_image_info (Some (image_info_of conf))
                  (set_config_id (Some n) s)).
      assert (Hrun : onImageConfigChange getImageConfig (id_number n) s
                     = bind t).
      { unfold onImageConfigChange, and_then, get, modify.
        rewrite Hnd, Hconf. reflexivity. }
      assert (Hinfo : image_info t = Some (image_info_of conf)) by reflexivity.
      destruct (bind_run t _ Hinfo) as (s1 & E1 & Hb).
      assert (Hc : completion bind t = Normal tt)
        by (unfold completion; rewrite Hb; reflexivity).
      assert (Hm : mode (exec bind t)
                   = Some (if existsb outside_min_max
                                (channels (image_info_of conf))
                           then FULL_RANGE else MIN_MAX))
        by (unfold exec; rewrite Hb; apply assign_mode_mode).
      destruct (channel_registerObservers_run (set_subscribed true t) _ Hinfo)
        as (t1 & E1' & F1 & O1 & _).
      rewrite E1 in E1'. injection E1' as <-.
      destruct (assign_mode_frame
                  (Some (if existsb outside_min_max
                              (channels (image_info_of conf))
                         then FULL_RANGE else MIN_MAX))
                  (set_click_handlers 1 (set_click_handlers 0 s1)))
        as (A1 & _ & _ & A4 & _ & _ & A7).
      destruct F1 as (G1 & G2 & _).
      assert (Hs' : s' = exec bind t)
        by (subst s'; unfold exec; rewrite Hrun; reflexivity).
      assert (Hbt : exec bind t
                    = exec (assign_mode
                              (Some (if existsb outside_min_max
                                          (channels (image_info_of conf))
                                     then FULL_RANGE else MIN_MAX)))
                        (set_click_handlers 1 (set_click_handlers 0 s1)))
        by (unfold exec; rewrite Hb; reflexivity).
      split; [unfold completion in *; rewrite Hrun; exact Hc |].
      rewrite Hs'.
      split; [rewrite Hbt; simpl in *; rewrite A7, G1; reflexivity |].
      split; [rewrite Hbt; simpl in *; rewrite A4, G2; reflexivity |].
      split; [exact Hm |].
      rewrite Hbt. simpl in *.
      rewrite A1, O1, length_map. apply channel_subscriptions_length.
Qed.

Lemma onImageConfigChange_rebinds_witness :
  mode (exec (onImageConfigChange
                (fun _ => Some MoreSamples.other_config) (id_number 1))
          (Samples.settings [Samples.channel_5_250]))
  = Some FULL_RANGE /\
  onImageConfigChange (fun _ => Some MoreSamples.other_config) (id_number 2)
    (Samples.settings [Samples.channel_5_250])
  = (Normal tt, Samples.settings [Samples.channel_5_250]).
Proof.
  destruct (onImageConfigChange_rebinds
              (fun _ => Some MoreSamples.other_config) (id_number 1)
              (Samples.settings [Samples.channel_5_250])) as [_ H].
  destruct (H 1 eq_refl eq_refl) as [_ H'].
  destruct (H' MoreSamples.other_config eq_refl) as (_ & _ & _ & Hm & _).
  split; [rewrite Hm; reflexivity |].
  apply onImageConfigChange_rebinds. reflexivity.
Defined.
(** *** Channel changes *)

Lemma propagateChannelChanges_this (index : nat) (env : Env) :
  this (exec (propagateChannelChanges index) env) = this env.
Proof.
  unfold propagateChannelChanges, exec, and_then, get, publish, modify, throw.
  destruct (image_info (this env)) as [imgInf |]; [| reflexivity].
  destruct (channels imgInf !! index); reflexivity.
Qed.

Lemma assign_active_this (index : nat) (a : bool) (env : Env)
    (imgInf : ImageInfo) (c : Channel) :
  image_info (this env) = Some imgInf ->
  channels imgInf !! index = Some c ->
  this (exec (assign_active index a) env)
  = set_image_info
      (Some (with_channels (<[index := with_active a c]> (channels imgInf))
               imgInf))
      (this env).
Proof.
  intros Hinfo Hc. unfold assign_active, exec, and_then at 1, get.
  rewrite Hinfo, Hc. unfold and_then, modify.
  destruct (Bool.eqb (active c) a); [reflexivity |].
  match goal with
  | |- this (snd (for_each ?f ?l ?e)) = ?t =>
      apply (for_each_preserves (fun e' => this e' = t) f l);
        [| reflexivity]
  end.
  intros sub e' He'.
  destruct (bool_decide (snd sub = (index, (None, "active"))));
    [| exact He'].
  rewrite propagateChannelChanges_this. exact He'.
Qed.

Lemma toggleChannel_this (index : Z) (env : Env) (imgInf : ImageInfo)
    (c : Channel) :
  image_info (this env) = Some imgInf ->
  channel_at imgInf index = Some c ->
  this (exec (toggleChannel index) env)
  = set_image_info
      (Some (with_channels
               (<[Z.to_nat index := with_active (negb (active c)) c]>
                  (channels imgInf))
               imgInf))
      (this env).
Proof.
  intros Hinfo Hc.
  assert (Hc' : channels imgInf !! Z.to_nat index = Some c).
  { unfold channel_at in Hc. destruct (Z.leb 0 index); [exact Hc | discriminate]. }
  unfold toggleChannel, exec, and_then at 1, get. rewrite Hinfo, Hc.
  destruct (active c) eqn:Ha;
    apply (assign_active_this _ _ env imgInf c Hinfo Hc').
Qed.

(** X19. [toggleChannel] on an index that names no channel, or without an
    image info, throws and leaves everything as it was.  On an existing
    channel it flips [active] of that channel and writes nothing else of
    the image info (colour, window and the other channels are kept); two
    toggles of the same channel give back the image info they started
    from. *)
Theorem toggleChannel_involution (index : Z) (env : Env) :
  ((image_info (this env) = None \/
    exists imgInf, image_info (this env) = Some imgInf /\
                   channel_at imgInf index = None) ->
   exec (toggleChannel index) env = env /\
   completion (toggleChannel index) env <> Normal tt) /\
  (forall imgInf c,
     image_info (this env) = Some imgInf ->
     channel_at imgInf index = Some c ->
     let env1 := exec (toggleChannel index) env in
     let env2 := exec (toggleChannel index) env1 in
     image_info (this env1)
     = Some (with_channels
               (<[Z.to_nat index := with_active (negb (active c)) c]>
                  (channels imgInf))
               imgInf) /\
     image_info (this env2) = Some imgInf).
Proof.
  split.
  - intros [Hnone | (imgInf & Hinfo & Hc)];
      unfold toggleChannel, exec, completion, and_then, get, throw.
    + rewrite Hnone. split; [reflexivity | discriminate].
    + rewrite Hinfo, Hc. split; [reflexivity | discriminate].
  - intros imgInf c Hinfo Hc env1 env2.
    assert (H1 : this env1
                 = set_image_info
                     (Some (with_channels
                              (<[Z.to_nat index :=
                                   with_active (negb (active c)) c]>
                                 (channels imgInf))
                              imgInf))
                     (this env))
      by (apply toggleChannel_this; assumption).
    split; [rewrite H1; reflexivity |].
    assert (Hc' : channels imgInf !! Z.to_nat index = Some c).
    { unfold channel_at in Hc.
      destruct (Z.leb 0 index); [exact Hc | discriminate]. }
    assert (Hlt : (Z.to_nat index < length (channels imgInf))%nat)
      by (eapply lookup_lt_Some; exact Hc').
    subst env2.
    rewrite (toggleChannel_this index env1
               (with_channels
                  (<[Z.to_nat index := with_active (negb (active c)) c]>
                     (channels imgInf))
                  imgInf)
               (with_active (negb (active c)) c)).
    + simpl. f_equal. unfold with_channels. simpl.
      rewrite list_insert_insert_eq.
      replace (with_active (negb (negb (active c)))
                 (with_active (negb (active c)) c)) with c
        by (destruct c as [a col w]; simpl; unfold with_active; simpl;
            rewrite negb_involutive; reflexivity).
      rewrite list_insert_id by exact Hc'.
      destruct imgInf; reflexivity.
    + rewrite H1. reflexivity.
    + unfold channel_at in *. simpl.
      destruct (Z.leb 0 index); [| discriminate].
      apply list_lookup_insert_eq. exact Hlt.
Qed.

Lemma toggleChannel_involution_witness :
  image_info
    (this (exec (toggleChannel 1) (exec (toggleChannel 1) MoreSamples.bus)))
  = image_info (this MoreSamples.bus) /\
  exec (toggleChannel 2) MoreSamples.bus = MoreSamples.bus.
Proof.
  destruct (toggleChannel_involution 1 MoreSamples.bus) as [_ H].
  destruct (toggleChannel_involution 2 MoreSamples.bus) as [H2 _].
  split.
  - destruct (H _ Samples.channel_m10_300 eq_refl eq_refl) as [_ H'].
    exact H'.
  - apply H2. right. eexists. split; reflexivity.
Defined.
(** X20. Toggling a channel whose [active] property has one live
    observer returns and publishes exactly one settings change: the range
    of that channel, with its index, its window and colour as they are and
    the new [active] flag. *)
Theorem toggleChannel_publishes (index : Z) (env : Env) (imgInf : ImageInfo)
    (c : Channel) (sub : nat * Observed) :
  image_info (this env) = Some imgInf ->
  channel_at imgInf index = Some c ->
  List.filter
    (fun sub : nat * Observed =>
       bool_decide (snd sub = (Z.to_nat index, (None, "active"))))
    (subscriptions (this env)) = [sub] ->
  completion (toggleChannel index) env = Normal tt /\
  published (exec (toggleChannel index) env)
  = published env ++
    [IMAGE_SETTINGS_CHANGE_ranges (config_id (this env))
       [{| Range.index := Z.to_nat index;
           Range.start := Window.start (window c);
           Range.end_ := Window.end_ (window c);
           Range.color := color c;
           Range.active := negb (active c) |}]].
Proof.
  intros Hinfo Hc Hsub.
  assert (Hc' : channels imgInf !! Z.to_nat index = Some c).
  { unfold channel_at in Hc.
    destruct (Z.leb 0 index); [exact Hc | discriminate]. }
  assert (Hlt : (Z.to_nat index < length (channels imgInf))%nat)
    by (eapply lookup_lt_Some; exact Hc').
  assert (Hidx : fst (snd sub) = Z.to_nat index).
  { assert (Hin : In sub [sub]) by (left; reflexivity).
    rewrite <- Hsub in Hin. apply filter_In in Hin. destruct Hin as [_ Hb].
    apply bool_decide_eq_true in Hb. rewrite Hb. reflexivity. }
  assert (Hrun : toggleChannel index env
    = (Normal tt,
       {| this :=
            set_image_info
              (Some (with_channels
                       (<[Z.to_nat index := with_active (negb (active c)) c]>
                          (channels imgInf))
                       imgInf))
              (this env);
          published :=
            published env ++
            [IMAGE_SETTINGS_CHANGE_ranges (config_id (this env))
               [{| Range.index := Z.to_nat index;
                   Range.start := Window.start (window c);
                   Range.end_ := Window.end_ (window c);
                   Range.color := color c;
                   Range.active := negb (active c) |}]] |})).
  { unfold toggleChannel, and_then at 1, get. rewrite Hinfo, Hc.
    assert (Hassign : forall a, a = negb (active c) ->
      assign_active (Z.to_nat index) a env
      = (Normal tt,
         {| this :=
              set_image_info
                (Some (with_channels
                         (<[Z.to_nat index := with_active a c]>
                            (channels imgInf))
                         imgInf))
                (this env);
            published :=
              published env ++
              [IMAGE_SETTINGS_CHANGE_ranges (config_id (this env))
                 [{| Range.index := Z.to_nat index;
                     Range.start := Window.start (window c);
                     Range.end_ := Window.end_ (window c);
                     Range.color := color c;
                     Range.active := a |}]] |})).
    { intros a Ha. unfold assign_active, and_then at 1, get.
      rewrite Hinfo, Hc'. unfold and_then at 1, modify.
      assert (Hne : Bool.eqb (active c) a = false)
        by (subst a; destruct (active c); reflexivity).
      rewrite Hne, for_each_filter_with, Hsub. simpl.
      rewrite Hidx.
      unfold propagateChannelChanges, and_then, get. simpl.
      rewrite (list_lookup_insert_eq _ _ _ Hlt).
      reflexivity. }
    destruct (active c) eqn:Ha; rewrite Hassign; reflexivity. }
  unfold completion, exec. rewrite Hrun. split; reflexivity.
Qed.

Lemma toggleChannel_publishes_witness :
  published (exec (toggleChannel 1) MoreSamples.bus)
  = [IMAGE_SETTINGS_CHANGE_ranges (Some 1)
       [{| Range.index := 1;
           Range.start := inject_Z (-10);
           Range.end_ := inject_Z 300;
           Range.color := "00FF00";
           Range.active := false |}]].
Proof.
  destruct (toggleChannel_publishes 1 MoreSamples.bus _
              Samples.channel_m10_300 (4%nat, (1%nat, (None, "active")))
              eq_refl eq_refl) as [_ H]; [reflexivity |].
  rewrite H. reflexivity.
Defined.

End ChannelSettingsMore.
